(** * VisaGeneralRegistration: local authentication and lockout

    A shallow embedding of [src/services/storage.ts] (the credential and
    session store) and of [src/services/auth.ts] (the authentication
    service), together with the properties the specification states about
    registration, login, logout and the lockout window.

    Conventions of the embedding.
    - An [async] function is a computation in the monad [M]: it threads the
      device state ([World]) and either returns a value or throws. A
      [try { .. } catch { .. }] block is [try_catch].
    - The two platform backends (the keychain slot and AsyncStorage) can
      reject any call. The [faults] field of the world is the schedule of
      those rejections: each backend call consumes one entry; an exhausted
      schedule means that every later call is served.
    - JavaScript numbers are integers here, with [NaN] kept apart. Every
      number the service computes is an integer far below 2^53, where
      double arithmetic is exact; [Math.ceil (a / b)] is the integer
      ceiling of the quotient.
    - The clock stands still while one operation runs; [advance] lets time
      pass between two operations.
    - [console.error] only writes diagnostics and is left out.
    - A string is read through its UTF-16 code units ([code_units]), as
      JavaScript reads it.
    - [AuthService] calls two methods that the class [StorageService] does
      not have, [setSessionActive] and [clearSession]. Such a call throws,
      and the [catch] of the caller takes over. The session flag of the
      specification's data model is the field [session] of the world; no
      function of the two classes writes it. *)

From Stdlib Require Import ZArith Lia Ascii String DecimalString DecimalZ DecimalPos.
From stdpp Require Import base option gmap strings list fin_maps.

Local Open Scope string_scope.
Local Open Scope Z_scope.

(** ** JavaScript numbers and their decimal text *)

Inductive number : Type :=
| Num (z : Z)
| NaN.

Definition num_add (a b : number) : number :=
  match a, b with
  | Num x, Num y => Num (x + y)
  | _, _ => NaN
  end.

Definition num_sub (a b : number) : number :=
  match a, b with
  | Num x, Num y => Num (x - y)
  | _, _ => NaN
  end.

(** [a >= b] and [a > b]: every comparison with [NaN] is false. *)
Definition num_ge (a b : number) : bool :=
  match a, b with
  | Num x, Num y => y <=? x
  | _, _ => false
  end.

Definition num_gt (a b : number) : bool :=
  match a, b with
  | Num x, Num y => y <? x
  | _, _ => false
  end.

(** Integer ceiling of [a / b], for [0 < b]. *)
Definition ceil_div (a b : Z) : Z := - ((- a) / b).

(** [Math.ceil(a / b)] for a constant divisor [b]. *)
Definition Math_ceil_div (a : number) (b : Z) : number :=
  match a with
  | Num x => Num (ceil_div x b)
  | NaN => NaN
  end.

(** [n.toString()] *)
Definition toString (n : number) : string :=
  match n with
  | Num z => NilZero.string_of_int (Z.to_int z)
  | NaN => "NaN"
  end.

(** ** JavaScript strings

    A JavaScript string is a sequence of UTF-16 code units. A [string] of
    this development holds the text in UTF-8, as its string literals do,
    and [code_units] gives the code units that text has in JavaScript: one
    for a character of the basic plane, a surrogate pair for a character
    beyond it. Two strings are equal exactly when their code units are.
    What JavaScript does with the characters of a string ([length], [trim],
    a regular expression, [parseInt]) is done here on its code units. A
    byte outside a well-formed sequence is read as the code unit of its own
    number, which makes [code_units] total. *)

(** A byte [10xxxxxx], which continues a sequence. *)
Definition continuation (b : N) : bool := ((128 <=? b) && (b <=? 191))%N.

Fixpoint code_units (s : string) : list N :=
  match s with
  | EmptyString => []
  | String c0 s0 =>
      let b0 := N_of_ascii c0 in
      if (b0 <? 128)%N then b0 :: code_units s0
      else
        match s0 with
        | String c1 s1 =>
            let b1 := N_of_ascii c1 in
            if ((194 <=? b0) && (b0 <=? 223) && continuation b1)%N
            then ((b0 - 192) * 64 + (b1 - 128))%N :: code_units s1
            else
              match s1 with
              | String c2 s2 =>
                  let b2 := N_of_ascii c2 in
                  if ((224 <=? b0) && (b0 <=? 239) && continuation b1
                      && continuation b2)%N
                  then ((b0 - 224) * 4096 + (b1 - 128) * 64 + (b2 - 128))%N
                         :: code_units s2
                  else
                    match s2 with
                    | String c3 s3 =>
                        let b3 := N_of_ascii c3 in
                        let point :=
                          ((b0 - 240) * 262144 + (b1 - 128) * 4096
                           + (b2 - 128) * 64 + (b3 - 128))%N in
                        if ((240 <=? b0) && (b0 <=? 244) && continuation b1
                            && continuation b2 && continuation b3
                            && (65536 <=? point) && (point <=? 1114111))%N
                        then (55296 + (point - 65536) / 1024)%N
                               :: (56320 + (point - 65536) mod 1024)%N
                               :: code_units s3
                        else b0 :: code_units s0
                    | EmptyString => b0 :: code_units s0
                    end
              | EmptyString => b0 :: code_units s0
              end
        | EmptyString => b0 :: code_units s0
        end
  end.

(** White space and line terminators: what [trim] strips, what [\s]
    matches and what [parseInt] skips. TAB to CR, SP, NBSP, U+1680,
    U+2000 to U+200A, U+2028, U+2029, U+202F, U+205F, U+3000, U+FEFF. *)
Definition is_whitespace (u : N) : bool :=
  (((9 <=? u) && (u <=? 13)) || (u =? 32) || (u =? 160) || (u =? 5760)
   || ((8192 <=? u) && (u <=? 8202)) || (u =? 8232) || (u =? 8233)
   || (u =? 8239) || (u =? 8287) || (u =? 12288) || (u =? 65279))%N.

Fixpoint trim_start (l : list N) : list N :=
  match l with
  | u :: l' => if is_whitespace u then trim_start l' else l
  | [] => []
  end.

Definition digit_value (u : N) : option Z :=
  if ((48 <=? u) && (u <=? 57))%N then Some (Z.of_N (u - 48)) else None.

(** The longest prefix of decimal digits, most significant first; [acc] is
    [None] until a digit has been read. *)
Fixpoint parse_digits (l : list N) (acc : option Z) : option Z :=
  match l with
  | u :: l' =>
      match digit_value u with
      | Some d => parse_digits l' (Some (10 * default 0 acc + d))
      | None => acc
      end
  | [] => acc
  end.

(** [parseInt(s, 10)]: leading white space, an optional sign, then digits;
    [NaN] when no digit follows. *)
Definition parseInt10 (s : string) : number :=
  let t := trim_start (code_units s) in
  let '(negative, body) :=
    match t with
    | u :: t' =>
        if (u =? 45)%N then (true, t')          (* - *)
        else if (u =? 43)%N then (false, t')    (* + *)
        else (false, t)
    | [] => (false, t)
    end in
  match parse_digits body None with
  | Some z => Num (if negative then - z else z)
  | None => NaN
  end.

(** A string is truthy unless it is empty. *)
Definition truthy (s : string) : bool :=
  match s with
  | EmptyString => false
  | String _ _ => true
  end.

(** ** Types ([src/types/index.ts]) *)

Module User.
Record t : Type := mk
  { email : string; firstName : string; lastName : string; phoneNumber : string }.
End User.

Module RegistrationFormData.
Record t : Type := mk
  { email : string; password : string; confirmPassword : string;
    firstName : string; lastName : string; phoneNumber : string }.
End RegistrationFormData.

Module LoginFormData.
Record t : Type := mk { email : string; password : string }.
End LoginFormData.

(** [Partial<RegistrationFormData>]: every field may be missing. *)
Module PartialRegistration.
Record t : Type := mk
  { email : option string; password : option string;
    confirmPassword : option string; firstName : option string;
    lastName : option string; phoneNumber : option string }.
End PartialRegistration.

(** What [getCredentials] returns. *)
Module Credentials.
Record t : Type := mk { email : string; password : string }.
End Credentials.

(** ** The device state *)

(** The text held under an AsyncStorage key. [JSON.stringify] and
    [JSON.parse] belong to the platform: a JSON text is kept as the object it
    encodes, so that parsing what was stringified gives the object back and
    fields that are [undefined] are simply absent. Plain text (the decimal
    numbers of the lockout state) is kept as the string itself. *)
Inductive Stored : Type :=
| Text (s : string)
| JsonUser (u : User.t)
| JsonDraft (d : PartialRegistration.t).

Record World : Type := mkWorld
  { keychain : option (string * string);  (* the slot of service 'VisaGeneralRegistration' *)
    async : gmap string Stored;           (* AsyncStorage *)
    session : bool;                       (* the session flag of the data model *)
    now : Z;                              (* the clock, in milliseconds *)
    faults : list bool }.                 (* rejections of the coming backend calls *)

Definition set_keychain (k : option (string * string)) (w : World) : World :=
  mkWorld k (async w) (session w) (now w) (faults w).
Definition set_async (a : gmap string Stored) (w : World) : World :=
  mkWorld (keychain w) a (session w) (now w) (faults w).
Definition set_session (b : bool) (w : World) : World :=
  mkWorld (keychain w) (async w) b (now w) (faults w).
Definition set_now (t : Z) (w : World) : World :=
  mkWorld (keychain w) (async w) (session w) t (faults w).
Definition set_faults (f : list bool) (w : World) : World :=
  mkWorld (keychain w) (async w) (session w) (now w) f.

(** Time passes between two operations. *)
Definition advance (d : Z) (w : World) : World := set_now (now w + d) w.

(** ** Asynchronous computations *)

Inductive outcome (A : Type) : Type :=
| Ok (a : A)
| Throw.
Arguments Ok {A} a.
Arguments Throw {A}.

Definition M (A : Type) : Type := World -> outcome A * World.

Definition M_ret {A} (a : A) : M A := fun w => (Ok a, w).

Definition M_bind {A B} (f : A -> M B) (m : M A) : M B := fun w =>
  match m w with
  | (Ok a, w') => f a w'
  | (Throw, w') => (Throw, w')
  end.

#[export] Instance M_mret : MRet M := @M_ret.
#[export] Instance M_mbind : MBind M := @M_bind.

(** [try { body } catch (error) { handler }] *)
Definition try_catch {A} (body handler : M A) : M A := fun w =>
  match body w with
  | (Ok a, w') => (Ok a, w')
  | (Throw, w') => handler w'
  end.

Definition gets {A} (f : World -> A) : M A := fun w => (Ok (f w), w).
Definition modify (f : World -> World) : M unit := fun w => (Ok tt, f w).

(** ** The platform backends *)

(** One call to a backend: served, or rejected as the schedule says. *)
Definition backend_call : M unit := fun w =>
  match faults w with
  | [] => (Ok tt, w)
  | rejected :: later => (if rejected then Throw else Ok tt, set_faults later w)
  end.

Definition Keychain_setGenericPassword (username password : string) : M bool :=
  backend_call ;; modify (set_keychain (Some (username, password))) ;; mret true.

Definition Keychain_getGenericPassword : M (option (string * string)) :=
  backend_call ;; gets keychain.

Definition Keychain_resetGenericPassword : M bool :=
  backend_call ;; modify (set_keychain None) ;; mret true.

Definition AsyncStorage_setItem (key : string) (value : Stored) : M unit :=
  backend_call ;; modify (fun w => set_async (<[key := value]> (async w)) w).

Definition AsyncStorage_getItem (key : string) : M (option Stored) :=
  backend_call ;; gets (fun w => async w !! key).

Definition AsyncStorage_removeItem (key : string) : M unit :=
  backend_call ;; modify (fun w => set_async (delete key (async w)) w).

Definition Date_now : M number := gets (fun w => Num (now w)).

(** [if (data)] on what [getItem] returned: [null] and the empty string are
    falsy. *)
Definition present (data : option Stored) : bool :=
  match data with
  | Some (Text s) => truthy s
  | Some _ => true
  | None => false
  end.

(** [parseInt(data, 10)] on a stored text; a JSON object text starts with a
    brace and has no leading digits. *)
Definition parseInt (data : option Stored) : number :=
  match data with
  | Some (Text s) => parseInt10 s
  | _ => NaN
  end.

(** [JSON.parse(data) as User]. The profile key is written by
    [storeUserData] alone; a text of another shape under it is taken as a
    parse error. *)
Definition JSON_parse_User (data : option Stored) : M User.t :=
  match data with
  | Some (JsonUser u) => mret u
  | _ => fun w => (Throw, w)
  end.

(** [JSON.parse(data) as Partial<RegistrationFormData>]; a stored profile
    read at this type has the four profile fields. *)
Definition JSON_parse_Partial (data : option Stored) : M PartialRegistration.t :=
  match data with
  | Some (JsonDraft d) => mret d
  | Some (JsonUser u) =>
      mret (PartialRegistration.mk (Some (User.email u)) None None
              (Some (User.firstName u)) (Some (User.lastName u))
              (Some (User.phoneNumber u)))
  | _ => fun w => (Throw, w)
  end.

(** ** StorageService ([src/services/storage.ts]) *)

Definition PARTIAL_REGISTRATION : string := "@partial_registration".
Definition FAILED_LOGIN_ATTEMPTS : string := "@failed_login_attempts".
Definition LOCKOUT_TIMESTAMP : string := "@lockout_timestamp".
Definition USER_DATA : string := "@user_data".

Definition LOCKOUT_DURATION : Z := 15 * 60 * 1000.
Definition MAX_FAILED_ATTEMPTS : Z := 5.

Definition storeCredentials (email password : string) : M bool :=
  try_catch
    (Keychain_setGenericPassword email password ;; mret true)
    (mret false).

Definition getCredentials : M (option Credentials.t) :=
  try_catch
    (credentials ← Keychain_getGenericPassword;
     match credentials with
     | Some (username, password) => mret (Some (Credentials.mk username password))
     | None => mret None
     end)
    (mret None).

Definition clearCredentials : M bool :=
  try_catch
    (Keychain_resetGenericPassword ;; mret true)
    (mret false).

Definition storeUserData (user : User.t) : M bool :=
  try_catch
    (AsyncStorage_setItem USER_DATA (JsonUser user) ;; mret true)
    (mret false).

Definition getUserData : M (option User.t) :=
  try_catch
    (data ← AsyncStorage_getItem USER_DATA;
     if present data then u ← JSON_parse_User data; mret (Some u)
     else mret None)
    (mret None).

Definition clearUserData : M bool :=
  try_catch
    (AsyncStorage_removeItem USER_DATA ;; mret true)
    (mret false).

Definition storePartialRegistration (data : PartialRegistration.t) : M bool :=
  try_catch
    (AsyncStorage_setItem PARTIAL_REGISTRATION (JsonDraft data) ;; mret true)
    (mret false).

Definition getPartialRegistration : M (option PartialRegistration.t) :=
  try_catch
    (data ← AsyncStorage_getItem PARTIAL_REGISTRATION;
     if present data then d ← JSON_parse_Partial data; mret (Some d)
     else mret None)
    (mret None).

Definition clearPartialRegistration : M bool :=
  try_catch
    (AsyncStorage_removeItem PARTIAL_REGISTRATION ;; mret true)
    (mret false).

Definition getFailedAttempts : M number :=
  try_catch
    (attempts ← AsyncStorage_getItem FAILED_LOGIN_ATTEMPTS;
     mret (if present attempts then parseInt attempts else Num 0))
    (mret (Num 0)).

Definition incrementFailedAttempts : M number :=
  try_catch
    (attempts ← getFailedAttempts;
     let newAttempts := num_add attempts (Num 1) in
     AsyncStorage_setItem FAILED_LOGIN_ATTEMPTS (Text (toString newAttempts)) ;;
     (if num_ge newAttempts (Num MAX_FAILED_ATTEMPTS)
      then t ← Date_now; AsyncStorage_setItem LOCKOUT_TIMESTAMP (Text (toString t))
      else mret tt) ;;
     mret newAttempts)
    (mret (Num 0)).

Definition resetFailedAttempts : M bool :=
  try_catch
    (AsyncStorage_removeItem FAILED_LOGIN_ATTEMPTS ;;
     AsyncStorage_removeItem LOCKOUT_TIMESTAMP ;;
     mret true)
    (mret false).

Definition isLockedOut : M bool :=
  try_catch
    (lockoutTimestamp ← AsyncStorage_getItem LOCKOUT_TIMESTAMP;
     if negb (present lockoutTimestamp) then mret false
     else
       let lockoutTime := parseInt lockoutTimestamp in
       now ← Date_now;
       let timeSinceLockout := num_sub now lockoutTime in
       if num_ge timeSinceLockout (Num LOCKOUT_DURATION)
       then resetFailedAttempts ;; mret false
       else mret true)
    (mret false).

Definition getRemainingLockoutTime : M number :=
  try_catch
    (lockoutTimestamp ← AsyncStorage_getItem LOCKOUT_TIMESTAMP;
     if negb (present lockoutTimestamp) then mret (Num 0)
     else
       let lockoutTime := parseInt lockoutTimestamp in
       now ← Date_now;
       let timeSinceLockout := num_sub now lockoutTime in
       let remaining := num_sub (Num LOCKOUT_DURATION) timeSinceLockout in
       mret (if num_gt remaining (Num 0) then Math_ceil_div remaining 1000 else Num 0))
    (mret (Num 0)).

Definition hasSession : M bool :=
  credentials ← getCredentials;
  userData ← getUserData;
  mret (bool_decide (credentials ≠ None) && bool_decide (userData ≠ None)).

Definition clearAll : M bool :=
  try_catch
    (clearCredentials ;; clearUserData ;; clearPartialRegistration ;;
     resetFailedAttempts ;; mret true)
    (mret false).

(** A call of a method that a class does not have: [StorageService.f] is
    [undefined] there, and calling it throws a [TypeError]. *)
Definition not_a_function {A : Type} : M A := fun w => (Throw, w).

(** [StorageService.setSessionActive] and [StorageService.clearSession]:
    [AuthService] calls them, and the class [StorageService] of
    [src/services/storage.ts] has no method of either name. *)
Definition setSessionActive (active : bool) : M bool := not_a_function.

Definition clearSession : M bool := not_a_function.

(** ** AuthService ([src/services/auth.ts]) *)

Module RegisterResult.
Record t : Type := mk
  { success : bool; user : option User.t; error : option string }.
End RegisterResult.

Module LoginResult.
Record t : Type := mk
  { success : bool; user : option User.t; error : option string;
    lockedOut : option bool; remainingTime : option number }.
End LoginResult.

Module CheckAuthResult.
Record t : Type := mk { isAuthenticated : bool; user : option User.t }.
End CheckAuthResult.

(** [existingCredentials?.email === data.email] *)
Definition same_email (existing : option Credentials.t) (email : string) : bool :=
  match existing with
  | Some c => String.eqb (Credentials.email c) email
  | None => false
  end.

Definition new_user (data : RegistrationFormData.t) : User.t :=
  User.mk (RegistrationFormData.email data) (RegistrationFormData.firstName data)
          (RegistrationFormData.lastName data) (RegistrationFormData.phoneNumber data).

Definition register (data : RegistrationFormData.t) : M RegisterResult.t :=
  try_catch
    (existingCredentials ← getCredentials;
     if same_email existingCredentials (RegistrationFormData.email data)
     then mret (RegisterResult.mk false None
                  (Some "An account with this email already exists"))
     else
       let user := new_user data in
       credentialsStored ← storeCredentials (RegistrationFormData.email data)
                                            (RegistrationFormData.password data);
       if negb credentialsStored
       then mret (RegisterResult.mk false None (Some "Failed to store credentials"))
       else
         userDataStored ← storeUserData user;
         if negb userDataStored
         then clearCredentials ;;
              mret (RegisterResult.mk false None (Some "Failed to store user data"))
         else
           setSessionActive true ;;
           clearPartialRegistration ;;
           mret (RegisterResult.mk true (Some user) None))
    (mret (RegisterResult.mk false None
             (Some "An unexpected error occurred during registration"))).

Definition locked_message (remainingTime : number) : string :=
  "Account locked. Please try again in "
    ++ toString (Math_ceil_div remainingTime 60) ++ " minutes.".

Definition now_locked_message (remainingTime : number) : string :=
  "Too many failed attempts. Account locked for "
    ++ toString (Math_ceil_div remainingTime 60) ++ " minutes.".

Definition invalid_credentials : LoginResult.t :=
  LoginResult.mk false None (Some "Invalid email or password") None None.

Definition login (data : LoginFormData.t) : M LoginResult.t :=
  try_catch
    (isLockedOut' ← isLockedOut;
     if isLockedOut' : bool
     then
       remainingTime ← getRemainingLockoutTime;
       mret (LoginResult.mk false None (Some (locked_message remainingTime))
               (Some true) (Some remainingTime))
     else
       credentials ← getCredentials;
       match credentials with
       | None => incrementFailedAttempts ;; mret invalid_credentials
       | Some credentials =>
           if negb (String.eqb (Credentials.email credentials) (LoginFormData.email data))
              || negb (String.eqb (Credentials.password credentials)
                                  (LoginFormData.password data))
           then
             incrementFailedAttempts ;;
             isNowLockedOut ← isLockedOut;
             if isNowLockedOut : bool
             then
               remainingTime ← getRemainingLockoutTime;
               mret (LoginResult.mk false None (Some (now_locked_message remainingTime))
                       (Some true) (Some remainingTime))
             else mret invalid_credentials
           else
             resetFailedAttempts ;;
             setSessionActive true ;;
             user ← getUserData;
             match user with
             | None => mret (LoginResult.mk false None (Some "User data not found")
                               None None)
             | Some u => mret (LoginResult.mk true (Some u) None None None)
             end
       end)
    (mret (LoginResult.mk false None
             (Some "An unexpected error occurred during login") None None)).

Definition logout : M bool :=
  try_catch clearSession (mret false).

Definition checkAuth : M CheckAuthResult.t :=
  try_catch
    (hasSession' ← hasSession;
     if negb hasSession'
     then mret (CheckAuthResult.mk false None)
     else user ← getUserData; mret (CheckAuthResult.mk true user))
    (mret (CheckAuthResult.mk false None)).

(** ** RegistrationScreen ([src/screens/RegistrationScreen.tsx]) *)

(** The [watch] subscription: every change of the form saves the draft,
    built from four of the form's fields ("Don't save passwords"). *)
Definition watch_subscription (data : PartialRegistration.t) : M bool :=
  let partialData :=
    PartialRegistration.mk (PartialRegistration.email data) None None
      (PartialRegistration.firstName data) (PartialRegistration.lastName data)
      (PartialRegistration.phoneNumber data) in
  storePartialRegistration partialData.

(** A draft without its password fields. *)
Definition without_passwords (d : PartialRegistration.t) : PartialRegistration.t :=
  PartialRegistration.mk (PartialRegistration.email d) None None
    (PartialRegistration.firstName d) (PartialRegistration.lastName d)
    (PartialRegistration.phoneNumber d).

(** ** Vocabulary of the statements *)

(** Whether the backend rejects the coming call, and the world once that
    call has been made. *)
Definition rejected (w : World) : bool := hd false (faults w).
Definition pop (w : World) : World := set_faults (tl (faults w)) w.

(** The backends serve every call from this world on. *)
Definition reliable (w : World) : Prop := faults w = [].

Definition credentials_of (slot : option (string * string)) : option Credentials.t :=
  match slot with
  | Some (username, password) => Some (Credentials.mk username password)
  | None => None
  end.

(** The profile that a served read of the profile key gives. *)
Definition profile_of (data : option Stored) : option User.t :=
  match data with
  | Some (JsonUser u) => Some u
  | _ => None
  end.

(** The draft that a served read of the draft key gives. *)
Definition draft_of (data : option Stored) : option PartialRegistration.t :=
  match data with
  | Some (JsonDraft d) => Some d
  | Some (JsonUser u) =>
      Some (PartialRegistration.mk (Some (User.email u)) None None
              (Some (User.firstName u)) (Some (User.lastName u))
              (Some (User.phoneNumber u)))
  | _ => None
  end.

(** Milliseconds since the stored lockout timestamp. *)
Definition timeSinceLockout (w : World) : number :=
  num_sub (Num (now w)) (parseInt (async w !! LOCKOUT_TIMESTAMP)).

(** The count that [incrementFailedAttempts] writes. *)
Definition newAttempts (w : World) : number :=
  num_add (if rejected w then Num 0
           else if present (async w !! FAILED_LOGIN_ATTEMPTS)
                then parseInt (async w !! FAILED_LOGIN_ATTEMPTS) else Num 0)
          (Num 1).

(** The count that a served [getFailedAttempts] returns. *)
Definition stored_attempts (w : World) : number :=
  if present (async w !! FAILED_LOGIN_ATTEMPTS)
  then parseInt (async w !! FAILED_LOGIN_ATTEMPTS) else Num 0.

(** The submitted email and password do not match a stored credential;
    this includes the case where nothing is stored. *)
Definition mismatch (data : LoginFormData.t) (w : World) : Prop :=
  forall username password,
    keychain w = Some (username, password) ->
    username <> LoginFormData.email data \/ password <> LoginFormData.password data.

(** Login attempts made one after the other, each after some delay. *)
Fixpoint login_attempts (attempts : list (Z * LoginFormData.t)) (w : World) : World :=
  match attempts with
  | [] => w
  | (delay, data) :: rest => login_attempts rest (login data (advance delay w)).2
  end.

(** ** Sample inputs *)

Definition john : RegistrationFormData.t :=
  RegistrationFormData.mk "a@b.com" "Passw0rd" "Passw0rd" "John" "Doe" "1234567890".

Definition john_profile : User.t := User.mk "a@b.com" "John" "Doe" "1234567890".

Definition john_login : LoginFormData.t := LoginFormData.mk "a@b.com" "Passw0rd".

Definition wrong_password : LoginFormData.t := LoginFormData.mk "a@b.com" "wrong".

(** Another person registering on the same device. *)
Definition mary : RegistrationFormData.t :=
  RegistrationFormData.mk "c@d.com" "Secret123" "Secret123" "Mary" "Major" "0987654321".

(** A form being filled in, passwords typed. *)
Definition typed_form : PartialRegistration.t :=
  PartialRegistration.mk (Some "a@b.com") (Some "Passw0rd") (Some "Passw0rd")
    (Some "John") None None.

(** Nobody has registered on the device yet; a draft of the form is saved. *)
Definition signing_up : World :=
  mkWorld None {[ PARTIAL_REGISTRATION := JsonDraft (without_passwords typed_form) ]}
    false 1000 [].

(** John's credential and profile are stored and the session flag is set. *)
Definition registered : World :=
  mkWorld (Some ("a@b.com", "Passw0rd")) {[ USER_DATA := JsonUser john_profile ]}
    true 1000 [].

(** John is registered; five attempts have failed, the last one a minute
    ago, at time 1000. *)
Definition locked : World :=
  mkWorld (Some ("a@b.com", "Passw0rd"))
    (<[ LOCKOUT_TIMESTAMP := Text "1000" ]>
       (<[ FAILED_LOGIN_ATTEMPTS := Text "5" ]>
          {[ USER_DATA := JsonUser john_profile ]}))
    false 61000 [].

(** The same world with a backend that rejects the coming call (and only
    that one). *)
Definition rejecting (w : World) : World := set_faults [true] w.

(** The same world when the third backend call is rejected. *)
Definition rejecting_third (w : World) : World := set_faults [false; false; true] w.

(** Five wrong passwords, one every two seconds. *)
Definition five_wrong : list (Z * LoginFormData.t) :=
  replicate 5 (2000, wrong_password).

(** John's form submitted again, with another password. *)
Definition john_again : RegistrationFormData.t :=
  RegistrationFormData.mk "a@b.com" "Different1" "Different1" "John" "Doe" "1234567890".

(** John is registered and logged out; three attempts have failed. *)
Definition after_three_failures : World :=
  mkWorld (Some ("a@b.com", "Passw0rd"))
    (<[ FAILED_LOGIN_ATTEMPTS := Text "3" ]> {[ USER_DATA := JsonUser john_profile ]})
    false 1000 [].

(** ** Regular expressions ([RegExp.prototype.test]) *)

(** The regular expressions of the validators are built from classes of
    code units, concatenation and repetition. [Void] and [Alt] only arise
    in derivatives. *)
Inductive regex : Type :=
| Void
| Eps
| Class (p : N -> bool)
| Seq (r1 r2 : regex)
| Alt (r1 r2 : regex)
| Star (r : regex).

(** [r+] *)
Definition Plus (r : regex) : regex := Seq r (Star r).

Fixpoint nullable (r : regex) : bool :=
  match r with
  | Void => false
  | Eps => true
  | Class _ => false
  | Seq r1 r2 => nullable r1 && nullable r2
  | Alt r1 r2 => nullable r1 || nullable r2
  | Star _ => true
  end.

(** What is left of [r] once the code unit [u] has been read. *)
Fixpoint derivative (u : N) (r : regex) : regex :=
  match r with
  | Void => Void
  | Eps => Void
  | Class p => if p u then Eps else Void
  | Seq r1 r2 =>
      if nullable r1
      then Alt (Seq (derivative u r1) r2) (derivative u r2)
      else Seq (derivative u r1) r2
  | Alt r1 r2 => Alt (derivative u r1) (derivative u r2)
  | Star r1 => Seq (derivative u r1) (Star r1)
  end.

(** [/^r$/.test(s)]: the whole of [s] matches [r]. *)
Fixpoint test_whole (r : regex) (s : list N) : bool :=
  match s with
  | [] => nullable r
  | u :: s' => test_whole (derivative u r) s'
  end.

Definition any_char : regex := Class (fun _ => true).

(** [/r/.test(s)]: some part of [s] matches [r]. *)
Definition test_part (r : regex) (s : list N) : bool :=
  test_whole (Seq (Star any_char) (Seq r (Star any_char))) s.

Definition in_range (lo hi : N) (u : N) : bool := ((lo <=? u) && (u <=? hi))%N.

(** [\d], [\D], [A-Z], [a-z]; [\s] is [is_whitespace]. *)
Definition is_digit (u : N) : bool := in_range 48 57 u.
Definition is_not_digit (u : N) : bool := negb (is_digit u).
Definition is_upper (u : N) : bool := in_range 65 90 u.
Definition is_lower (u : N) : bool := in_range 97 122 u.

(** The code units of the at sign, the dot, the hyphen and the two
    parentheses. *)
Definition at_sign : N := 64.
Definition dot : N := 46.
Definition hyphen : N := 45.
Definition left_parenthesis : N := 40.
Definition right_parenthesis : N := 41.

(** [[^\s@]] *)
Definition not_space_or_at (u : N) : bool :=
  negb (is_whitespace u || (u =? at_sign)%N).

(** [[\d\s\-\(\)]] *)
Definition phone_char (u : N) : bool :=
  is_digit u || is_whitespace u || (u =? hyphen)%N || (u =? left_parenthesis)%N
  || (u =? right_parenthesis)%N.

(** ** String methods *)

(** [s.trim()], by way of [trimStart] and [trimEnd]. *)
Fixpoint trim_end (s : list N) : list N :=
  match s with
  | [] => []
  | u :: s' =>
      match trim_end s' with
      | [] => if is_whitespace u then [] else [u]
      | t => u :: t
      end
  end.

Definition trim (s : list N) : list N := trim_end (trim_start s).

(** [s.replace(/p/g, '')] for a character class [p]: every code unit of
    the class is dropped. *)
Fixpoint remove_class (p : N -> bool) (s : list N) : list N :=
  match s with
  | [] => []
  | u :: s' => if p u then remove_class p s' else u :: remove_class p s'
  end.

(** ** Validation ([src/utils/validation.ts]) *)

(** [/^[^\s@]+@[^\s@]+\.[^\s@]+$/] *)
Definition emailRegex : regex :=
  Seq (Plus (Class not_space_or_at))
    (Seq (Class (N.eqb at_sign))
       (Seq (Plus (Class not_space_or_at))
          (Seq (Class (N.eqb dot))
             (Plus (Class not_space_or_at))))).

Definition validateEmail (email : string) : bool :=
  test_whole emailRegex (code_units email).

Definition validatePasswordStrength (password : string) : bool :=
  let minLength := 8%nat in
  let hasUpperCase := test_part (Class is_upper) (code_units password) in
  let hasLowerCase := test_part (Class is_lower) (code_units password) in
  let hasNumber := test_part (Class is_digit) (code_units password) in
  (minLength <=? length (code_units password))%nat
  && hasUpperCase && hasLowerCase && hasNumber.

(** [/^[\d\s\-\(\)]+$/] *)
Definition phoneRegex : regex := Plus (Class phone_char).

Definition validatePhoneNumber (phone : string) : bool :=
  let digitsOnly := remove_class is_not_digit (code_units phone) in
  test_whole phoneRegex (code_units phone) && (length digitsOnly =? 10)%nat.

Definition validateRequired (value : string) : bool :=
  (0 <? length (trim (code_units value)))%nat.

(** [FormErrors]: an object whose keys are the fields in error. A key can
    be present with the value [undefined] ([Some None] here); [Object.keys]
    counts it all the same. *)
Definition hasFormErrors (errors : gmap string (option string)) : bool :=
  (0 <? size errors)%nat.

Definition validateRegistrationForm (data : RegistrationFormData.t)
  : gmap string (option string) :=
  let errors : gmap string (option string) := ∅ in
  let errors :=
    if negb (validateRequired (RegistrationFormData.email data))
    then <["email" := Some "Email is required"]> errors
    else if negb (validateEmail (RegistrationFormData.email data))
         then <["email" := Some "Please enter a valid email address"]> errors
         else errors in
  let errors :=
    if negb (validateRequired (RegistrationFormData.password data))
    then <["password" := Some "Password is required"]> errors
    else if negb (validatePasswordStrength (RegistrationFormData.password data))
         then <["password" :=
                  Some "Password must be at least 8 characters with uppercase, lowercase, and number"]>
                errors
         else errors in
  let errors :=
    if negb (validateRequired (RegistrationFormData.confirmPassword data))
    then <["confirmPassword" := Some "Please confirm your password"]> errors
    else if negb (String.eqb (RegistrationFormData.password data)
                             (RegistrationFormData.confirmPassword data))
         then <["confirmPassword" := Some "Passwords do not match"]> errors
         else errors in
  let errors :=
    if negb (validateRequired (RegistrationFormData.firstName data))
    then <["firstName" := Some "First name is required"]> errors
    else errors in
  let errors :=
    if negb (validateRequired (RegistrationFormData.lastName data))
    then <["lastName" := Some "Last name is required"]> errors
    else errors in
  let errors :=
    if negb (validateRequired (RegistrationFormData.phoneNumber data))
    then <["phoneNumber" := Some "Phone number is required"]> errors
    else if negb (validatePhoneNumber (RegistrationFormData.phoneNumber data))
         then <["phoneNumber" := Some "Please enter a valid phone number"]> errors
         else errors in
  errors.

Definition validateLoginForm (data : LoginFormData.t) : gmap string (option string) :=
  let errors : gmap string (option string) := ∅ in
  let errors :=
    if negb (validateRequired (LoginFormData.email data))
    then <["email" := Some "Email is required"]> errors
    else if negb (validateEmail (LoginFormData.email data))
         then <["email" := Some "Please enter a valid email address"]> errors
         else errors in
  let errors :=
    if negb (validateRequired (LoginFormData.password data))
    then <["password" := Some "Password is required"]> errors
    else errors in
  errors.

(** ** AuthProvider ([src/context/AuthContext.tsx]) *)

Module AuthState.
Record t : Type := mk
  { isAuthenticated : bool; user : option User.t; isLoading : bool }.
End AuthState.

(** [useState] initial value of the provider. *)
Definition initialAuthState : AuthState.t := AuthState.mk false None true.

(** [setAuthState(prev => ({...prev, isLoading: b}))] *)
Definition with_isLoading (b : bool) (prev : AuthState.t) : AuthState.t :=
  AuthState.mk (AuthState.isAuthenticated prev) (AuthState.user prev) b.

(** Each function of the provider takes the state of the provider and
    returns the state it leaves. The provider reaches the service through
    the module it imports: [register] and [login] are written over that
    service, and the provider of the application is the instance with
    [AuthService]. *)
Definition AuthProvider_checkAuth (authState : AuthState.t) : M AuthState.t :=
  let authState := with_isLoading true authState in
  result ← checkAuth;
  mret (AuthState.mk (CheckAuthResult.isAuthenticated result)
          (CheckAuthResult.user result) false).

Definition AuthProvider_register_with
    (AuthService_register : RegistrationFormData.t -> M RegisterResult.t)
    (data : RegistrationFormData.t) (authState : AuthState.t)
  : M ((bool * option string) * AuthState.t) :=
  let authState := with_isLoading true authState in
  result ← AuthService_register data;
  let authState :=
    match RegisterResult.success result, RegisterResult.user result with
    | true, Some user => AuthState.mk true (Some user) false
    | _, _ => with_isLoading false authState
    end in
  mret ((RegisterResult.success result, RegisterResult.error result), authState).

Definition AuthProvider_register
  : RegistrationFormData.t -> AuthState.t -> M ((bool * option string) * AuthState.t) :=
  AuthProvider_register_with register.

Definition AuthProvider_login_with
    (AuthService_login : LoginFormData.t -> M LoginResult.t)
    (data : LoginFormData.t) (authState : AuthState.t)
  : M (LoginResult.t * AuthState.t) :=
  let authState := with_isLoading true authState in
  result ← AuthService_login data;
  let authState :=
    match LoginResult.success result, LoginResult.user result with
    | true, Some user => AuthState.mk true (Some user) false
    | _, _ => with_isLoading false authState
    end in
  mret (result, authState).

Definition AuthProvider_login
  : LoginFormData.t -> AuthState.t -> M (LoginResult.t * AuthState.t) :=
  AuthProvider_login_with login.

Definition AuthProvider_logout (authState : AuthState.t) : M AuthState.t :=
  let authState := with_isLoading true authState in
  logout ;;
  mret (AuthState.mk false None false).

(** ** The screens *)

(** [Alert.alert(title, message)] *)
Definition Alert : Type := (string * string)%type.

(** [if (s)] on an optional string field: [undefined] and the empty string
    are falsy. *)
Definition filled (field : option string) : bool :=
  match field with
  | Some s => truthy s
  | None => false
  end.

(** [setValue(name, value)] on the values of the registration form. *)
Definition setValue_if (field : option string) (current : string) : string :=
  match field with
  | Some s => if truthy s then s else current
  | None => current
  end.

(** RegistrationScreen, [loadPartialData]: the saved draft is put back into
    the form; the two password fields are never touched. *)
Definition loadPartialData (form : RegistrationFormData.t) : M RegistrationFormData.t :=
  partialData ← getPartialRegistration;
  match partialData with
  | Some partialData =>
      mret (RegistrationFormData.mk
              (setValue_if (PartialRegistration.email partialData)
                 (RegistrationFormData.email form))
              (RegistrationFormData.password form)
              (RegistrationFormData.confirmPassword form)
              (setValue_if (PartialRegistration.firstName partialData)
                 (RegistrationFormData.firstName form))
              (setValue_if (PartialRegistration.lastName partialData)
                 (RegistrationFormData.lastName form))
              (setValue_if (PartialRegistration.phoneNumber partialData)
                 (RegistrationFormData.phoneNumber form)))
  | None => mret form
  end.

(** [defaultValues] of the registration form. *)
Definition defaultValues : RegistrationFormData.t :=
  RegistrationFormData.mk EmptyString EmptyString EmptyString EmptyString EmptyString
    EmptyString.

(** What [watch] hands to its subscriber: the current values of the form. *)
Definition watched (form : RegistrationFormData.t) : PartialRegistration.t :=
  PartialRegistration.mk (Some (RegistrationFormData.email form))
    (Some (RegistrationFormData.password form))
    (Some (RegistrationFormData.confirmPassword form))
    (Some (RegistrationFormData.firstName form))
    (Some (RegistrationFormData.lastName form))
    (Some (RegistrationFormData.phoneNumber form)).

(** RegistrationScreen, [formErrors]: an object literal with all six keys,
    each holding the message of the field or [undefined]. *)
Definition RegistrationScreen_formErrors
    (email password confirmPassword firstName lastName phoneNumber : option string)
  : gmap string (option string) :=
  <["phoneNumber" := phoneNumber]>
    (<["lastName" := lastName]>
       (<["firstName" := firstName]>
          (<["confirmPassword" := confirmPassword]>
             (<["password" := password]> (<["email" := email]> ∅))))).

Definition RegistrationScreen_isFormValid
    (email password confirmPassword firstName lastName phoneNumber : option string)
  : bool :=
  negb (hasFormErrors (RegistrationScreen_formErrors email password confirmPassword
                         firstName lastName phoneNumber)).

(** [result.error || fallback] *)
Definition or_else (error : option string) (fallback : string) : string :=
  match error with
  | Some s => if truthy s then s else fallback
  | None => fallback
  end.

(** RegistrationScreen, [onSubmit]: returns the alert it raises, if any,
    and the state of the provider. ([isSubmitting] only drives the button
    and is back to false when the function ends.) *)
Definition RegistrationScreen_onSubmit (data : RegistrationFormData.t)
    (authState : AuthState.t) : M (option Alert * AuthState.t) :=
  let validationErrors := validateRegistrationForm data in
  if hasFormErrors validationErrors then mret (None, authState)
  else
    try_catch
      ('(result, authState) ← AuthProvider_register data authState;
       if result.1 : bool
       then clearPartialRegistration ;; mret (None, authState)
       else mret (Some ("Registration Failed", or_else result.2 "Unknown error"),
                  authState))
      (mret (Some ("Error", "An unexpected error occurred"),
             with_isLoading true authState)).

(** LoginScreen, [formErrors] and [isFormValid]. *)
Definition LoginScreen_formErrors (email password : option string)
  : gmap string (option string) :=
  <["password" := password]> (<["email" := email]> ∅).

Definition LoginScreen_isFormValid (email password : option string) : bool :=
  negb (hasFormErrors (LoginScreen_formErrors email password)).

(** LoginScreen: the lockout banner, [isLockedOut] and [remainingTime]. *)
Module Banner.
Record t : Type := mk { isLockedOut : bool; remainingTime : number }.
End Banner.

(** LoginScreen, [checkLockout]: run on mount and then every second. *)
Definition checkLockout (banner : Banner.t) : M Banner.t :=
  locked ← isLockedOut;
  if locked : bool
  then time ← getRemainingLockoutTime; mret (Banner.mk locked time)
  else mret (Banner.mk locked (Banner.remainingTime banner)).

(** [result.remainingTime || 0] *)
Definition or_zero (n : option number) : number :=
  match n with
  | Some (Num z) => if z =? 0 then Num 0 else Num z
  | _ => Num 0
  end.

(** LoginScreen, [onSubmit]: returns the alert it raises, if any, the
    banner and the state of the provider. *)
Definition LoginScreen_onSubmit (data : LoginFormData.t) (banner : Banner.t)
    (authState : AuthState.t) : M (option Alert * Banner.t * AuthState.t) :=
  let validationErrors := validateLoginForm data in
  if hasFormErrors validationErrors then mret (None, banner, authState)
  else
    locked ← isLockedOut;
    if locked : bool
    then
      time ← getRemainingLockoutTime;
      mret (Some ("Account Locked",
                  "Too many failed attempts. Please try again in "
                    ++ toString (Math_ceil_div time 60) ++ " minutes."),
            Banner.mk true time, authState)
    else
      try_catch
        ('(result, authState) ← AuthProvider_login data authState;
         if LoginResult.success result
         then mret (None, banner, authState)
         else
           match LoginResult.lockedOut result with
           | Some true =>
               mret (Some ("Account Locked",
                           or_else (LoginResult.error result) "Too many failed attempts"),
                     Banner.mk true (or_zero (LoginResult.remainingTime result)),
                     authState)
           | _ =>
               mret (Some ("Login Failed",
                           or_else (LoginResult.error result) "Invalid credentials"),
                     banner, authState)
           end)
        (mret (Some ("Error", "An unexpected error occurred"), banner,
               with_isLoading true authState)).

(** Button ([src/components/Button.tsx]): [isDisabled], which the
    touchable takes as its [disabled]. *)
Definition Button_isDisabled (disabled loading : bool) : bool := disabled || loading.

(** The submit buttons of the two screens, as the button sees them. *)
Definition RegistrationScreen_submit_isDisabled
    (email password confirmPassword firstName lastName phoneNumber : option string)
    (isSubmitting : bool) : bool :=
  let isFormValid :=
    RegistrationScreen_isFormValid email password confirmPassword firstName lastName
      phoneNumber in
  Button_isDisabled (negb isFormValid || isSubmitting) isSubmitting.

Definition LoginScreen_submit_isDisabled (email password : option string)
    (isSubmitting isLockedOut : bool) : bool :=
  let isFormValid := LoginScreen_isFormValid email password in
  Button_isDisabled (negb isFormValid || isSubmitting || isLockedOut) isSubmitting.

(** [Math.floor(a / b)] for a constant divisor [b]. *)
Definition Math_floor_div (a : number) (b : Z) : number :=
  match a with
  | Num x => Num (x / b)
  | NaN => NaN
  end.

(** [a % b] for a constant divisor [b]: the remainder has the sign of
    [a]. *)
Definition num_rem (a : number) (b : Z) : number :=
  match a with
  | Num x => Num (Z.rem x b)
  | NaN => NaN
  end.

(** [s.padStart(targetLength, fill)] for a filler of one character. *)
Definition padStart (targetLength : nat) (fill : ascii) (s : string) : string :=
  string_of_list_ascii (repeat fill (targetLength - length (code_units s))) ++ s.

(** LoginScreen, [formatTime]: what the banner shows of [remainingTime]. *)
Definition formatTime (seconds : number) : string :=
  let minutes := Math_floor_div seconds 60 in
  let secs := num_rem seconds 60 in
  toString minutes ++ ":" ++ padStart 2 "0" (toString secs).

(** ** AppNavigator ([src/navigation/AppNavigator.tsx]) and HomeScreen *)

(** What the navigator renders: the spinner, the stack with the home
    screen alone, or the stack with the registration and login screens. *)
Inductive Rendered : Type :=
| LoadingContainer
| HomeStack
| RegistrationAndLoginStack.

Definition AppNavigator (authState : AuthState.t) : Rendered :=
  if AuthState.isLoading authState then LoadingContainer
  else if AuthState.isAuthenticated authState then HomeStack
       else RegistrationAndLoginStack.

(** What the home screen renders: the notice "User data not available" or
    the profile card. *)
Inductive HomeView : Type :=
| UserDataNotAvailable
| Profile (user : User.t).

Definition HomeScreen (authState : AuthState.t) : HomeView :=
  match AuthState.user authState with
  | None => UserDataNotAvailable
  | Some user => Profile user
  end.

(** ** Vocabulary of the statements about validation *)

(** The sequences of code units that a regular expression matches. *)
Inductive matches : regex -> list N -> Prop :=
| matches_Eps : matches Eps []
| matches_Class (p : N -> bool) (u : N) :
    p u = true -> matches (Class p) [u]
| matches_Seq (r1 r2 : regex) (s1 s2 : list N) :
    matches r1 s1 -> matches r2 s2 -> matches (Seq r1 r2) (s1 ++ s2)%list
| matches_Alt_l (r1 r2 : regex) (s : list N) :
    matches r1 s -> matches (Alt r1 r2) s
| matches_Alt_r (r1 r2 : regex) (s : list N) :
    matches r2 s -> matches (Alt r1 r2) s
| matches_Star_nil (r : regex) : matches (Star r) []
| matches_Star_app (r : regex) (s1 s2 : list N) :
    matches r s1 -> matches (Star r) s2 -> matches (Star r) (s1 ++ s2)%list.

(** Every code unit of the sequence is in the class; some code unit is;
    how many are. *)
Fixpoint every (p : N -> bool) (s : list N) : bool :=
  match s with
  | [] => true
  | u :: s' => p u && every p s'
  end.

Fixpoint some (p : N -> bool) (s : list N) : bool :=
  match s with
  | [] => false
  | u :: s' => p u || some p s'
  end.

Fixpoint count (p : N -> bool) (s : list N) : nat :=
  match s with
  | [] => O
  | u :: s' => if p u then S (count p s') else count p s'
  end.

(** ** Vocabulary of the statements about sessions of use *)

(** What happens on the device, one thing after the other: calls of the
    service and of the store made by the screens, and time passing. *)
Inductive action : Type :=
| Register (data : RegistrationFormData.t)
| Login (data : LoginFormData.t)
| Logout
| CheckAuth
| SaveDraft (data : PartialRegistration.t)
| PollLockout
| ClearAll
| Wait (milliseconds : N).

Definition perform (a : action) (w : World) : World :=
  match a with
  | Register data => (register data w).2
  | Login data => (login data w).2
  | Logout => (logout w).2
  | CheckAuth => (checkAuth w).2
  | SaveDraft data => (watch_subscription data w).2
  | PollLockout => (checkLockout (Banner.mk false (Num 0)) w).2
  | ClearAll => (clearAll w).2
  | Wait milliseconds => advance (Z.of_N milliseconds) w
  end.

Definition perform_all (actions : list action) (w : World) : World :=
  fold_left (fun w a => perform a w) actions w.

(** The counter and the timestamp agree: the counter reads a number from 0
    to the maximum; below the maximum no timestamp is stored; at the
    maximum a timestamp is stored, and it is not in the future. *)
Definition lockout_consistent (w : World) : Prop :=
  exists count : Z,
    stored_attempts w = Num count
    /\ 0 <= count <= MAX_FAILED_ATTEMPTS
    /\ if count <? MAX_FAILED_ATTEMPTS
       then async w !! LOCKOUT_TIMESTAMP = None
       else exists t : Z,
           async w !! LOCKOUT_TIMESTAMP = Some (Text (toString (Num t)))
           /\ t <= now w.

(** ** Sample sessions *)

(** A no-break space (U+00A0) and an em space (U+2003), in UTF-8. *)
Definition no_break_space : string := String "194" (String "160" EmptyString).
Definition em_space : string :=
  String "226" (String "128" (String "131" EmptyString)).

(** A device on which nothing has been stored. *)
Definition fresh : World := mkWorld None ∅ false 0 [].

(** John is registered and logged out; four attempts have failed. *)
Definition after_four_failures : World :=
  mkWorld (Some ("a@b.com", "Passw0rd"))
    (<[ FAILED_LOGIN_ATTEMPTS := Text "4" ]> {[ USER_DATA := JsonUser john_profile ]})
    false 1000 [].

(** The same world when the second backend call is rejected. *)
Definition rejecting_second (w : World) : World := set_faults [false; true] w.

(** John registers, logs out, mistypes his password five times, watches
    the banner, waits a quarter of an hour and logs in. *)
Definition a_day_of_use : list action :=
  [Register john; SaveDraft typed_form; Logout; CheckAuth;
   Login wrong_password; Login wrong_password; Login wrong_password;
   Login wrong_password; Login wrong_password;
   Wait 60000; PollLockout; Login john_login;
   Wait 900000; PollLockout; Login john_login; ClearAll].

(** * Properties *)

(** ** Decimal text *)

Lemma parse_digits_acc (d : Decimal.uint) (acc : positive) :
  parse_digits (code_units (NilEmpty.string_of_uint d)) (Some (Z.pos acc))
  = Some (Z.pos (Pos.of_uint_acc d acc)).
Proof.
  revert acc. induction d; intros acc; simpl; try reflexivity;
    rewrite <- IHd; f_equal; f_equal; lia.
Qed.

Lemma parse_digits_zero (d : Decimal.uint) :
  parse_digits (code_units (NilEmpty.string_of_uint d)) (Some 0) = Some (Z.of_uint d).
Proof.
  unfold Z.of_uint.
  induction d; simpl; try reflexivity; try exact IHd;
    match goal with
    | |- parse_digits _ (Some ?k) = _ => change k with (Z.pos (Z.to_pos k))
    end; rewrite parse_digits_acc; reflexivity.
Qed.

Lemma parse_digits_uint (d : Decimal.uint) :
  d <> Decimal.Nil ->
  parse_digits (code_units (NilEmpty.string_of_uint d)) None = Some (Z.of_uint d).
Proof.
  intros Hd. rewrite <- parse_digits_zero.
  destruct d; try congruence; reflexivity.
Qed.

(** The text of a number starts with a digit, which is neither white space
    nor a sign. *)
Lemma string_of_uint_head (d : Decimal.uint) :
  d <> Decimal.Nil ->
  exists u l, code_units (NilEmpty.string_of_uint d) = u :: l
              /\ is_whitespace u = false
              /\ (u =? 45)%N = false /\ (u =? 43)%N = false.
Proof.
  intros Hd. destruct d; try congruence; simpl;
    eexists _, _; (split; [reflexivity|]); repeat split.
Qed.

Lemma parseInt10_uint (d : Decimal.uint) :
  d <> Decimal.Nil ->
  parseInt10 (NilEmpty.string_of_uint d) = Num (Z.of_uint d).
Proof.
  intros Hd. pose proof (parse_digits_uint d Hd) as Hp.
  destruct (string_of_uint_head d Hd) as (u & l & Hs & Hw & Hm & Hpl).
  unfold parseInt10. rewrite Hs in *. cbn [trim_start]. rewrite Hw, Hm, Hpl, Hp.
  reflexivity.
Qed.

(** Reading back a number the service wrote returns that number. *)
Lemma parseInt10_toString (z : Z) : parseInt10 (toString (Num z)) = Num z.
Proof.
  rewrite <- (DecimalZ.of_to z) at 2. unfold toString.
  destruct z as [|p|p]; simpl Z.to_int.
  - reflexivity.
  - unfold NilZero.string_of_int, NilZero.string_of_uint.
    pose proof (Unsigned.to_uint_nonnil p) as Hp.
    destruct (Pos.to_uint p) eqn:E; try congruence;
      rewrite <- E; rewrite <- E in Hp; apply parseInt10_uint; exact Hp.
  - unfold NilZero.string_of_int, NilZero.string_of_uint.
    pose proof (Unsigned.to_uint_nonnil p) as Hp.
    assert (Hs : (match Pos.to_uint p with
                  | Decimal.Nil => "0"
                  | _ => NilEmpty.string_of_uint (Pos.to_uint p)
                  end) = NilEmpty.string_of_uint (Pos.to_uint p)).
    { destruct (Pos.to_uint p); congruence. }
    rewrite Hs. unfold parseInt10.
    change (code_units (String "-" ?s)) with (45%N :: code_units s).
    cbn [trim_start]. change (is_whitespace 45) with false. cbv iota beta.
    change (45 =? 45)%N with true. cbv iota beta.
    rewrite (parse_digits_uint _ Hp). reflexivity.
Qed.

Lemma truthy_toString (z : Z) : truthy (toString (Num z)) = true.
Proof.
  unfold toString. destruct z as [|p|p]; simpl; try reflexivity.
  unfold NilZero.string_of_uint.
  pose proof (Unsigned.to_uint_nonnil p) as Hp.
  destruct (Pos.to_uint p); try congruence; reflexivity.
Qed.

(** ** How one operation of the store runs *)

Ltac unfold_monad :=
  unfold mbind, mret, M_mbind, M_mret, M_bind, M_ret, try_catch, gets, modify,
    backend_call, rejected, pop in *.

Ltac world_simpl :=
  cbn [keychain async session now faults set_keychain set_async set_session
       set_now set_faults advance hd tl fst snd] in *.

Ltac by_schedule w :=
  destruct w as [k a s n [|[] f]]; unfold_monad; try reflexivity.

Lemma pop_reliable (w : World) : reliable w -> pop w = w.
Proof. unfold reliable. destruct w as [k a s n f]; simpl; intros ->; reflexivity. Qed.

Lemma rejected_reliable (w : World) : reliable w -> rejected w = false.
Proof. unfold reliable, rejected. intros ->; reflexivity. Qed.

Lemma storeCredentials_run (email password : string) (w : World) :
  storeCredentials email password w =
  if rejected w then (Ok false, pop w)
  else (Ok true, set_keychain (Some (email, password)) (pop w)).
Proof. unfold storeCredentials, Keychain_setGenericPassword. by_schedule w. Qed.

Lemma getCredentials_run (w : World) :
  getCredentials w =
  (Ok (if rejected w then None else credentials_of (keychain w)), pop w).
Proof.
  unfold getCredentials, Keychain_getGenericPassword, credentials_of.
  by_schedule w; simpl; destruct k as [[u p]|]; reflexivity.
Qed.

Lemma clearCredentials_run (w : World) :
  clearCredentials w =
  if rejected w then (Ok false, pop w) else (Ok true, set_keychain None (pop w)).
Proof. unfold clearCredentials, Keychain_resetGenericPassword. by_schedule w. Qed.

Lemma storeUserData_run (user : User.t) (w : World) :
  storeUserData user w =
  if rejected w then (Ok false, pop w)
  else (Ok true, set_async (<[USER_DATA := JsonUser user]> (async w)) (pop w)).
Proof. unfold storeUserData, AsyncStorage_setItem. by_schedule w. Qed.

Lemma getUserData_run (w : World) :
  getUserData w =
  (Ok (if rejected w then None else profile_of (async w !! USER_DATA)), pop w).
Proof.
  unfold getUserData, AsyncStorage_getItem, profile_of, JSON_parse_User, present.
  by_schedule w; simpl; destruct (a !! USER_DATA) as [[t| |]|]; try reflexivity;
    destruct (truthy t); reflexivity.
Qed.

Lemma storePartialRegistration_run (data : PartialRegistration.t) (w : World) :
  storePartialRegistration data w =
  if rejected w then (Ok false, pop w)
  else (Ok true,
        set_async (<[PARTIAL_REGISTRATION := JsonDraft data]> (async w)) (pop w)).
Proof. unfold storePartialRegistration, AsyncStorage_setItem. by_schedule w. Qed.

Lemma clearPartialRegistration_run (w : World) :
  clearPartialRegistration w =
  if rejected w then (Ok false, pop w)
  else (Ok true, set_async (delete PARTIAL_REGISTRATION (async w)) (pop w)).
Proof. unfold clearPartialRegistration, AsyncStorage_removeItem. by_schedule w. Qed.

Lemma getFailedAttempts_run (w : World) :
  getFailedAttempts w =
  (Ok (if rejected w then Num 0
       else if present (async w !! FAILED_LOGIN_ATTEMPTS)
            then parseInt (async w !! FAILED_LOGIN_ATTEMPTS) else Num 0),
   pop w).
Proof. unfold getFailedAttempts, AsyncStorage_getItem. by_schedule w. Qed.

Lemma resetFailedAttempts_run (w : World) :
  resetFailedAttempts w =
  if rejected w then (Ok false, pop w)
  else if rejected (pop w)
       then (Ok false,
             set_async (delete FAILED_LOGIN_ATTEMPTS (async w)) (pop (pop w)))
       else (Ok true,
             set_async (delete LOCKOUT_TIMESTAMP
                          (delete FAILED_LOGIN_ATTEMPTS (async w))) (pop (pop w))).
Proof.
  unfold resetFailedAttempts, AsyncStorage_removeItem.
  destruct w as [k a s n [|[] [|[] f]]]; unfold_monad; reflexivity.
Qed.

Lemma isLockedOut_run (w : World) :
  isLockedOut w =
  if rejected w then (Ok false, pop w)
  else if negb (present (async w !! LOCKOUT_TIMESTAMP)) then (Ok false, pop w)
  else if num_ge (timeSinceLockout w) (Num LOCKOUT_DURATION)
       then (Ok false, (resetFailedAttempts (pop w)).2)
       else (Ok true, pop w).
Proof.
  unfold isLockedOut, timeSinceLockout, AsyncStorage_getItem, Date_now.
  destruct w as [k a s n [|[] [|[] [|[] f]]]]; unfold_monad; try reflexivity;
    world_simpl;
    (destruct (negb (present (a !! LOCKOUT_TIMESTAMP))); [reflexivity|]);
    world_simpl;
    (match goal with |- context [num_ge ?x ?y] => destruct (num_ge x y) end;
     [|reflexivity]);
    rewrite !resetFailedAttempts_run; unfold rejected, pop; world_simpl;
    reflexivity.
Qed.

Lemma getRemainingLockoutTime_run (w : World) :
  getRemainingLockoutTime w =
  (Ok (if rejected w then Num 0
       else if negb (present (async w !! LOCKOUT_TIMESTAMP)) then Num 0
       else
         let remaining := num_sub (Num LOCKOUT_DURATION) (timeSinceLockout w) in
         if num_gt remaining (Num 0) then Math_ceil_div remaining 1000 else Num 0),
   pop w).
Proof.
  unfold getRemainingLockoutTime, timeSinceLockout, AsyncStorage_getItem, Date_now.
  destruct w as [k a s n [|[] f]]; unfold_monad; try reflexivity; world_simpl;
    destruct (negb (present (a !! LOCKOUT_TIMESTAMP))); reflexivity.
Qed.

Lemma incrementFailedAttempts_run (w : World) :
  incrementFailedAttempts w =
  let w1 := pop w in
  if rejected w1 then (Ok (Num 0), pop w1)
  else
    let w2 :=
      set_async (<[FAILED_LOGIN_ATTEMPTS := Text (toString (newAttempts w))]> (async w))
        (pop w1) in
    if num_ge (newAttempts w) (Num MAX_FAILED_ATTEMPTS)
    then
      if rejected w2 then (Ok (Num 0), pop w2)
      else (Ok (newAttempts w),
            set_async (<[LOCKOUT_TIMESTAMP := Text (toString (Num (now w)))]> (async w2))
              (pop w2))
    else (Ok (newAttempts w), w2).
Proof.
  unfold incrementFailedAttempts. unfold mbind at 1, M_mbind, M_bind, try_catch.
  rewrite getFailedAttempts_run. unfold newAttempts.
  set (attempts := if rejected w then _ else _). clearbody attempts.
  unfold AsyncStorage_setItem, Date_now.
  destruct w as [k a s n [|b0 [|[] [|[] f]]]]; unfold_monad; world_simpl;
    try reflexivity;
    match goal with |- context [num_ge ?x ?y] => destruct (num_ge x y) end;
    world_simpl; reflexivity.
Qed.

Lemma getPartialRegistration_run (w : World) :
  getPartialRegistration w =
  (Ok (if rejected w then None else draft_of (async w !! PARTIAL_REGISTRATION)),
   pop w).
Proof.
  unfold getPartialRegistration, AsyncStorage_getItem, draft_of, JSON_parse_Partial,
    present.
  by_schedule w; simpl; destruct (a !! PARTIAL_REGISTRATION) as [[t| |]|];
    try reflexivity; destruct (truthy t); reflexivity.
Qed.

(** ** Registration *)

Lemma same_email_other (b : bool) (w : World) (email : string) :
  (forall username pw, keychain w = Some (username, pw) -> username <> email) ->
  same_email (if b then None else credentials_of (keychain w)) email = false.
Proof.
  intros Hne. destruct b; [reflexivity|].
  destruct (keychain w) as [[u p]|]; [|reflexivity]. simpl.
  apply String.eqb_neq. eapply Hne; reflexivity.
Qed.

Ltac run_service :=
  unfold mbind, mret, M_mbind, M_mret, M_bind, M_ret, try_catch, modify;
  cbn [fst snd negb].

(** Past the check of the email, with both writes accepted: [register]
    goes on to [setSessionActive], which throws, and ends in its [catch]. *)
Lemma register_stores (data : RegistrationFormData.t) (w : World) :
  let email := RegistrationFormData.email data in
  let password := RegistrationFormData.password data in
  let w1 := (getCredentials w).2 in
  let w2 := (storeCredentials email password w1).2 in
  let w3 := (storeUserData (new_user data) w2).2 in
  (forall username pw, keychain w = Some (username, pw) -> username <> email) ->
  (storeCredentials email password w1).1 = Ok true ->
  (storeUserData (new_user data) w2).1 = Ok true ->
  register data w
  = (Ok (RegisterResult.mk false None
           (Some "An unexpected error occurred during registration")), w3)
  /\ keychain w3 = Some (email, password)
  /\ async w3 = <[USER_DATA := JsonUser (new_user data)]> (async w)
  /\ session w3 = session w.
Proof.
  intros email password w1 w2 w3 Hne Hc Hu.
  assert (E1 : w1 = pop w) by (subst w1; rewrite getCredentials_run; reflexivity).
  pose proof (storeCredentials_run email password w1) as S1.
  destruct (rejected w1) eqn:R1; [rewrite S1 in Hc; discriminate|].
  assert (E2 : w2 = set_keychain (Some (email, password)) (pop w1))
    by (subst w2; rewrite S1; reflexivity).
  pose proof (storeUserData_run (new_user data) w2) as S2.
  destruct (rejected w2) eqn:R2; [rewrite S2 in Hu; discriminate|].
  assert (E3 : w3 = set_async (<[USER_DATA := JsonUser (new_user data)]> (async w2)) (pop w2))
    by (subst w3; rewrite S2; reflexivity).
  split; [|split; [|split]].
  - unfold register. run_service.
    rewrite getCredentials_run, (same_email_other _ _ _ Hne).
    fold email password. rewrite <- E1, S1. cbn [negb]. rewrite <- E2, S2. cbn [negb].
    rewrite <- E3. reflexivity.
  - rewrite E3, E2. reflexivity.
  - rewrite E3, E2, E1. reflexivity.
  - rewrite E3, E2, E1. reflexivity.
Qed.

(** No run of [register] ends in success: the one path to it goes through
    [setSessionActive]. *)
Lemma register_never_succeeds (data : RegistrationFormData.t) (w : World)
    (result : RegisterResult.t) :
  (register data w).1 = Ok result -> RegisterResult.success result = false.
Proof.
  unfold register. run_service. unfold setSessionActive, not_a_function.
  destruct (getCredentials w) as [[existing|] w1]; cbn [fst snd];
    [|intros [= <-]; reflexivity].
  destruct (same_email existing (RegistrationFormData.email data));
    [intros [= <-]; reflexivity|].
  destruct (storeCredentials _ _ w1) as [[stored|] w2]; cbn [fst snd];
    [|intros [= <-]; reflexivity].
  destruct stored; cbn [negb]; [|intros [= <-]; reflexivity].
  destruct (storeUserData _ w2) as [[saved|] w3]; cbn [fst snd];
    [|intros [= <-]; reflexivity].
  destruct saved; cbn [negb]; [intros [= <-]; reflexivity|].
  destruct (clearCredentials w3) as [[cleared|] w4]; cbn [fst snd];
    intros [= <-]; reflexivity.
Qed.

(** C1, what the code does. Under the conditions of the claim (no stored
    credential has the submitted email, [storeCredentials] and
    [storeUserData] both report success) [register] goes on to
    [StorageService.setSessionActive], a method the class does not have:
    the call throws and the [catch] of [register] answers with the
    unexpected-error result. The credential and the profile are stored by
    then and stay stored; the draft is not cleared and no session flag is
    set. In fact no run of [register] returns success. *)
Theorem register_cannot_succeed (data : RegistrationFormData.t) (w : World) :
  let email := RegistrationFormData.email data in
  let password := RegistrationFormData.password data in
  let w1 := (getCredentials w).2 in
  let w2 := (storeCredentials email password w1).2 in
  let w3 := (storeUserData (new_user data) w2).2 in
  (forall username pw, keychain w = Some (username, pw) -> username <> email) ->
  (storeCredentials email password w1).1 = Ok true ->
  (storeUserData (new_user data) w2).1 = Ok true ->
  register data w
  = (Ok (RegisterResult.mk false None
           (Some "An unexpected error occurred during registration")), w3)
  /\ keychain (register data w).2 = Some (email, password)
  /\ async (register data w).2 !! USER_DATA = Some (JsonUser (new_user data))
  /\ async (register data w).2 !! PARTIAL_REGISTRATION
     = async w !! PARTIAL_REGISTRATION
  /\ session (register data w).2 = session w
  /\ forall data' w' result,
      (register data' w').1 = Ok result -> RegisterResult.success result = false.
Proof.
  intros email password w1 w2 w3 Hne Hc Hu.
  destruct (register_stores data w Hne Hc Hu) as (Hreg & Hk & Ha & Hs).
  fold email password w1 w2 w3 in Hreg, Hk, Ha, Hs.
  rewrite Hreg. cbn [snd]. split; [reflexivity|]. split; [exact Hk|].
  rewrite Ha. split; [apply lookup_insert_eq|].
  split; [apply lookup_insert_ne; discriminate|].
  split; [exact Hs|]. intros data' w' result. apply register_never_succeeds.
Qed.

Lemma same_email_stored (c : Credentials.t) (email : string) :
  Credentials.email c = email -> same_email (Some c) email = true.
Proof. intros <-. apply String.eqb_refl. Qed.

(** C5, as amended. When [getCredentials] returns a credential whose email
    is the submitted one, [register] fails with the already-exists error
    whatever the submitted password is, and changes neither the credential
    slot nor anything else that is stored. A registration with another
    email is not refused with that error: once [storeCredentials] has
    reported success the slot no longer holds the stored credential, and it
    holds the new one when the profile is stored as well. *)
Theorem register_existing_email :
  (forall (data : RegistrationFormData.t) (w : World) (c : Credentials.t),
      (getCredentials w).1 = Ok (Some c) ->
      Credentials.email c = RegistrationFormData.email data ->
      register data w
      = (Ok (RegisterResult.mk false None
               (Some "An account with this email already exists")),
         (getCredentials w).2)
      /\ keychain (register data w).2 = keychain w
      /\ async (register data w).2 = async w
      /\ session (register data w).2 = session w)
  /\ (forall (data : RegistrationFormData.t) (w : World) (username pw : string),
        let email := RegistrationFormData.email data in
        let password := RegistrationFormData.password data in
        let w1 := (getCredentials w).2 in
        let w2 := (storeCredentials email password w1).2 in
        keychain w = Some (username, pw) ->
        username <> email ->
        (storeCredentials email password w1).1 = Ok true ->
        (forall result,
            (register data w).1 = Ok result ->
            RegisterResult.error result
            <> Some "An account with this email already exists")
        /\ keychain (register data w).2 <> Some (username, pw)
        /\ ((storeUserData (new_user data) w2).1 = Ok true ->
            keychain (register data w).2 = Some (email, password))).
Proof.
  split.
  - intros data w c Hget Hsame.
    assert (Hreg : register data w
                   = (Ok (RegisterResult.mk false None
                            (Some "An account with this email already exists")),
                      (getCredentials w).2)).
    { unfold register. run_service.
      destruct (getCredentials w) as [o w1] eqn:E. cbn [fst snd] in *.
      rewrite Hget, (same_email_stored c _ Hsame). reflexivity. }
    rewrite Hreg. cbn [snd]. rewrite getCredentials_run. cbn [snd].
    split; [reflexivity|]. destruct w; repeat split.
  - intros data w username pw email password w1 w2 Hk Hne Hc.
    assert (Hother : forall username' pw',
               keychain w = Some (username', pw') -> username' <> email).
    { intros username' pw' Hk'. rewrite Hk in Hk'. injection Hk' as <- <-. exact Hne. }
    assert (E1 : w1 = pop w) by (subst w1; rewrite getCredentials_run; reflexivity).
    pose proof (storeCredentials_run email password w1) as S1.
    destruct (rejected w1) eqn:R1; [rewrite S1 in Hc; discriminate|].
    assert (E2 : w2 = set_keychain (Some (email, password)) (pop w1))
      by (subst w2; rewrite S1; reflexivity).
    assert (Hreg : register data w
              = if rejected w2
                then (Ok (RegisterResult.mk false None (Some "Failed to store user data")),
                      (clearCredentials (pop w2)).2)
                else (Ok (RegisterResult.mk false None
                            (Some "An unexpected error occurred during registration")),
                      set_async (<[USER_DATA := JsonUser (new_user data)]> (async w2))
                        (pop w2))).
    { unfold register. run_service.
      rewrite getCredentials_run, (same_email_other _ _ _ Hother).
      fold email password. rewrite <- E1, S1. cbn [negb]. rewrite <- E2.
      rewrite storeUserData_run. destruct (rejected w2); cbn [negb fst snd].
      - rewrite clearCredentials_run. destruct (rejected (pop w2)); reflexivity.
      - reflexivity. }
    rewrite Hreg, (storeUserData_run (new_user data) w2).
    destruct (rejected w2); cbn [fst snd].
    + split; [intros result [= <-]; discriminate|]. split; [|discriminate].
      rewrite clearCredentials_run.
      destruct (rejected (pop w2)); cbn [snd]; rewrite E2;
        unfold pop, set_keychain, set_faults; cbn [keychain];
        [intros E; apply Hne; congruence|discriminate].
    + split; [intros result [= <-]; discriminate|]. rewrite E2.
      unfold pop, set_async, set_keychain, set_faults. cbn [keychain].
      split; [intros E; apply Hne; congruence|reflexivity].
Qed.

(** C8. When the credential was stored and storing the profile fails,
    [register] runs [clearCredentials] on the slot it has just written and
    fails with the profile-store error; the session flag and everything in
    AsyncStorage, the draft included, stay as they were, and the slot is
    empty whenever [clearCredentials] reports success. *)
Theorem register_rolls_back (data : RegistrationFormData.t) (w : World) :
  let email := RegistrationFormData.email data in
  let password := RegistrationFormData.password data in
  let w1 := (getCredentials w).2 in
  let w2 := (storeCredentials email password w1).2 in
  let w3 := (storeUserData (new_user data) w2).2 in
  let rollback := clearCredentials w3 in
  (forall username pw, keychain w = Some (username, pw) -> username <> email) ->
  (storeCredentials email password w1).1 = Ok true ->
  (storeUserData (new_user data) w2).1 = Ok false ->
  register data w
  = (Ok (RegisterResult.mk false None (Some "Failed to store user data")), rollback.2)
  /\ keychain w3 = Some (email, password)
  /\ (rollback.1 = Ok true -> keychain rollback.2 = None)
  /\ session rollback.2 = session w
  /\ async rollback.2 = async w.
Proof.
  intros email password w1 w2 w3 rollback Hne Hc Hu.
  assert (E1 : w1 = pop w) by (subst w1; rewrite getCredentials_run; reflexivity).
  pose proof (storeCredentials_run email password w1) as S1.
  destruct (rejected w1) eqn:R1; [rewrite S1 in Hc; discriminate|].
  assert (E2 : w2 = set_keychain (Some (email, password)) (pop w1))
    by (subst w2; rewrite S1; reflexivity).
  pose proof (storeUserData_run (new_user data) w2) as S2.
  destruct (rejected w2) eqn:R2; [|rewrite S2 in Hu; discriminate].
  assert (E3 : w3 = pop w2) by (subst w3; rewrite S2; reflexivity).
  split.
  { unfold register. run_service.
    rewrite getCredentials_run, (same_email_other _ _ _ Hne).
    fold email password. rewrite <- E1, S1. cbn [negb]. rewrite <- E2, S2. cbn [negb].
    rewrite <- E3. subst rollback. rewrite clearCredentials_run.
    destruct (rejected w3); reflexivity. }
  assert (Hk : keychain w3 = Some (email, password)) by (rewrite E3, E2; reflexivity).
  assert (Hs : session w3 = session w) by (rewrite E3, E2, E1; reflexivity).
  assert (Ha : async w3 = async w) by (rewrite E3, E2, E1; reflexivity).
  split; [exact Hk|]. clearbody w3. subst rollback.
  rewrite clearCredentials_run. unfold pop.
  destruct (rejected w3); world_simpl; repeat split; try assumption; discriminate.
Qed.

(** ** The lockout window *)

Lemma ceil_div_spec (a b : Z) :
  0 < b -> b * (ceil_div a b - 1) < a <= b * ceil_div a b.
Proof.
  intros Hb. unfold ceil_div.
  pose proof (Z.div_mod (- a) b ltac:(lia)) as Hdm.
  pose proof (Z.mod_pos_bound (- a) b Hb) as Hm. lia.
Qed.

Lemma ceil_div_pos (a b : Z) : 0 < b -> 0 < a -> 0 < ceil_div a b.
Proof. intros Hb Ha. pose proof (ceil_div_spec a b Hb). nia. Qed.

Lemma ceil_div_mono (a a' b : Z) : 0 < b -> a <= a' -> ceil_div a b <= ceil_div a' b.
Proof.
  intros Hb Ha. unfold ceil_div.
  pose proof (Z.div_le_mono (- a') (- a) b Hb ltac:(lia)). lia.
Qed.

Lemma present_number (z : Z) : present (Some (Text (toString (Num z)))) = true.
Proof. apply truthy_toString. Qed.

Lemma parseInt_number (z : Z) : parseInt (Some (Text (toString (Num z)))) = Num z.
Proof. apply parseInt10_toString. Qed.

Lemma timeSinceLockout_stored (w : World) (t : Z) :
  async w !! LOCKOUT_TIMESTAMP = Some (Text (toString (Num t))) ->
  timeSinceLockout w = Num (now w - t).
Proof. intros H. unfold timeSinceLockout. rewrite H, parseInt_number. reflexivity. Qed.

(** What [getRemainingLockoutTime] returns for a stored timestamp [t]. *)
Lemma remaining_stored (w : World) (t : Z) :
  async w !! LOCKOUT_TIMESTAMP = Some (Text (toString (Num t))) ->
  (getRemainingLockoutTime w).1
  = Ok (Num (if rejected w then 0
             else if 0 <? LOCKOUT_DURATION - (now w - t)
                  then ceil_div (LOCKOUT_DURATION - (now w - t)) 1000 else 0)).
Proof.
  intros H. rewrite getRemainingLockoutTime_run. cbn [fst].
  rewrite (timeSinceLockout_stored w t H), H, present_number. cbn.
  destruct (rejected w); [reflexivity|].
  destruct (0 <? LOCKOUT_DURATION - (now w - t)); reflexivity.
Qed.

(** What [isLockedOut] returns for a stored timestamp [t]. *)
Lemma isLockedOut_stored (w : World) (t : Z) :
  async w !! LOCKOUT_TIMESTAMP = Some (Text (toString (Num t))) ->
  (isLockedOut w).1
  = Ok (if rejected w then false else now w - t <? LOCKOUT_DURATION).
Proof.
  intros H. rewrite isLockedOut_run.
  rewrite (timeSinceLockout_stored w t H), H, present_number. cbn.
  destruct (rejected w); [reflexivity|].
  rewrite Z.leb_antisym. destruct (now w - t <? LOCKOUT_DURATION); reflexivity.
Qed.

(** C9. [getRemainingLockoutTime] returns 0 when no timestamp is stored and
    when fifteen minutes or more have passed since the stored one; before
    that a served read returns the ceiling of the remaining milliseconds
    over 1000. As time advances the value never grows, and it is 0 exactly
    when [isLockedOut] answers false. *)
Theorem remaining_lockout_time (w : World) :
  (async w !! LOCKOUT_TIMESTAMP = None ->
   (getRemainingLockoutTime w).1 = Ok (Num 0))
  /\ forall t : Z,
      async w !! LOCKOUT_TIMESTAMP = Some (Text (toString (Num t))) ->
      let elapsed := now w - t in
      (LOCKOUT_DURATION <= elapsed -> (getRemainingLockoutTime w).1 = Ok (Num 0))
      /\ (elapsed < LOCKOUT_DURATION -> rejected w = false ->
          (getRemainingLockoutTime w).1
          = Ok (Num (ceil_div (LOCKOUT_DURATION - elapsed) 1000))
          /\ 1000 * (ceil_div (LOCKOUT_DURATION - elapsed) 1000 - 1)
             < LOCKOUT_DURATION - elapsed
             <= 1000 * ceil_div (LOCKOUT_DURATION - elapsed) 1000)
      /\ (forall d : Z, 0 <= d ->
          exists r r' : Z,
            (getRemainingLockoutTime w).1 = Ok (Num r)
            /\ (getRemainingLockoutTime (advance d w)).1 = Ok (Num r')
            /\ 0 <= r' <= r)
      /\ ((getRemainingLockoutTime w).1 = Ok (Num 0)
          <-> (isLockedOut w).1 = Ok false).
Proof.
  split.
  { intros H. rewrite getRemainingLockoutTime_run, H. cbn.
    destruct (rejected w); reflexivity. }
  intros t H elapsed. subst elapsed.
  assert (Hadv : forall d, async (advance d w) !! LOCKOUT_TIMESTAMP
                           = Some (Text (toString (Num t)))) by (intros d; exact H).
  repeat split.
  - intros Hle. rewrite (remaining_stored w t H).
    destruct (rejected w); [reflexivity|].
    destruct (Z.ltb_spec 0 (LOCKOUT_DURATION - (now w - t))); [lia|reflexivity].
  - rewrite (remaining_stored w t H), H1.
    destruct (Z.ltb_spec 0 (LOCKOUT_DURATION - (now w - t))); [reflexivity|lia].
  - apply ceil_div_spec; lia.
  - apply ceil_div_spec; lia.
  - intros d Hd. eexists _, _.
    split; [apply (remaining_stored w t H)|].
    split; [apply (remaining_stored (advance d w) t (Hadv d))|].
    change (rejected (advance d w)) with (rejected w).
    change (now (advance d w)) with (now w + d).
    destruct (rejected w); [lia|].
    destruct (Z.ltb_spec 0 (LOCKOUT_DURATION - (now w + d - t)));
      destruct (Z.ltb_spec 0 (LOCKOUT_DURATION - (now w - t))); try lia.
    + split; [apply Z.lt_le_incl, ceil_div_pos; lia|apply ceil_div_mono; lia].
    + split; [lia|apply Z.lt_le_incl, ceil_div_pos; lia].
  - rewrite (remaining_stored w t H), (isLockedOut_stored w t H).
    destruct (rejected w); [reflexivity|].
    destruct (Z.ltb_spec (now w - t) LOCKOUT_DURATION);
      destruct (Z.ltb_spec 0 (LOCKOUT_DURATION - (now w - t))); try lia; try reflexivity.
    intros [= Hz]. pose proof (ceil_div_pos (LOCKOUT_DURATION - (now w - t)) 1000). lia.
  - rewrite (remaining_stored w t H), (isLockedOut_stored w t H).
    destruct (rejected w); [reflexivity|].
    destruct (Z.ltb_spec (now w - t) LOCKOUT_DURATION);
      destruct (Z.ltb_spec 0 (LOCKOUT_DURATION - (now w - t))); try lia; try reflexivity.
    discriminate.
Qed.

Lemma isLockedOut_true_inv (w : World) :
  (isLockedOut w).1 = Ok true ->
  isLockedOut w = (Ok true, pop w)
  /\ rejected w = false
  /\ present (async w !! LOCKOUT_TIMESTAMP) = true
  /\ num_ge (timeSinceLockout w) (Num LOCKOUT_DURATION) = false.
Proof.
  rewrite isLockedOut_run.
  destruct (rejected w); [discriminate|].
  destruct (present (async w !! LOCKOUT_TIMESTAMP)); [|discriminate]. cbn [negb].
  destruct (num_ge (timeSinceLockout w) (Num LOCKOUT_DURATION)); [discriminate|].
  intros _. repeat split.
Qed.

Lemma pop_frame (w : World) :
  keychain (pop w) = keychain w /\ async (pop w) = async w
  /\ session (pop w) = session w /\ now (pop w) = now w.
Proof. repeat split. Qed.

(** C6. A login made while [isLockedOut] answers true fails with the
    locked-out result, whatever email and password are submitted: it
    carries the seconds that [getRemainingLockoutTime] returns and the
    message with [ceil (seconds / 60)] minutes. Nothing stored changes, so
    the failed-attempt counter is what it was. For a stored timestamp [t]
    read a second time, the seconds are the ceiling of the remaining
    milliseconds over 1000. *)
Theorem login_while_locked_out (data : LoginFormData.t) (w : World) :
  (isLockedOut w).1 = Ok true ->
  let w1 := (isLockedOut w).2 in
  exists seconds : Z,
    (getRemainingLockoutTime w1).1 = Ok (Num seconds)
    /\ 0 <= seconds
    /\ login data w
       = (Ok (LoginResult.mk false None
                (Some ("Account locked. Please try again in "
                         ++ toString (Num (ceil_div seconds 60)) ++ " minutes."))
                (Some true) (Some (Num seconds))),
          (getRemainingLockoutTime w1).2)
    /\ 60 * (ceil_div seconds 60 - 1) < seconds <= 60 * ceil_div seconds 60
    /\ async (login data w).2 = async w
    /\ async (login data w).2 !! FAILED_LOGIN_ATTEMPTS = async w !! FAILED_LOGIN_ATTEMPTS
    /\ keychain (login data w).2 = keychain w
    /\ session (login data w).2 = session w
    /\ (forall t : Z,
         async w !! LOCKOUT_TIMESTAMP = Some (Text (toString (Num t))) ->
         rejected w1 = false ->
         seconds = ceil_div (LOCKOUT_DURATION - (now w - t)) 1000).
Proof.
  intros Hlocked w1.
  destruct (isLockedOut_true_inv w Hlocked) as (Hrun & Hserved & Hpresent & Hwindow).
  assert (E1 : w1 = pop w) by (subst w1; rewrite Hrun; reflexivity).
  clearbody w1. subst w1.
  set (remaining := num_sub (Num LOCKOUT_DURATION) (timeSinceLockout w)).
  assert (Hrem : exists seconds, 0 <= seconds /\
            (if rejected (pop w) then Num 0
             else if num_gt remaining (Num 0) then Math_ceil_div remaining 1000
                  else Num 0) = Num seconds
            /\ (forall t, async w !! LOCKOUT_TIMESTAMP = Some (Text (toString (Num t))) ->
                rejected (pop w) = false ->
                seconds = ceil_div (LOCKOUT_DURATION - (now w - t)) 1000)).
  { subst remaining. destruct (timeSinceLockout w) as [e|] eqn:Ee.
    - cbn in Hwindow. apply Z.leb_gt in Hwindow. cbn.
      destruct (Z.ltb_spec 0 (LOCKOUT_DURATION - e)); [|lia].
      destruct (rejected (pop w)).
      + exists 0. repeat split; [lia|]. discriminate.
      + eexists. split; [|split; [reflexivity|]].
        * apply Z.lt_le_incl, ceil_div_pos; lia.
        * intros t Ht _. rewrite (timeSinceLockout_stored w t Ht) in Ee.
          injection Ee as <-. reflexivity.
    - exists 0. cbn. split; [lia|].
      split; [destruct (rejected (pop w)); reflexivity|].
      intros t Ht _. rewrite (timeSinceLockout_stored w t Ht) in Ee. discriminate. }
  destruct Hrem as (seconds & Hpos & Hval & Hformula).
  assert (Hget : getRemainingLockoutTime (pop w) = (Ok (Num seconds), pop (pop w))).
  { rewrite getRemainingLockoutTime_run.
    change (async (pop w)) with (async w).
    change (timeSinceLockout (pop w)) with (timeSinceLockout w).
    rewrite Hpresent. cbn [negb]. cbv zeta. fold remaining. rewrite Hval. reflexivity. }
  assert (Hlogin : login data w
     = (Ok (LoginResult.mk false None
                (Some ("Account locked. Please try again in "
                         ++ toString (Num (ceil_div seconds 60)) ++ " minutes."))
                (Some true) (Some (Num seconds))), pop (pop w))).
  { unfold login. run_service. rewrite Hrun, Hget. reflexivity. }
  exists seconds. rewrite Hlogin, Hget. cbn [fst snd].
  repeat split; try assumption; try (apply ceil_div_spec; lia).
Qed.

(** C7, first part. Without a stored timestamp [isLockedOut] answers
    false. With a stored timestamp [t] that is read, it answers true
    exactly when less than fifteen minutes have passed since [t]; once
    fifteen minutes or more have passed it runs [resetFailedAttempts],
    which removes the counter and the timestamp when both removals are
    served, and answers false. *)
Lemma isLockedOut_spec (w : World) :
  (async w !! LOCKOUT_TIMESTAMP = None -> isLockedOut w = (Ok false, pop w))
  /\ forall t : Z,
      async w !! LOCKOUT_TIMESTAMP = Some (Text (toString (Num t))) ->
      rejected w = false ->
      ((isLockedOut w).1 = Ok true <-> now w - t < LOCKOUT_DURATION)
      /\ (now w - t < LOCKOUT_DURATION -> isLockedOut w = (Ok true, pop w))
      /\ (LOCKOUT_DURATION <= now w - t ->
          isLockedOut w = (Ok false, (resetFailedAttempts (pop w)).2)
          /\ ((resetFailedAttempts (pop w)).1 = Ok true ->
              async (isLockedOut w).2 !! FAILED_LOGIN_ATTEMPTS = None
              /\ async (isLockedOut w).2 !! LOCKOUT_TIMESTAMP = None)).
Proof.
  split.
  { intros H. rewrite isLockedOut_run, H. cbn. destruct (rejected w); reflexivity. }
  intros t H Hserved.
  assert (Hrun := isLockedOut_run w).
  rewrite (timeSinceLockout_stored w t H), H, present_number, Hserved in Hrun.
  cbn [negb num_ge] in Hrun.
  split; [|split].
  - rewrite (isLockedOut_stored w t H), Hserved.
    destruct (Z.ltb_spec (now w - t) LOCKOUT_DURATION); split; try lia; try reflexivity.
    discriminate.
  - intros Hlt. rewrite Hrun.
    destruct (Z.leb_spec LOCKOUT_DURATION (now w - t)); [lia|reflexivity].
  - intros Hge. rewrite Hrun.
    destruct (Z.leb_spec LOCKOUT_DURATION (now w - t)); [|lia].
    split; [reflexivity|]. cbn [snd]. rewrite resetFailedAttempts_run.
    destruct (rejected (pop w)); [discriminate|].
    destruct (rejected (pop (pop w))); [discriminate|]. intros _. cbn [snd].
    change (async (set_async ?a _)) with a.
    split; [rewrite lookup_delete_ne by discriminate|]; apply lookup_delete_eq.
Qed.

(** *** Failed attempts *)

Lemma mismatch_eqb (data : LoginFormData.t) (username password : string) :
  username <> LoginFormData.email data \/ password <> LoginFormData.password data ->
  negb (String.eqb username (LoginFormData.email data))
  || negb (String.eqb password (LoginFormData.password data)) = true.
Proof.
  intros [H|H]; apply String.eqb_neq in H; rewrite H; cbn; [reflexivity|].
  destruct (String.eqb username _); reflexivity.
Qed.

(** One failed login on reliable backends: the counter goes up by one, and
    the attempt that reaches [MAX_FAILED_ATTEMPTS] stamps the current time. *)
Lemma failed_login_step (data : LoginFormData.t) (w : World) (count : Z) :
  reliable w -> mismatch data w ->
  async w !! LOCKOUT_TIMESTAMP = None ->
  stored_attempts w = Num count ->
  let w' := (login data w).2 in
  reliable w' /\ keychain w' = keychain w /\ session w' = session w /\ now w' = now w
  /\ stored_attempts w' = Num (count + 1)
  /\ async w' !! LOCKOUT_TIMESTAMP
     = (if MAX_FAILED_ATTEMPTS <=? count + 1
        then Some (Text (toString (Num (now w)))) else None).
Proof.
  intros Hrel Hmis Hts Hcount w'. subst w'.
  destruct w as [k a s n f]. unfold reliable in Hrel. cbn in Hrel, Hts, Hmis. subst f.
  unfold stored_attempts in Hcount. cbn in Hcount.
  set (w := mkWorld k a s n []).
  assert (Hnew : newAttempts w = Num (count + 1)).
  { unfold newAttempts. cbn. rewrite Hcount. reflexivity. }
  assert (Hinc : incrementFailedAttempts w
          = (Ok (Num (count + 1)),
             set_async
               (if MAX_FAILED_ATTEMPTS <=? count + 1
                then <[LOCKOUT_TIMESTAMP := Text (toString (Num n))]>
                       (<[FAILED_LOGIN_ATTEMPTS := Text (toString (Num (count + 1)))]> a)
                else <[FAILED_LOGIN_ATTEMPTS := Text (toString (Num (count + 1)))]> a)
               w)).
  { rewrite incrementFailedAttempts_run. cbv zeta. rewrite Hnew. cbn.
    destruct (MAX_FAILED_ATTEMPTS <=? count + 1); reflexivity. }
  assert (Hlogin : (login data w).2
          = set_async
               (if MAX_FAILED_ATTEMPTS <=? count + 1
                then <[LOCKOUT_TIMESTAMP := Text (toString (Num n))]>
                       (<[FAILED_LOGIN_ATTEMPTS := Text (toString (Num (count + 1)))]> a)
                else <[FAILED_LOGIN_ATTEMPTS := Text (toString (Num (count + 1)))]> a)
               w).
  { unfold login. run_service.
    rewrite isLockedOut_run. cbn [rejected faults hd async w]. rewrite Hts. cbn [present negb].
    change (pop w) with w.
    rewrite getCredentials_run. cbn [rejected faults hd keychain w]. change (pop w) with w.
    destruct k as [[username password]|]; cbn [credentials_of].
    - cbn [Credentials.email Credentials.password].
      rewrite (mismatch_eqb data username password (Hmis _ _ eq_refl)).
      rewrite Hinc. rewrite isLockedOut_run. unfold timeSinceLockout.
      destruct (MAX_FAILED_ATTEMPTS <=? count + 1);
        cbn [rejected faults hd async set_async w now].
      + rewrite lookup_insert_eq, present_number, parseInt_number.
        cbn [negb num_sub num_ge]. replace (n - n) with 0 by lia.
        change (LOCKOUT_DURATION <=? 0) with false. cbv beta iota.
        rewrite getRemainingLockoutTime_run. reflexivity.
      + rewrite lookup_insert_ne by discriminate. rewrite Hts. reflexivity.
    - rewrite Hinc. reflexivity. }
  rewrite Hlogin. unfold stored_attempts. cbn [reliable faults keychain session now async set_async w].
  repeat split.
  - destruct (MAX_FAILED_ATTEMPTS <=? count + 1).
    + rewrite lookup_insert_ne by discriminate.
      rewrite lookup_insert_eq, present_number, parseInt_number. reflexivity.
    + rewrite lookup_insert_eq, present_number, parseInt_number. reflexivity.
  - destruct (MAX_FAILED_ATTEMPTS <=? count + 1).
    + apply lookup_insert_eq.
    + rewrite lookup_insert_ne by discriminate. exact Hts.
Qed.

Lemma mismatch_frame (data : LoginFormData.t) (w w' : World) :
  keychain w' = keychain w -> mismatch data w -> mismatch data w'.
Proof. unfold mismatch. intros ->. auto. Qed.

(** Fewer than [MAX_FAILED_ATTEMPTS] failed logins in a row, from [count]
    earlier ones: no timestamp is written. *)
Lemma failed_logins_below (attempts : list (Z * LoginFormData.t)) :
  forall (w : World) (count : Z),
    reliable w ->
    Forall (fun a => mismatch a.2 w) attempts ->
    async w !! LOCKOUT_TIMESTAMP = None ->
    stored_attempts w = Num count ->
    count + Z.of_nat (length attempts) < MAX_FAILED_ATTEMPTS ->
    let w' := login_attempts attempts w in
    reliable w' /\ keychain w' = keychain w
    /\ async w' !! LOCKOUT_TIMESTAMP = None
    /\ stored_attempts w' = Num (count + Z.of_nat (length attempts)).
Proof.
  induction attempts as [|[delay data] rest IH]; intros w count Hrel Hmis Hts Hcount Hlt.
  - cbn. rewrite Z.add_0_r. auto.
  - cbn [login_attempts length] in *. inversion Hmis as [|? ? Hdata Hrest]; subst.
    assert (Hstep := failed_login_step data (advance delay w) count Hrel Hdata Hts Hcount).
    cbv zeta in Hstep. destruct Hstep as (Hrel' & Hk & _ & _ & Hcount' & Hts').
    destruct (Z.leb_spec MAX_FAILED_ATTEMPTS (count + 1)); [lia|].
    specialize (IH (login data (advance delay w)).2 (count + 1) Hrel').
    destruct IH as (H1 & H2 & H3 & H4); try assumption.
    + eapply Forall_impl; [exact Hrest|]. intros a Ha.
      eapply mismatch_frame; [|exact Ha]. exact Hk.
    + lia.
    + repeat split; try assumption.
      * rewrite H2. exact Hk.
      * rewrite H4. f_equal. lia.
Qed.

(** The attempt that brings the count to [MAX_FAILED_ATTEMPTS] stamps the
    time at which it is made. *)
Lemma failed_logins_reach (attempts : list (Z * LoginFormData.t)) (w : World) :
  reliable w ->
  Forall (fun a => mismatch a.2 w) attempts ->
  async w !! LOCKOUT_TIMESTAMP = None ->
  stored_attempts w = Num 0 ->
  Z.of_nat (length attempts) = MAX_FAILED_ATTEMPTS ->
  let w' := login_attempts attempts w in
  reliable w'
  /\ async w' !! LOCKOUT_TIMESTAMP = Some (Text (toString (Num (now w')))).
Proof.
  intros Hrel Hmis Hts Hcount Hlen.
  destruct (exists_last (l := attempts)) as (front & [delay data] & ->).
  { intros ->. discriminate. }
  rewrite length_app, Nat2Z.inj_add in Hlen. cbn [length] in Hlen.
  apply Forall_app in Hmis. destruct Hmis as [Hfront Hlast].
  inversion Hlast as [|? ? Hdata _]; subst. cbn [snd] in Hdata.
  destruct (failed_logins_below front w 0 Hrel Hfront Hts Hcount ltac:(lia))
    as (Hrel4 & Hk4 & Hts4 & Hcount4).
  assert (Hrun : forall l l' v, login_attempts (l ++ l') v
                                = login_attempts l' (login_attempts l v)).
  { induction l as [|[d a] l IHl]; intros l' v; [reflexivity|]. cbn. apply IHl. }
  cbv zeta. rewrite Hrun. cbn [login_attempts].
  set (w4 := login_attempts front w) in *.
  assert (Hstep := failed_login_step data (advance delay w4)
                     (0 + Z.of_nat (length front)) Hrel4
                     (mismatch_frame data w _ Hk4 Hdata) Hts4 Hcount4).
  cbv zeta in Hstep. destruct Hstep as (Hrel' & _ & _ & Hnow & _ & Hts').
  destruct (Z.leb_spec MAX_FAILED_ATTEMPTS (0 + Z.of_nat (length front) + 1)); [|lia].
  split; [exact Hrel'|]. rewrite Hts', Hnow. reflexivity.
Qed.

(** C7. Without a stored timestamp [isLockedOut] answers false. With a
    stored timestamp that is read, it answers true exactly when less than
    fifteen minutes have passed since it; after fifteen minutes or more it
    runs [resetFailedAttempts] and answers false, and with the two removals
    served the counter and the timestamp are gone. Hence, on reliable
    backends and from a clean lockout state, fewer than five failed logins
    in a row leave the account open, and after the fifth [isLockedOut]
    answers true until fifteen minutes have passed since that attempt. *)
Theorem lockout_window :
  (forall w : World,
     async w !! LOCKOUT_TIMESTAMP = None -> isLockedOut w = (Ok false, pop w))
  /\ (forall (w : World) (t : Z),
        async w !! LOCKOUT_TIMESTAMP = Some (Text (toString (Num t))) ->
        rejected w = false ->
        ((isLockedOut w).1 = Ok true <-> now w - t < LOCKOUT_DURATION)
        /\ (now w - t < LOCKOUT_DURATION -> isLockedOut w = (Ok true, pop w))
        /\ (LOCKOUT_DURATION <= now w - t ->
            isLockedOut w = (Ok false, (resetFailedAttempts (pop w)).2)
            /\ (rejected (pop w) = false -> rejected (pop (pop w)) = false ->
                async (isLockedOut w).2 !! FAILED_LOGIN_ATTEMPTS = None
                /\ async (isLockedOut w).2 !! LOCKOUT_TIMESTAMP = None)))
  /\ (forall (w : World) (attempts : list (Z * LoginFormData.t)),
        reliable w ->
        Forall (fun a => mismatch a.2 w) attempts ->
        async w !! LOCKOUT_TIMESTAMP = None ->
        stored_attempts w = Num 0 ->
        let w' := login_attempts attempts w in
        ((length attempts < 5)%nat ->
         forall d : Z, (isLockedOut (advance d w')).1 = Ok false)
        /\ (length attempts = 5%nat ->
            forall d : Z,
              (d < LOCKOUT_DURATION -> (isLockedOut (advance d w')).1 = Ok true)
              /\ (LOCKOUT_DURATION <= d -> (isLockedOut (advance d w')).1 = Ok false))).
Proof.
  split; [intros w; apply isLockedOut_spec|].
  split.
  { intros w t Hts Hserved.
    destruct (isLockedOut_spec w) as [_ Hspec].
    destruct (Hspec t Hts Hserved) as (Hiff & Hrecent & Hexpired).
    split; [exact Hiff|]. split; [exact Hrecent|].
    intros Hlate. destruct (Hexpired Hlate) as [Hrun Hcleared].
    split; [exact Hrun|]. intros R1 R2. apply Hcleared.
    rewrite resetFailedAttempts_run, R1, R2. reflexivity. }
  intros w attempts Hrel Hmis Hts Hcount w'. subst w'. split.
  - intros Hlen d.
    destruct (failed_logins_below attempts w 0 Hrel Hmis Hts Hcount)
      as (_ & _ & Hts' & _); [unfold MAX_FAILED_ATTEMPTS; lia|].
    rewrite isLockedOut_run. change (async (advance d ?v)) with (async v).
    rewrite Hts'. cbn. destruct (rejected _); reflexivity.
  - intros Hlen d.
    destruct (failed_logins_reach attempts w Hrel Hmis Hts Hcount) as (Hrel' & Hts').
    { rewrite Hlen. reflexivity. }
    set (w5 := login_attempts attempts w) in *.
    assert (Hrun : (isLockedOut (advance d w5)).1 = Ok (d <? LOCKOUT_DURATION)).
    { rewrite (isLockedOut_stored (advance d w5) (now w5) Hts').
      change (rejected (advance d w5)) with (rejected w5).
      rewrite (rejected_reliable w5 Hrel').
      change (now (advance d w5)) with (now w5 + d).
      replace (now w5 + d - now w5) with d by lia. reflexivity. }
    rewrite Hrun. split; intros Hd.
    + destruct (Z.ltb_spec d LOCKOUT_DURATION); [reflexivity|lia].
    + destruct (Z.ltb_spec d LOCKOUT_DURATION); [lia|reflexivity].
Qed.


Ltac run_service_in H :=
  unfold mbind, mret, M_mbind, M_mret, M_bind, M_ret, try_catch, modify in H;
  cbn [fst snd negb] in H.

(** Case analysis on every step of a service run recorded in [H]. *)
Ltac split_run H :=
  repeat (cbv beta iota in H;
          match type of H with
          | context [match ?x with pair _ _ => _ end] =>
              lazymatch x with
              | context [match _ with pair _ _ => _ end] => fail
              | context [if _ then _ else _] => fail
              | context [match _ with Some _ => _ | None => _ end] => fail
              | _ => destruct x as [[?|] ?]
              end
          | context [if ?b then _ else _] => destruct b
          | context [match ?o with Some _ => _ | None => _ end] => destruct o
          end).

(** C10. When the backend rejects the read of the lockout timestamp,
    [isLockedOut] answers false and [getRemainingLockoutTime] answers 0,
    and nothing stored changes. More generally [isLockedOut] never throws,
    and it answers true only when that read was served and was its only
    backend call; neither function reads the counter of failed attempts.
    That counter is read by [incrementFailedAttempts]: when this read is
    rejected the count restarts at 1 and no timestamp is written. A login
    whose lockout check is rejected is therefore never turned away by that
    check, whatever counter and timestamp are stored: with the stored email
    and password it goes on to the reset of the counter and of the
    timestamp (the later calls being served), and ends where every
    matching login ends, at the missing [setSessionActive]. *)
Theorem lockout_check_fails_open (w : World) :
  rejected w = true ->
  isLockedOut w = (Ok false, pop w)
  /\ getRemainingLockoutTime w = (Ok (Num 0), pop w)
  /\ (forall v : World,
        (exists answer, (isLockedOut v).1 = Ok answer)
        /\ ((isLockedOut v).1 = Ok true -> rejected v = false /\ (isLockedOut v).2 = pop v)
        /\ (rejected v = true -> (getRemainingLockoutTime v).1 = Ok (Num 0)))
  /\ (rejected (pop w) = false ->
      incrementFailedAttempts w
      = (Ok (Num 1),
         set_async (<[FAILED_LOGIN_ATTEMPTS := Text "1"]> (async w)) (pop (pop w))))
  /\ (forall data remainingTime result w',
        login data w = (Ok result, w') ->
        LoginResult.error result <> Some (locked_message remainingTime))
  /\ (forall data : LoginFormData.t,
        keychain w = Some (LoginFormData.email data, LoginFormData.password data) ->
        reliable (pop w) ->
        (login data w).1
        = Ok (LoginResult.mk false None
                (Some "An unexpected error occurred during login") None None)
        /\ async (login data w).2
           = delete LOCKOUT_TIMESTAMP (delete FAILED_LOGIN_ATTEMPTS (async w))).
Proof.
  intros Hrej.
  assert (Hlock : isLockedOut w = (Ok false, pop w))
    by (rewrite isLockedOut_run, Hrej; reflexivity).
  split; [exact Hlock|].
  split; [rewrite getRemainingLockoutTime_run, Hrej; reflexivity|].
  split; [|split; [|split]].
  - intros v. split; [|split].
    + rewrite isLockedOut_run.
      destruct (rejected v); [eauto|]. destruct (negb _); [eauto|].
      destruct (num_ge _ _); eauto.
    + intros Htrue. destruct (isLockedOut_true_inv v Htrue) as (Hrun & Hserved & _).
      rewrite Hrun. split; [exact Hserved|reflexivity].
    + intros Hv. rewrite getRemainingLockoutTime_run, Hv. reflexivity.
  - intros Hnext. rewrite incrementFailedAttempts_run. unfold newAttempts.
    rewrite Hrej. cbv zeta. rewrite Hnext. reflexivity.
  - intros data remainingTime result w' Hlogin Herr.
    unfold login, setSessionActive, not_a_function in Hlogin.
    run_service_in Hlogin. rewrite Hlock in Hlogin.
    split_run Hlogin; cbv beta iota in Hlogin; try discriminate Hlogin;
      injection Hlogin as <- _; cbn in Herr; discriminate.
  - intros data Hk Hrel.
    destruct w as [k a s n [|b f]]; [discriminate|].
    unfold rejected in Hrej. cbn in Hrej, Hk, Hrel. unfold reliable in Hrel.
    cbn in Hrel. subst b f k.
    unfold login. run_service. rewrite Hlock.
    rewrite getCredentials_run. cbn [pop rejected faults hd tl set_faults keychain
                                     credentials_of Credentials.email Credentials.password].
    rewrite !String.eqb_refl. cbn [negb orb].
    rewrite resetFailedAttempts_run. cbn [pop rejected faults hd tl set_faults async].
    split; reflexivity.
Qed.

(** ** Login *)

Lemma resetFailedAttempts_frame (w : World) (key : string) :
  key <> FAILED_LOGIN_ATTEMPTS -> key <> LOCKOUT_TIMESTAMP ->
  async (resetFailedAttempts w).2 !! key = async w !! key
  /\ keychain (resetFailedAttempts w).2 = keychain w
  /\ session (resetFailedAttempts w).2 = session w.
Proof.
  intros H1 H2. rewrite resetFailedAttempts_run.
  destruct (rejected w); [|destruct (rejected (pop w))]; cbn [snd];
    change (async (set_async ?a _)) with a; change (async (pop ?v)) with (async v);
    rewrite ?lookup_delete_ne by congruence; repeat split.
Qed.

Lemma isLockedOut_frame (w : World) (key : string) :
  key <> FAILED_LOGIN_ATTEMPTS -> key <> LOCKOUT_TIMESTAMP ->
  async (isLockedOut w).2 !! key = async w !! key
  /\ keychain (isLockedOut w).2 = keychain w
  /\ session (isLockedOut w).2 = session w.
Proof.
  intros H1 H2. rewrite isLockedOut_run.
  destruct (rejected w); [repeat split|].
  destruct (negb _); [repeat split|].
  destruct (num_ge _ _); [|repeat split]. cbn [snd].
  apply (resetFailedAttempts_frame (pop w) key H1 H2).
Qed.

(** No run of [login] ends in success or in the profile-missing error:
    both lie behind [setSessionActive]. *)
Lemma login_never_succeeds (data : LoginFormData.t) (w : World)
    (result : LoginResult.t) :
  (login data w).1 = Ok result ->
  LoginResult.success result = false
  /\ LoginResult.error result <> Some "User data not found".
Proof.
  intros Hlogin. unfold login, setSessionActive, not_a_function in Hlogin.
  run_service_in Hlogin.
  split_run Hlogin; cbv beta iota in Hlogin; cbn [fst] in Hlogin;
    try discriminate Hlogin;
    injection Hlogin as <-; (split; [reflexivity|discriminate]).
Qed.

(** C3, what the code does. When [isLockedOut] answers false and
    [getCredentials] returns exactly the submitted email and password,
    [login] runs [resetFailedAttempts] and then calls
    [StorageService.setSessionActive], a method the class does not have:
    the call throws and the [catch] of [login] answers with the
    unexpected-error result. The counter and the timestamp are removed by
    then (the counter reads 0 when the two removals are served); the
    profile is never read, no session flag is set, and the credential and
    the profile stay as they were. In fact no run of [login] returns
    success, and none returns the profile-missing error. *)
Theorem login_cannot_succeed (data : LoginFormData.t) (w : World) :
  let w1 := (isLockedOut w).2 in
  let w2 := (getCredentials w1).2 in
  let reset := resetFailedAttempts w2 in
  (isLockedOut w).1 = Ok false ->
  (getCredentials w1).1
  = Ok (Some (Credentials.mk (LoginFormData.email data) (LoginFormData.password data))) ->
  login data w
  = (Ok (LoginResult.mk false None
           (Some "An unexpected error occurred during login") None None), reset.2)
  /\ session (login data w).2 = session w
  /\ keychain (login data w).2 = keychain w
  /\ async (login data w).2 !! USER_DATA = async w !! USER_DATA
  /\ (rejected w2 = false -> rejected (pop w2) = false ->
      async (login data w).2 !! FAILED_LOGIN_ATTEMPTS = None
      /\ async (login data w).2 !! LOCKOUT_TIMESTAMP = None
      /\ (getFailedAttempts (login data w).2).1 = Ok (Num 0))
  /\ forall data' w' result,
      (login data' w').1 = Ok result ->
      LoginResult.success result = false
      /\ LoginResult.error result <> Some "User data not found".
Proof.
  intros w1 w2 reset Hopen Hcred.
  assert (Hlogin : login data w
            = (Ok (LoginResult.mk false None
                     (Some "An unexpected error occurred during login") None None),
               reset.2)).
  { assert (E1 : isLockedOut w = (Ok false, w1))
      by (subst w1; destruct (isLockedOut w); cbn in *; congruence).
    assert (E2 : getCredentials w1
                 = (Ok (Some (Credentials.mk (LoginFormData.email data)
                                (LoginFormData.password data))), w2))
      by (subst w2; destruct (getCredentials w1); cbn in *; congruence).
    assert (E3 : exists b, resetFailedAttempts w2 = (Ok b, reset.2)).
    { subst reset. rewrite resetFailedAttempts_run.
      destruct (rejected w2); [|destruct (rejected (pop w2))]; eauto. }
    destruct E3 as [b E3].
    unfold login. run_service. rewrite E1. cbv beta iota. rewrite E2. cbv beta iota.
    cbn [Credentials.email Credentials.password]. rewrite !String.eqb_refl.
    cbn [negb orb]. rewrite E3. reflexivity. }
  assert (Hframe : forall key,
             key <> FAILED_LOGIN_ATTEMPTS -> key <> LOCKOUT_TIMESTAMP ->
             async reset.2 !! key = async w !! key
             /\ keychain reset.2 = keychain w /\ session reset.2 = session w).
  { intros key H1 H2. subst reset w2.
    destruct (resetFailedAttempts_frame (getCredentials w1).2 key H1 H2)
      as (-> & -> & ->).
    rewrite getCredentials_run. cbn [snd].
    destruct (pop_frame w1) as (-> & -> & -> & _).
    subst w1. apply (isLockedOut_frame w key H1 H2). }
  rewrite Hlogin. cbn [fst snd].
  destruct (Hframe USER_DATA) as (Ha & Hk & Hs); try discriminate.
  split; [reflexivity|]. split; [exact Hs|]. split; [exact Hk|]. split; [exact Ha|].
  split; [|intros data' w' result; apply login_never_succeeds].
  intros R1 R2. subst reset. rewrite resetFailedAttempts_run, R1, R2. cbn [snd].
  set (w3 := set_async _ _).
  assert (Hf : async w3 !! FAILED_LOGIN_ATTEMPTS = None).
  { subst w3. unfold set_async. cbn [async].
    rewrite lookup_delete_ne by discriminate. apply lookup_delete_eq. }
  split; [exact Hf|]. split; [apply lookup_delete_eq|].
  rewrite getFailedAttempts_run, Hf. destruct (rejected w3); reflexivity.
Qed.

(** ** Logout and the session *)

Lemma hasSession_run (w : World) :
  hasSession w =
  (Ok (bool_decide ((if rejected w then None else credentials_of (keychain w)) <> None)
       && bool_decide ((if rejected (pop w) then None
                        else profile_of (async w !! USER_DATA)) <> None)),
   pop (pop w)).
Proof.
  unfold hasSession. run_service. rewrite getCredentials_run, getUserData_run.
  reflexivity.
Qed.

Lemma logout_run (w : World) : logout w = (Ok false, w).
Proof. reflexivity. Qed.

(** [hasSession] does not depend on the session flag. *)
Lemma hasSession_ignores_flag (w : World) (active : bool) :
  (hasSession (set_session active w)).1 = (hasSession w).1.
Proof. rewrite !hasSession_run. reflexivity. Qed.

(** C2, what the code does. [logout] calls [StorageService.clearSession],
    a method the class does not have: the call throws, [logout] answers
    false and nothing changes. The credential and the profile are kept, as
    the claim says; but [hasSession] looks only at the credential and the
    profile, so after [logout] it still answers true and [checkAuth] still
    reports the user as authenticated. *)
Theorem logout_stays_authenticated (w : World) (username password : string)
    (u : User.t) :
  keychain w = Some (username, password) ->
  async w !! USER_DATA = Some (JsonUser u) ->
  reliable w ->
  let w' := (logout w).2 in
  logout w = (Ok false, w)
  /\ (getCredentials w').1 = Ok (Some (Credentials.mk username password))
  /\ (getUserData w').1 = Ok (Some u)
  /\ (hasSession w').1 = Ok true
  /\ (checkAuth w').1 = Ok (CheckAuthResult.mk true (Some u)).
Proof.
  intros Hk Ha Hrel w'. subst w'. rewrite logout_run. cbn [fst snd].
  destruct w as [k a s n f]. unfold reliable in Hrel. cbn in Hk, Ha, Hrel. subst k f.
  set (w := mkWorld _ _ _ _ _).
  assert (Hsession : hasSession w = (Ok true, w)).
  { rewrite hasSession_run. subst w. cbn [rejected pop faults hd tl set_faults
                                           keychain async credentials_of].
    rewrite Ha. reflexivity. }
  assert (Hdata : getUserData w = (Ok (Some u), w)).
  { rewrite getUserData_run. subst w. cbn [rejected pop faults hd tl set_faults
                                           async]. rewrite Ha. reflexivity. }
  repeat split.
  - rewrite Hdata. reflexivity.
  - rewrite Hsession. reflexivity.
  - unfold checkAuth. run_service. rewrite Hsession. cbn [negb]. rewrite Hdata. reflexivity.
Qed.

(** ** The registration draft *)

(** C4, as amended. [storePartialRegistration] persists the draft as it is
    given, password fields included: a served [getPartialRegistration]
    returns that very draft. The registration screen is what leaves the
    passwords out: the draft it saves is the form's email, first name, last
    name and phone number, so what it persists has no password and no
    confirmPassword field. *)
Theorem partial_registration_round_trip (d : PartialRegistration.t) (w : World) :
  let stored := storePartialRegistration d w in
  let saved := watch_subscription d w in
  (stored.1 = Ok true -> rejected stored.2 = false ->
   (getPartialRegistration stored.2).1 = Ok (Some d))
  /\ (saved.1 = Ok true -> rejected saved.2 = false ->
      (getPartialRegistration saved.2).1 = Ok (Some (without_passwords d))
      /\ async saved.2 !! PARTIAL_REGISTRATION = Some (JsonDraft (without_passwords d)))
  /\ PartialRegistration.password (without_passwords d) = None
  /\ PartialRegistration.confirmPassword (without_passwords d) = None
  /\ PartialRegistration.email (without_passwords d) = PartialRegistration.email d
  /\ PartialRegistration.firstName (without_passwords d) = PartialRegistration.firstName d
  /\ PartialRegistration.lastName (without_passwords d) = PartialRegistration.lastName d
  /\ PartialRegistration.phoneNumber (without_passwords d)
     = PartialRegistration.phoneNumber d.
Proof.
  intros stored saved.
  assert (Hround : forall d', (storePartialRegistration d' w).1 = Ok true ->
            rejected (storePartialRegistration d' w).2 = false ->
            (getPartialRegistration (storePartialRegistration d' w).2).1 = Ok (Some d')
            /\ async (storePartialRegistration d' w).2 !! PARTIAL_REGISTRATION
               = Some (JsonDraft d')).
  { intros d'. rewrite storePartialRegistration_run.
    destruct (rejected w); [discriminate|]. cbn [fst snd]. intros _ Hserved.
    rewrite getPartialRegistration_run, Hserved. cbn [fst].
    change (async (set_async ?a _)) with a. rewrite lookup_insert_eq. split; reflexivity. }
  split; [intros H1 H2; apply (Hround d H1 H2)|].
  split; [intros H1 H2; apply (Hround (without_passwords d) H1 H2)|].
  repeat split.
Qed.

(** * Instances *)

Example parseInt10_samples :
  parseInt10 "900000" = Num 900000
  /\ parseInt10 "  -12px" = Num (-12)
  /\ parseInt10 "px" = NaN
  /\ toString (Num 1700000000000) = "1700000000000"
  /\ toString (Math_ceil_div (Num 840) 60) = "14".
Proof. repeat split. Qed.

Lemma register_cannot_succeed_witness :
  keychain signing_up = None
  /\ (register john signing_up).1
     = Ok (RegisterResult.mk false None
             (Some "An unexpected error occurred during registration"))
  /\ keychain (register john signing_up).2 = Some ("a@b.com", "Passw0rd")
  /\ async (register john signing_up).2 !! USER_DATA = Some (JsonUser john_profile)
  /\ async (register john signing_up).2 !! PARTIAL_REGISTRATION
     = Some (JsonDraft (without_passwords typed_form))
  /\ session (register john signing_up).2 = false.
Proof.
  split; [reflexivity|].
  pose proof (register_cannot_succeed john signing_up) as H. cbv zeta in H.
  destruct H as (Hreg & Hk & Hu & Hd & Hs & _).
  - intros username pw Hk. vm_compute in Hk. discriminate Hk.
  - vm_compute. reflexivity.
  - vm_compute. reflexivity.
  - rewrite Hreg at 1. cbn [fst]. split; [reflexivity|]. split; [exact Hk|].
    split; [exact Hu|]. split; [rewrite Hd; reflexivity|exact Hs].
Defined.

Lemma register_replaces_other_credential :
  keychain registered = Some ("a@b.com", "Passw0rd")
  /\ (getCredentials registered).1 = Ok (Some (Credentials.mk "a@b.com" "Passw0rd"))
  /\ keychain (register mary registered).2 = Some ("c@d.com", "Secret123").
Proof. vm_compute. repeat split. Qed.

Lemma register_existing_email_witness :
  (getCredentials registered).1 = Ok (Some (Credentials.mk "a@b.com" "Passw0rd"))
  /\ RegistrationFormData.password john_again <> "Passw0rd"
  /\ (register john_again registered).1
     = Ok (RegisterResult.mk false None
             (Some "An account with this email already exists"))
  /\ keychain (register john_again registered).2 = keychain registered
  /\ keychain (register mary registered).2 = Some ("c@d.com", "Secret123").
Proof.
  split; [reflexivity|]. split; [discriminate|].
  destruct register_existing_email as (Hsame & Hother).
  destruct (Hsame john_again registered (Credentials.mk "a@b.com" "Passw0rd")
              eq_refl eq_refl) as (Hreg & Hk & _).
  rewrite Hreg. split; [reflexivity|]. rewrite Hreg in Hk. split; [exact Hk|].
  apply (Hother mary registered "a@b.com" "Passw0rd");
    [reflexivity|discriminate|reflexivity|reflexivity].
Defined.

Lemma register_rolls_back_witness :
  (register john (rejecting_third signing_up)).1
  = Ok (RegisterResult.mk false None (Some "Failed to store user data"))
  /\ keychain (register john (rejecting_third signing_up)).2 = None
  /\ session (register john (rejecting_third signing_up)).2 = false
  /\ async (register john (rejecting_third signing_up)).2 = async signing_up.
Proof.
  pose proof (register_rolls_back john (rejecting_third signing_up)) as H.
  cbv zeta in H. destruct H as (Hreg & _ & Hk & Hs & Ha).
  - intros username pw Hkey. vm_compute in Hkey. discriminate Hkey.
  - vm_compute. reflexivity.
  - vm_compute. reflexivity.
  - rewrite Hreg. cbn [fst snd]. split; [reflexivity|].
    split; [apply Hk; vm_compute; reflexivity|]. split; [exact Hs|exact Ha].
Defined.

Lemma login_while_locked_out_witness :
  (isLockedOut locked).1 = Ok true
  /\ (login john_login locked).1
     = Ok (LoginResult.mk false None
             (Some "Account locked. Please try again in 14 minutes.")
             (Some true) (Some (Num 840)))
  /\ async (login john_login locked).2 !! FAILED_LOGIN_ATTEMPTS = Some (Text "5").
Proof.
  assert (Hlocked : (isLockedOut locked).1 = Ok true) by (vm_compute; reflexivity).
  split; [exact Hlocked|].
  destruct (login_while_locked_out john_login locked Hlocked)
    as (seconds & Hrem & _ & Hlogin & _ & _ & Hcount & _).
  vm_compute in Hrem. injection Hrem as <-.
  rewrite Hlogin in *. cbn [fst snd] in *. split; [reflexivity|].
  rewrite Hcount. reflexivity.
Defined.

Lemma login_cannot_succeed_witness :
  (getFailedAttempts after_three_failures).1 = Ok (Num 3)
  /\ (login john_login after_three_failures).1
     = Ok (LoginResult.mk false None
             (Some "An unexpected error occurred during login") None None)
  /\ session (login john_login after_three_failures).2 = false
  /\ (getFailedAttempts (login john_login after_three_failures).2).1 = Ok (Num 0).
Proof.
  split; [reflexivity|].
  pose proof (login_cannot_succeed john_login after_three_failures) as H. cbv zeta in H.
  destruct H as (Hlogin & Hs & _ & _ & Hreset & _).
  - vm_compute. reflexivity.
  - vm_compute. reflexivity.
  - rewrite Hlogin at 1. cbn [fst]. split; [reflexivity|]. split; [exact Hs|].
    apply Hreset; reflexivity.
Defined.

Lemma lockout_check_fails_open_witness :
  (isLockedOut locked).1 = Ok true
  /\ (isLockedOut (rejecting locked)).1 = Ok false
  /\ (getRemainingLockoutTime (rejecting locked)).1 = Ok (Num 0)
  /\ (login john_login (rejecting locked)).1
     = Ok (LoginResult.mk false None
             (Some "An unexpected error occurred during login") None None)
  /\ async (login john_login (rejecting locked)).2 !! LOCKOUT_TIMESTAMP = None.
Proof.
  split; [vm_compute; reflexivity|].
  destruct (lockout_check_fails_open (rejecting locked) eq_refl)
    as (Hlock & Hrem & _ & _ & _ & Hlogin).
  rewrite Hlock, Hrem. split; [reflexivity|]. split; [reflexivity|].
  destruct (Hlogin john_login) as [Hresult Hasync]; [reflexivity|reflexivity|].
  split; [exact Hresult|]. rewrite Hasync. apply lookup_delete_eq.
Defined.

Lemma logout_stays_authenticated_witness :
  logout registered = (Ok false, registered)
  /\ (hasSession (logout registered).2).1 = Ok true
  /\ (checkAuth (logout registered).2).1
     = Ok (CheckAuthResult.mk true (Some john_profile)).
Proof.
  destruct (logout_stays_authenticated registered "a@b.com" "Passw0rd" john_profile)
    as (H1 & _ & _ & H3 & H4); try reflexivity.
  repeat split; assumption.
Defined.

Lemma draft_stored_with_password :
  (storePartialRegistration typed_form signing_up).1 = Ok true
  /\ (getPartialRegistration (storePartialRegistration typed_form signing_up).2).1
     = Ok (Some typed_form)
  /\ PartialRegistration.password typed_form = Some "Passw0rd"
  /\ PartialRegistration.confirmPassword typed_form = Some "Passw0rd"
  /\ typed_form <> without_passwords typed_form.
Proof. vm_compute. repeat split. discriminate. Qed.

Lemma partial_registration_round_trip_witness :
  (getPartialRegistration (storePartialRegistration typed_form signing_up).2).1
  = Ok (Some typed_form)
  /\ (getPartialRegistration (watch_subscription typed_form signing_up).2).1
     = Ok (Some (without_passwords typed_form)).
Proof.
  pose proof (partial_registration_round_trip typed_form signing_up) as H.
  cbv zeta in H. destruct H as (Hstore & Hsave & _).
  split; [apply Hstore; reflexivity|]. apply Hsave; reflexivity.
Defined.

Lemma remaining_lockout_time_witness :
  (getRemainingLockoutTime locked).1 = Ok (Num 840)
  /\ (getRemainingLockoutTime (advance 839999 locked)).1 = Ok (Num 1)
  /\ (getRemainingLockoutTime (advance 840000 locked)).1 = Ok (Num 0)
  /\ (isLockedOut (advance 840000 locked)).1 = Ok false.
Proof.
  destruct (remaining_lockout_time (advance 840000 locked)) as (_ & H).
  destruct (H 1000 eq_refl) as (Hzero & _ & _ & Hiff).
  split; [vm_compute; reflexivity|]. split; [vm_compute; reflexivity|].
  assert (Hz := Hzero ltac:(vm_compute; discriminate)).
  split; [exact Hz|]. apply Hiff. exact Hz.
Defined.

Lemma lockout_window_witness :
  (isLockedOut (login_attempts (take 4 five_wrong) (set_session false registered))).1
  = Ok false
  /\ (isLockedOut (login_attempts five_wrong (set_session false registered))).1 = Ok true
  /\ (isLockedOut (advance 899999 (login_attempts five_wrong (set_session false registered)))).1
     = Ok true
  /\ (isLockedOut (advance 900000 (login_attempts five_wrong (set_session false registered)))).1
     = Ok false
  /\ async locked !! FAILED_LOGIN_ATTEMPTS = Some (Text "5")
  /\ async (isLockedOut (advance 840000 locked)).2 !! FAILED_LOGIN_ATTEMPTS = None
  /\ async (isLockedOut (advance 840000 locked)).2 !! LOCKOUT_TIMESTAMP = None.
Proof.
  assert (Hwrong : forall n, Forall (fun a => mismatch a.2 (set_session false registered))
                               (take n five_wrong)).
  { intros n. apply Forall_take. unfold five_wrong. cbn [replicate].
    repeat (apply List.Forall_cons;
            [intros username password [= <- <-]; right; discriminate|]).
    apply List.Forall_nil. }
  destruct lockout_window as (_ & Hstored & H).
  destruct (H (set_session false registered) (take 4 five_wrong)) as (Hfour & _);
    [reflexivity|apply Hwrong|reflexivity|reflexivity|].
  destruct (H (set_session false registered) five_wrong) as (_ & Hfive);
    [reflexivity|apply (Hwrong 5%nat)|reflexivity|reflexivity|].
  split; [apply (Hfour ltac:(cbn; lia) 0)|].
  split; [apply (Hfive eq_refl 0); reflexivity|].
  split; [apply (Hfive eq_refl 899999); reflexivity|].
  split; [apply (Hfive eq_refl 900000); discriminate|].
  split; [reflexivity|].
  destruct (Hstored (advance 840000 locked) 1000) as (_ & _ & Hexpired);
    [reflexivity|reflexivity|].
  destruct Hexpired as [_ Hcleared]; [vm_compute; discriminate|].
  apply Hcleared; reflexivity.
Defined.

(** The scenario of the specification: John registers (the credential
    and the profile are stored, though [register] ends in its [catch]); five
    logins with a wrong password follow, the fifth answering locked out
    with 900 seconds left; a login with the right password is then turned
    away as well, and the counter stays at 5. *)
Example specification_scenario :
  let w1 := (register john signing_up).2 in
  let w5 := login_attempts (replicate 4 (0, wrong_password)) w1 in
  let fifth := login wrong_password w5 in
  let sixth := login john_login fifth.2 in
  keychain w1 = Some ("a@b.com", "Passw0rd")
  /\ async w1 !! USER_DATA = Some (JsonUser john_profile)
  /\ fifth.1
     = Ok (LoginResult.mk false None
             (Some "Too many failed attempts. Account locked for 15 minutes.")
             (Some true) (Some (Num 900)))
  /\ sixth.1
     = Ok (LoginResult.mk false None
             (Some "Account locked. Please try again in 15 minutes.")
             (Some true) (Some (Num 900)))
  /\ (getFailedAttempts fifth.2).1 = Ok (Num 5)
  /\ (getFailedAttempts sixth.2).1 = Ok (Num 5).
Proof. vm_compute. repeat split. Qed.
(** * Validation *)

Local Open Scope list_scope.

(** ** Matching by derivatives *)

Lemma append_is_cons (s1 s2 s : list N) (u : N) :
  s1 ++ s2 = u :: s ->
  (s1 = [] /\ s2 = u :: s) \/ exists s1', s1 = u :: s1' /\ s = s1' ++ s2.
Proof.
  destruct s1 as [|u1 s1]; [auto|]. intros [= -> <-]. right. eauto.
Qed.

Lemma nullable_matches (r : regex) : nullable r = true <-> matches r [].
Proof.
  split.
  - induction r; simpl; intros H; try discriminate.
    + constructor.
    + apply andb_prop in H as [H1 H2].
      change (@nil N) with (@nil N ++ []). constructor; auto.
    + apply orb_prop in H as [H|H]; [apply matches_Alt_l|apply matches_Alt_r]; auto.
    + constructor.
  - intros H. remember (@nil N) as s eqn:Es.
    induction H; simpl; try reflexivity; try discriminate.
    + apply app_eq_nil in Es as [-> ->].
      rewrite IHmatches1, IHmatches2; auto.
    + rewrite IHmatches; auto.
    + rewrite IHmatches; auto. apply orb_true_r.
Qed.

(** A repetition that matches a non-empty sequence starts with a non-empty
    round. *)
Lemma matches_Star_cons (r : regex) (u : N) (s : list N) :
  matches (Star r) (u :: s) ->
  exists s1 s2, s = s1 ++ s2 /\ matches r (u :: s1) /\ matches (Star r) s2.
Proof.
  intros H. remember (Star r) as r' eqn:Er. remember (u :: s) as t eqn:Et.
  induction H; try discriminate.
  injection Er as ->.
  apply append_is_cons in Et as [[-> ->]|(s1' & -> & ->)].
  - apply IHmatches2; reflexivity.
  - eauto.
Qed.

Lemma derivative_matches (r : regex) :
  forall (u : N) (s : list N),
    matches (derivative u r) s <-> matches r (u :: s).
Proof.
  induction r as [| |p|r1 IH1 r2 IH2|r1 IH1 r2 IH2|r IH]; intros u s; simpl.
  - split; intros H; inversion H.
  - split; intros H; inversion H.
  - destruct (p u) eqn:Hp; split; intros H; inversion H; subst.
    + constructor. exact Hp.
    + constructor.
    + congruence.
  - assert (Hseq : matches (Seq (derivative u r1) r2) s ->
                   matches (Seq r1 r2) (u :: s)).
    { intros H. inversion H; subst.
      change (u :: s1 ++ s2) with ((u :: s1) ++ s2).
      constructor; [apply IH1|]; assumption. }
    assert (Hinv : matches (Seq r1 r2) (u :: s) ->
                   matches (Seq (derivative u r1) r2) s
                   \/ (nullable r1 = true /\ matches (derivative u r2) s)).
    { intros H. inversion H; subst.
      match goal with
      | Hs : _ ++ _ = _ :: _ |- _ =>
          apply append_is_cons in Hs as [[-> ->]|(s1' & -> & ->)]
      end.
      - right. split; [apply nullable_matches|apply IH2]; assumption.
      - left. constructor; [apply IH1|]; assumption. }
    destruct (nullable r1) eqn:Hn; split; intros H.
    + inversion H; subst; [apply Hseq; assumption|].
      change (u :: s) with ([] ++ u :: s).
      constructor; [apply nullable_matches; exact Hn|apply IH2; assumption].
    + destruct (Hinv H) as [H'|[_ H']];
        [apply matches_Alt_l|apply matches_Alt_r]; assumption.
    + apply Hseq; assumption.
    + destruct (Hinv H) as [H'|[H' _]]; [assumption|discriminate].
  - split; intros H; inversion H; subst;
      solve [apply matches_Alt_l; apply IH1; assumption
            |apply matches_Alt_r; apply IH2; assumption].
  - split; intros H.
    + inversion H; subst.
      change (u :: s1 ++ s2) with ((u :: s1) ++ s2).
      constructor; [apply IH|]; assumption.
    + apply matches_Star_cons in H as (s1 & s2 & -> & H1 & H2).
      constructor; [apply IH|]; assumption.
Qed.

(** The matcher decides the language of the expression. *)
Lemma test_whole_matches (s : list N) :
  forall r : regex, test_whole r s = true <-> matches r s.
Proof.
  induction s as [|u s IH]; intros r; simpl.
  - apply nullable_matches.
  - rewrite IH. apply derivative_matches.
Qed.

(** ** Character classes *)

Lemma every_append (p : N -> bool) (s1 s2 : list N) :
  every p (s1 ++ s2) = every p s1 && every p s2.
Proof.
  induction s1 as [|u s1 IH]; [reflexivity|]. simpl. rewrite IH. apply andb_assoc.
Qed.

Lemma count_append (p : N -> bool) (s1 s2 : list N) :
  count p (s1 ++ s2) = (count p s1 + count p s2)%nat.
Proof.
  induction s1 as [|u s1 IH]; [reflexivity|]. simpl. rewrite IH.
  destruct (p u); reflexivity.
Qed.

Lemma count_none (p q : N -> bool) (s : list N) :
  every q s = true -> (forall u, q u = true -> p u = false) -> count p s = O.
Proof.
  intros Hq Hpq. induction s as [|u s IH]; [reflexivity|]. simpl in *.
  apply andb_prop in Hq as [Hu Hs]. rewrite (Hpq u Hu). auto.
Qed.

Lemma some_not_every (p : N -> bool) (s : list N) :
  some (fun u => negb (p u)) s = negb (every p s).
Proof.
  induction s as [|u s IH]; [reflexivity|]. simpl. rewrite IH.
  destruct (p u); reflexivity.
Qed.

Lemma matches_Class_inv (p : N -> bool) (s : list N) :
  matches (Class p) s -> exists u, s = [u] /\ p u = true.
Proof. intros H. inversion H; subst. eauto. Qed.

Lemma matches_Seq_inv (r1 r2 : regex) (s : list N) :
  matches (Seq r1 r2) s ->
  exists s1 s2, s = s1 ++ s2 /\ matches r1 s1 /\ matches r2 s2.
Proof. intros H. inversion H; subst. eauto. Qed.

Lemma matches_Star_Class (p : N -> bool) (s : list N) :
  matches (Star (Class p)) s <-> every p s = true.
Proof.
  split.
  - intros H. remember (Star (Class p)) as r eqn:Er.
    induction H; try discriminate; [reflexivity|]. injection Er as ->.
    rewrite every_append, IHmatches2 by reflexivity.
    apply matches_Class_inv in H as (u & -> & Hu). simpl. rewrite Hu. reflexivity.
  - induction s as [|u s IH]; simpl; intros H; [constructor|].
    apply andb_prop in H as [Hu Hs].
    change (u :: s) with ([u] ++ s).
    constructor; [constructor; exact Hu|auto].
Qed.

Lemma matches_Plus_Class (p : N -> bool) (s : list N) :
  matches (Plus (Class p)) s <-> s <> [] /\ every p s = true.
Proof.
  unfold Plus. split.
  - intros H. apply matches_Seq_inv in H as (s1 & s2 & -> & H1 & H2).
    apply matches_Class_inv in H1 as (u & -> & Hu).
    split; [discriminate|].
    simpl. rewrite Hu. apply matches_Star_Class. assumption.
  - intros [Hne H]. destruct s as [|u s]; [congruence|]. simpl in H.
    apply andb_prop in H as [Hu Hs].
    change (u :: s) with ([u] ++ s).
    constructor; [constructor; exact Hu|apply matches_Star_Class; exact Hs].
Qed.

Lemma every_any (s : list N) : every (fun _ => true) s = true.
Proof. induction s; simpl; auto. Qed.

Lemma some_append (p : N -> bool) (s1 s2 : list N) :
  some p (s1 ++ s2) = some p s1 || some p s2.
Proof.
  induction s1 as [|u s1 IH]; [reflexivity|]. simpl. rewrite IH. apply orb_assoc.
Qed.

(** An unanchored character class finds a code unit of the class. *)
Lemma test_part_Class (p : N -> bool) (s : list N) :
  test_part (Class p) s = some p s.
Proof.
  apply eq_true_iff_eq. unfold test_part. rewrite test_whole_matches. split.
  - intros H. apply matches_Seq_inv in H as (s1 & s2 & -> & _ & H).
    apply matches_Seq_inv in H as (s3 & s4 & -> & H & _).
    apply matches_Class_inv in H as (u & -> & Hu).
    rewrite !some_append. simpl. rewrite Hu. apply orb_true_r.
  - induction s as [|u s IH]; simpl; [discriminate|].
    destruct (p u) eqn:Hu; simpl.
    + intros _. change (u :: s) with ([] ++ ([u] ++ s)).
      constructor; [constructor|].
      constructor; [constructor; exact Hu|apply matches_Star_Class, every_any].
    + intros H. apply IH, matches_Seq_inv in H as (s1 & s2 & -> & H1 & H2).
      change (u :: s1 ++ s2) with ((u :: s1) ++ s2).
      constructor; [|assumption].
      apply matches_Star_Class. simpl. apply matches_Star_Class. assumption.
Qed.

(** ** The field validators *)

Lemma trim_end_empty (s : list N) :
  trim_end s = [] <-> every is_whitespace s = true.
Proof.
  induction s as [|u s IH]; simpl; [tauto|].
  destruct (trim_end s) as [|u' t] eqn:Et.
  - destruct (is_whitespace u); simpl; [tauto|]. split; discriminate.
  - split; [discriminate|]. intros H. apply andb_prop in H as [_ H].
    apply IH in H. discriminate.
Qed.

Lemma every_trim_start (s : list N) :
  every is_whitespace (trim_start s) = every is_whitespace s.
Proof.
  induction s as [|u s IH]; [reflexivity|]. simpl.
  destruct (is_whitespace u) eqn:Hu; simpl; [exact IH|]. rewrite Hu. reflexivity.
Qed.

Lemma validateRequired_some (value : string) :
  validateRequired value
  = some (fun u => negb (is_whitespace u)) (code_units value).
Proof.
  rewrite some_not_every, <- every_trim_start. unfold validateRequired, trim.
  destruct (trim_end (trim_start (code_units value))) as [|u t] eqn:Et.
  - apply trim_end_empty in Et. rewrite Et. reflexivity.
  - destruct (every is_whitespace (trim_start (code_units value))) eqn:He;
      [|reflexivity].
    apply trim_end_empty in He. congruence.
Qed.

(** X1. [validateRequired] refuses a value exactly when every code unit of
    it is white space: the empty string and a string of blanks are refused,
    and blanks around a word do no harm. *)
Theorem validateRequired_spec (value : string) :
  validateRequired value = false <-> every is_whitespace (code_units value) = true.
Proof.
  rewrite validateRequired_some, some_not_every.
  destruct (every is_whitespace (code_units value)); cbn [negb]; split; congruence.
Qed.

Lemma matches_char_inv (a : N) (s : list N) :
  matches (Class (N.eqb a)) s -> s = [a].
Proof.
  intros H. apply matches_Class_inv in H as (u & -> & Hu).
  apply N.eqb_eq in Hu. subst. reflexivity.
Qed.

Lemma validateEmail_parts (email : string) :
  validateEmail email = true ->
  exists name domain tail : list N,
    code_units email = name ++ at_sign :: domain ++ dot :: tail
    /\ name <> [] /\ domain <> [] /\ tail <> []
    /\ every not_space_or_at name = true
    /\ every not_space_or_at domain = true
    /\ every not_space_or_at tail = true.
Proof.
  unfold validateEmail, emailRegex. rewrite test_whole_matches.
  remember (code_units email) as units eqn:Eunits. intros H.
  apply matches_Seq_inv in H as (name & s1 & -> & Hname & H).
  apply matches_Seq_inv in H as (at' & s2 & -> & Hat & H).
  apply matches_Seq_inv in H as (domain & s3 & -> & Hdomain & H).
  apply matches_Seq_inv in H as (dot' & tail & -> & Hdot & Htail).
  apply matches_char_inv in Hat, Hdot. subst at' dot'.
  apply matches_Plus_Class in Hname as [? ?], Hdomain as [? ?], Htail as [? ?].
  exists name, domain, tail. split; [reflexivity|auto 10].
Qed.

(** X2. [validateEmail] accepts exactly the strings of the form
    [name@domain.tail] in which the three parts are non-empty and hold
    neither white space nor an at sign. The dot that is required is one
    after the at sign; the parts themselves may hold further dots. *)
Theorem validateEmail_spec (email : string) :
  validateEmail email = true <->
  exists name domain tail : list N,
    code_units email = name ++ at_sign :: domain ++ dot :: tail
    /\ name <> [] /\ domain <> [] /\ tail <> []
    /\ every not_space_or_at name = true
    /\ every not_space_or_at domain = true
    /\ every not_space_or_at tail = true.
Proof.
  split; [apply validateEmail_parts|].
  unfold validateEmail, emailRegex. rewrite test_whole_matches.
  intros (name & domain & tail & -> & Hn & Hd & Ht & En & Ed & Et).
  constructor; [apply matches_Plus_Class; auto|].
  change (at_sign :: domain ++ dot :: tail)
    with ([at_sign] ++ (domain ++ dot :: tail)).
  constructor; [constructor; reflexivity|].
  constructor; [apply matches_Plus_Class; auto|].
  change (dot :: tail) with ([dot] ++ tail).
  constructor; [constructor; reflexivity|apply matches_Plus_Class; auto].
Qed.

Lemma not_space_or_at_no_space (s : list N) :
  every not_space_or_at s = true -> some is_whitespace s = false.
Proof.
  intros H. induction s as [|u s IH]; [reflexivity|]. simpl in *.
  apply andb_prop in H as [Hu Hs]. rewrite (IH Hs).
  unfold not_space_or_at in Hu. destruct (is_whitespace u); [discriminate|reflexivity].
Qed.

(** X3. An accepted email has exactly one at sign, no white space, a dot
    somewhere, and at least five code units. *)
Theorem validateEmail_accepted (email : string) :
  validateEmail email = true ->
  count (N.eqb at_sign) (code_units email) = 1%nat
  /\ some is_whitespace (code_units email) = false
  /\ some (N.eqb dot) (code_units email) = true
  /\ (5 <= length (code_units email))%nat.
Proof.
  intros H. apply validateEmail_parts in H
    as (name & domain & tail & -> & Hn & Hd & Ht & En & Ed & Et).
  assert (Hat : forall u, not_space_or_at u = true -> N.eqb at_sign u = false).
  { intros u Hu. unfold not_space_or_at in Hu. rewrite N.eqb_sym.
    destruct (u =? at_sign)%N; [|reflexivity].
    rewrite orb_true_r in Hu. discriminate. }
  repeat split.
  - rewrite count_append. simpl. rewrite count_append. simpl.
    rewrite (count_none _ _ name En Hat), (count_none _ _ domain Ed Hat),
      (count_none _ _ tail Et Hat). reflexivity.
  - rewrite some_append. simpl. rewrite some_append. simpl.
    rewrite !not_space_or_at_no_space by assumption. reflexivity.
  - rewrite some_append. simpl. rewrite some_append. simpl.
    rewrite !orb_true_r. reflexivity.
  - destruct name; [congruence|]. destruct domain; [congruence|].
    destruct tail; [congruence|].
    rewrite length_app. cbn [length]. rewrite length_app. cbn [length]. lia.
Qed.

Lemma validatePasswordStrength_classes (password : string) :
  validatePasswordStrength password
  = (8 <=? length (code_units password))%nat && some is_upper (code_units password)
    && some is_lower (code_units password) && some is_digit (code_units password).
Proof. unfold validatePasswordStrength. rewrite !test_part_Class. reflexivity. Qed.

(** X4. [validatePasswordStrength] accepts a password exactly when it has
    at least eight code units (its [length]), one of [A-Z], one of [a-z]
    and one digit; nothing else is asked of it. *)
Theorem validatePasswordStrength_spec (password : string) :
  validatePasswordStrength password = true <->
  (8 <= length (code_units password))%nat
  /\ some is_upper (code_units password) = true
  /\ some is_lower (code_units password) = true
  /\ some is_digit (code_units password) = true.
Proof.
  rewrite validatePasswordStrength_classes, !andb_true_iff, Nat.leb_le. tauto.
Qed.

Lemma length_remove_not_digit (s : list N) :
  length (remove_class is_not_digit s) = count is_digit s.
Proof.
  induction s as [|u s IH]; [reflexivity|]. simpl. unfold is_not_digit at 1.
  destruct (is_digit u); simpl; rewrite <- IH; reflexivity.
Qed.

Lemma validatePhoneNumber_digits (phone : string) :
  validatePhoneNumber phone
  = every phone_char (code_units phone)
    && (count is_digit (code_units phone) =? 10)%nat.
Proof.
  unfold validatePhoneNumber. cbv zeta. rewrite length_remove_not_digit.
  destruct (count is_digit (code_units phone) =? 10)%nat eqn:Hten;
    [|rewrite !andb_false_r; reflexivity].
  rewrite !andb_true_r. apply eq_true_iff_eq.
  unfold phoneRegex. rewrite test_whole_matches, matches_Plus_Class.
  split; [tauto|]. intros H. split; [|exact H].
  intros E. rewrite E in Hten. discriminate.
Qed.

(** X5. [validatePhoneNumber] accepts exactly the strings made of digits,
    white space, hyphens and parentheses that hold ten digits; where the
    separators stand does not matter. *)
Theorem validatePhoneNumber_spec (phone : string) :
  validatePhoneNumber phone = true <->
  every phone_char (code_units phone) = true
  /\ count is_digit (code_units phone) = 10%nat.
Proof.
  rewrite validatePhoneNumber_digits, andb_true_iff, Nat.eqb_eq. tauto.
Qed.

(** ** The form validators *)

Lemma in_range_not_space (lo hi u : N) :
  (33 <= lo)%N -> (hi <= 159)%N -> in_range lo hi u = true -> is_whitespace u = false.
Proof.
  unfold in_range, is_whitespace. intros Hlo Hhi H.
  apply andb_prop in H as [H1 H2]. apply N.leb_le in H1, H2.
  repeat match goal with
         | |- context [(?a <=? ?b)%N] => destruct (N.leb_spec a b); try lia
         | |- context [(?a =? ?b)%N] => destruct (N.eqb_spec a b); try lia
         end; reflexivity.
Qed.

Lemma is_upper_not_space (u : N) : is_upper u = true -> is_whitespace u = false.
Proof. apply in_range_not_space; lia. Qed.

Lemma is_digit_not_space (u : N) : is_digit u = true -> is_whitespace u = false.
Proof. apply in_range_not_space; lia. Qed.

Lemma some_weaken (p q : N -> bool) (s : list N) :
  (forall u, p u = true -> q u = true) -> some p s = true -> some q s = true.
Proof.
  intros Hpq. induction s as [|u s IH]; simpl; [discriminate|].
  intros H. apply orb_prop in H as [H|H]; [rewrite (Hpq u H)|rewrite IH by exact H];
    auto using orb_true_r.
Qed.

Lemma count_some (p : N -> bool) (s : list N) :
  (0 < count p s)%nat -> some p s = true.
Proof.
  induction s as [|u s IH]; simpl; [lia|]. destruct (p u); [reflexivity|exact IH].
Qed.

Lemma validateEmail_required (email : string) :
  validateEmail email = true -> validateRequired email = true.
Proof.
  intros H. apply validateEmail_parts in H
    as (name & domain & tail & E & Hn & _ & _ & En & _).
  rewrite validateRequired_some, E, some_append.
  destruct name as [|u name]; [congruence|].
  simpl in *. apply andb_prop in En as [Hu _]. unfold not_space_or_at in Hu.
  destruct (is_whitespace u); [discriminate|reflexivity].
Qed.

Lemma validatePasswordStrength_required (password : string) :
  validatePasswordStrength password = true -> validateRequired password = true.
Proof.
  rewrite validatePasswordStrength_classes, validateRequired_some. intros H.
  apply andb_prop in H as [H _]. apply andb_prop in H as [H _].
  apply andb_prop in H as [_ H]. revert H. apply some_weaken.
  intros u Hu. rewrite (is_upper_not_space u Hu). reflexivity.
Qed.

Lemma validatePhoneNumber_required (phone : string) :
  validatePhoneNumber phone = true -> validateRequired phone = true.
Proof.
  rewrite validatePhoneNumber_digits, validateRequired_some. intros H.
  apply andb_prop in H as [_ H]. apply Nat.eqb_eq in H.
  apply (some_weaken is_digit).
  - intros u Hu. rewrite (is_digit_not_space u Hu). reflexivity.
  - apply count_some. lia.
Qed.

Lemma hasFormErrors_false (errors : gmap string (option string)) :
  hasFormErrors errors = false <-> errors = ∅.
Proof.
  unfold hasFormErrors. rewrite Nat.ltb_ge, <- map_size_empty_iff. lia.
Qed.

Lemma no_error_one (b : bool) (k : string) (v : option string)
    (m : gmap string (option string)) :
  (if b then <[k := v]> m else m) = ∅ <-> b = false /\ m = ∅.
Proof.
  destruct b; [|tauto]. split; [|intros [? _]; discriminate].
  intros H. exfalso. exact (insert_non_empty m k v H).
Qed.

Lemma no_error_two (b1 b2 : bool) (k : string) (v1 v2 : option string)
    (m : gmap string (option string)) :
  (if b1 then <[k := v1]> m else if b2 then <[k := v2]> m else m) = ∅
  <-> b1 = false /\ b2 = false /\ m = ∅.
Proof.
  destruct b1; [|rewrite no_error_one; tauto].
  split; [|intros [? _]; discriminate].
  intros H. exfalso. exact (insert_non_empty m k v1 H).
Qed.

(** X6. [validateRegistrationForm] reports no error exactly when the email
    is valid, the password is strong, the confirmation equals the
    password, first and last name are not blank and the phone number is
    valid. *)
Theorem validateRegistrationForm_spec (data : RegistrationFormData.t) :
  hasFormErrors (validateRegistrationForm data) = false <->
  validateEmail (RegistrationFormData.email data) = true
  /\ validatePasswordStrength (RegistrationFormData.password data) = true
  /\ RegistrationFormData.confirmPassword data = RegistrationFormData.password data
  /\ validateRequired (RegistrationFormData.firstName data) = true
  /\ validateRequired (RegistrationFormData.lastName data) = true
  /\ validatePhoneNumber (RegistrationFormData.phoneNumber data) = true.
Proof.
  rewrite hasFormErrors_false. unfold validateRegistrationForm. cbv zeta.
  rewrite no_error_two, no_error_one, no_error_one, !no_error_two.
  rewrite !negb_false_iff, String.eqb_eq. split.
  - intros (? & ? & ? & ? & ? & ? & ? & ? & ? & ? & _). auto 10.
  - intros (He & Hp & Hc & Hf & Hl & Hn).
    pose proof (validateEmail_required _ He).
    pose proof (validatePasswordStrength_required _ Hp) as Hrp.
    pose proof (validatePhoneNumber_required _ Hn).
    assert (validateRequired (RegistrationFormData.confirmPassword data) = true)
      by (rewrite Hc; exact Hrp).
    auto 15.
Qed.

(** X7. [validateLoginForm] reports no error exactly when the email is
    valid and the password is not blank; the strength of the password is
    not looked at. *)
Theorem validateLoginForm_spec (data : LoginFormData.t) :
  hasFormErrors (validateLoginForm data) = false <->
  validateEmail (LoginFormData.email data) = true
  /\ validateRequired (LoginFormData.password data) = true.
Proof.
  rewrite hasFormErrors_false. unfold validateLoginForm. cbv zeta.
  rewrite no_error_one, no_error_two, !negb_false_iff. split.
  - intros (? & ? & ? & _). auto.
  - intros (He & Hp). pose proof (validateEmail_required _ He). auto.
Qed.

(** * The store, operation by operation *)

Local Open Scope string_scope.
Local Open Scope Z_scope.

(** Reads the schedule of a world whose list of rejections is known. *)
Ltac settle :=
  unfold rejected, pop, advance, set_keychain, set_async, set_session, set_now,
    set_faults;
  cbn [keychain async session now faults hd tl fst snd]; cbv beta iota.

Lemma clearUserData_run (w : World) :
  clearUserData w =
  if rejected w then (Ok false, pop w)
  else (Ok true, set_async (delete USER_DATA (async w)) (pop w)).
Proof. unfold clearUserData, AsyncStorage_removeItem. by_schedule w. Qed.

Lemma clearAll_run (w : World) :
  clearAll w =
  (Ok true,
   (resetFailedAttempts
      (clearPartialRegistration (clearUserData (clearCredentials w).2).2).2).2).
Proof.
  unfold clearAll. run_service.
  rewrite clearCredentials_run. destruct (rejected w); cbn [fst snd];
    rewrite clearUserData_run;
    match goal with |- context [rejected ?v] => destruct (rejected v) end; cbn [fst snd];
    rewrite clearPartialRegistration_run;
    match goal with |- context [rejected ?v] => destruct (rejected v) end; cbn [fst snd];
    rewrite resetFailedAttempts_run;
    match goal with |- context [rejected ?v] => destruct (rejected v) end; cbn [fst snd];
    try reflexivity;
    match goal with |- context [rejected ?v] => destruct (rejected v) end; reflexivity.
Qed.

(** X8. On backends that serve every call, [clearAll] empties the
    credential slot and removes the profile, the draft, the counter and the
    timestamp: afterwards every read of the store comes back empty,
    [hasSession] answers false and no account is locked. *)
Theorem clearAll_wipes (w : World) :
  reliable w ->
  let w' := (clearAll w).2 in
  (clearAll w).1 = Ok true
  /\ (getCredentials w').1 = Ok None
  /\ (getUserData w').1 = Ok None
  /\ (getPartialRegistration w').1 = Ok None
  /\ (getFailedAttempts w').1 = Ok (Num 0)
  /\ (isLockedOut w').1 = Ok false
  /\ (hasSession w').1 = Ok false
  /\ (checkAuth w').1 = Ok (CheckAuthResult.mk false None).
Proof.
  intros Hrel w'. subst w'. rewrite clearAll_run. cbn [fst snd].
  destruct w as [k a s n f]. unfold reliable in Hrel. cbn in Hrel. subst f.
  rewrite clearCredentials_run; settle.
  rewrite clearUserData_run; settle.
  rewrite clearPartialRegistration_run; settle.
  rewrite resetFailedAttempts_run; settle.
  match goal with |- context [getCredentials ?v] => set (w' := v) end.
  assert (Hu : async w' !! USER_DATA = None).
  { subst w'. cbn [async]. rewrite !lookup_delete_ne by discriminate.
    apply lookup_delete_eq. }
  assert (Hp : async w' !! PARTIAL_REGISTRATION = None).
  { subst w'. cbn [async]. rewrite !lookup_delete_ne by discriminate.
    apply lookup_delete_eq. }
  assert (Hf : async w' !! FAILED_LOGIN_ATTEMPTS = None).
  { subst w'. cbn [async]. rewrite lookup_delete_ne by discriminate.
    apply lookup_delete_eq. }
  assert (Hl : async w' !! LOCKOUT_TIMESTAMP = None).
  { subst w'. cbn [async]. apply lookup_delete_eq. }
  assert (Hr : rejected w' = false) by reflexivity.
  assert (Hs : hasSession w' = (Ok false, w'))
    by (rewrite hasSession_run; reflexivity).
  split; [reflexivity|]. split; [rewrite getCredentials_run; reflexivity|].
  split; [rewrite getUserData_run, Hu; reflexivity|].
  split; [rewrite getPartialRegistration_run, Hp; reflexivity|].
  split; [rewrite getFailedAttempts_run, Hf; reflexivity|].
  split; [rewrite isLockedOut_run, Hl; reflexivity|].
  split; [rewrite Hs; reflexivity|].
  unfold checkAuth. run_service. rewrite Hs. reflexivity.
Qed.

(** X9. [clearAll] answers true whatever the backends do: the four steps
    swallow their own failures, so its [catch] is never reached. When the
    backends reject every call it still answers true, although nothing has
    been cleared. *)
Theorem clearAll_always_true :
  (forall w : World, (clearAll w).1 = Ok true)
  /\ (forall w : World,
        faults w = [true; true; true; true] ->
        (clearAll w).1 = Ok true
        /\ keychain (clearAll w).2 = keychain w
        /\ async (clearAll w).2 = async w).
Proof.
  split; [intros w; rewrite clearAll_run; reflexivity|].
  intros w Hf. rewrite clearAll_run. cbn [fst snd].
  destruct w as [k a s n f]. cbn in Hf. subst f.
  rewrite clearCredentials_run; settle.
  rewrite clearUserData_run; settle.
  rewrite clearPartialRegistration_run; settle.
  rewrite resetFailedAttempts_run; settle.
  repeat split.
Qed.

(** X10. The credential slot. What [storeCredentials] reports stored is
    what the next served [getCredentials] returns; after a [clearCredentials]
    that reports success the read gives null; a rejected read gives null as
    well, whatever is stored, so that a caller cannot tell a failed read from
    an empty slot; and none of the three touches the other backend. *)
Theorem credentials_round_trip :
  (forall email password w,
      (storeCredentials email password w).1 = Ok true ->
      rejected (storeCredentials email password w).2 = false ->
      (getCredentials (storeCredentials email password w).2).1
      = Ok (Some (Credentials.mk email password)))
  /\ (forall w,
        (clearCredentials w).1 = Ok true ->
        (getCredentials (clearCredentials w).2).1 = Ok None)
  /\ (forall w, rejected w = true -> (getCredentials w).1 = Ok None)
  /\ (forall email password w,
        async (storeCredentials email password w).2 = async w
        /\ async (getCredentials w).2 = async w
        /\ async (clearCredentials w).2 = async w
        /\ keychain (getCredentials w).2 = keychain w).
Proof.
  split; [|split; [|split]].
  - intros email password w. rewrite storeCredentials_run.
    destruct (rejected w) eqn:R; cbn [fst snd]; [discriminate|].
    intros _ R'. rewrite getCredentials_run. cbn [fst]. rewrite R'. reflexivity.
  - intros w. rewrite clearCredentials_run.
    destruct (rejected w) eqn:R; cbn [fst snd]; [discriminate|].
    intros _. rewrite getCredentials_run. cbn [fst].
    match goal with |- context [rejected ?v] => destruct (rejected v) end; reflexivity.
  - intros w R. rewrite getCredentials_run, R. reflexivity.
  - intros email password w.
    rewrite storeCredentials_run, getCredentials_run, clearCredentials_run.
    destruct w as [k a s n [|[] f]]; settle; repeat split.
Qed.

(** X11. The profile. What [storeUserData] reports stored is what the next
    served [getUserData] returns; after a [clearUserData] that reports
    success the read gives null; and writing or removing the profile leaves
    the credential, the draft, the counter and the timestamp as they
    were. *)
Theorem user_data_round_trip :
  (forall user w,
      (storeUserData user w).1 = Ok true ->
      rejected (storeUserData user w).2 = false ->
      (getUserData (storeUserData user w).2).1 = Ok (Some user))
  /\ (forall w,
        (clearUserData w).1 = Ok true ->
        (getUserData (clearUserData w).2).1 = Ok None)
  /\ (forall user w key,
        key <> USER_DATA ->
        async (storeUserData user w).2 !! key = async w !! key
        /\ async (clearUserData w).2 !! key = async w !! key
        /\ keychain (storeUserData user w).2 = keychain w
        /\ keychain (clearUserData w).2 = keychain w).
Proof.
  split; [|split].
  - intros user w. rewrite storeUserData_run.
    destruct (rejected w) eqn:R; cbn [fst snd]; [discriminate|].
    intros _ R'. rewrite getUserData_run. cbn [fst]. rewrite R'.
    unfold set_async. cbn [async]. rewrite lookup_insert_eq. reflexivity.
  - intros w. rewrite clearUserData_run.
    destruct (rejected w) eqn:R; cbn [fst snd]; [discriminate|].
    intros _. rewrite getUserData_run. cbn [fst].
    match goal with |- context [rejected ?v] => destruct (rejected v) end;
      [reflexivity|].
    unfold set_async. cbn [async]. rewrite lookup_delete_eq. reflexivity.
  - intros user w key Hkey. rewrite storeUserData_run, clearUserData_run.
    destruct w as [k a s n [|[] f]]; settle; repeat split;
      first [apply lookup_insert_ne | apply lookup_delete_ne]; congruence.
Qed.

(** X12. The counter of failed attempts. With its read and its writes
    served, [incrementFailedAttempts] returns the stored count plus one,
    the next served [getFailedAttempts] reads that number back, and the
    lockout timestamp is written, with the current time, exactly when the
    new count has reached the maximum. When the write of the count is
    rejected the function returns 0 and stores nothing, so the caller sees
    a count below the maximum. *)
Theorem incrementFailedAttempts_counts :
  (forall (w : World) (count : Z),
      rejected w = false -> rejected (pop w) = false ->
      rejected (pop (pop w)) = false ->
      stored_attempts w = Num count ->
      let w' := (incrementFailedAttempts w).2 in
      (incrementFailedAttempts w).1 = Ok (Num (count + 1))
      /\ (rejected w' = false -> (getFailedAttempts w').1 = Ok (Num (count + 1)))
      /\ async w' !! LOCKOUT_TIMESTAMP
         = (if MAX_FAILED_ATTEMPTS <=? count + 1
            then Some (Text (toString (Num (now w))))
            else async w !! LOCKOUT_TIMESTAMP))
  /\ (forall w : World,
        rejected (pop w) = true ->
        (incrementFailedAttempts w).1 = Ok (Num 0)
        /\ async (incrementFailedAttempts w).2 = async w).
Proof.
  split.
  - intros w count R0 R1 R2 Hcount w'. subst w'.
    rewrite incrementFailedAttempts_run. cbv zeta.
    assert (Hnew : newAttempts w = Num (count + 1)).
    { unfold newAttempts. rewrite R0. unfold stored_attempts in Hcount.
      rewrite Hcount. reflexivity. }
    rewrite Hnew, R1. unfold num_ge.
    destruct w as [k a s n [|b0 [|b1 [|b2 f]]]]; unfold rejected, pop in *;
      cbn [faults hd tl set_faults keychain async session now] in *; subst;
      settle;
      destruct (MAX_FAILED_ATTEMPTS <=? count + 1) eqn:Hmax; settle;
      (split; [reflexivity|]);
      (split;
       [intros R3; rewrite getFailedAttempts_run; unfold rejected in *;
        cbn [fst faults async] in *; rewrite ?R3;
        rewrite ?(lookup_insert_ne _ LOCKOUT_TIMESTAMP FAILED_LOGIN_ATTEMPTS)
          by discriminate;
        rewrite lookup_insert_eq, present_number, parseInt_number; reflexivity
       |]);
      first [apply lookup_insert_eq | apply lookup_insert_ne; discriminate].
  - intros w R1. rewrite incrementFailedAttempts_run. cbv zeta. rewrite R1.
    split; [reflexivity|]. cbn [snd]. destruct (pop_frame (pop w)) as (_ & -> & _).
    apply pop_frame.
Qed.

(** X13. A reset that stops half way. [resetFailedAttempts] removes the
    counter first and the timestamp second; when the second removal is
    rejected it reports failure with the counter already gone and the
    timestamp still stored, so an account locked a moment ago stays locked
    while its counter reads 0. *)
Theorem resetFailedAttempts_half_done (w : World) (t : Z) :
  rejected w = false -> rejected (pop w) = true ->
  async w !! LOCKOUT_TIMESTAMP = Some (Text (toString (Num t))) ->
  now w - t < LOCKOUT_DURATION ->
  let w' := (resetFailedAttempts w).2 in
  (resetFailedAttempts w).1 = Ok false
  /\ async w' !! FAILED_LOGIN_ATTEMPTS = None
  /\ async w' !! LOCKOUT_TIMESTAMP = Some (Text (toString (Num t)))
  /\ (rejected w' = false ->
      (getFailedAttempts w').1 = Ok (Num 0) /\ (isLockedOut w').1 = Ok true).
Proof.
  intros R0 R1 Hstored Hrecent w'. subst w'.
  rewrite resetFailedAttempts_run, R0, R1. cbn [fst snd].
  set (w' := set_async _ _).
  assert (Hf : async w' !! FAILED_LOGIN_ATTEMPTS = None) by apply lookup_delete_eq.
  assert (Hl : async w' !! LOCKOUT_TIMESTAMP = Some (Text (toString (Num t)))).
  { subst w'. unfold set_async. cbn [async].
    rewrite lookup_delete_ne by discriminate. exact Hstored. }
  assert (Hnow : now w' = now w).
  { subst w'. unfold set_async. cbn [now].
    destruct (pop_frame (pop w)) as (_ & _ & _ & ->). apply pop_frame. }
  split; [reflexivity|]. split; [exact Hf|]. split; [exact Hl|].
  intros Hserved. split.
  - rewrite getFailedAttempts_run, Hserved, Hf. reflexivity.
  - rewrite (isLockedOut_stored w' t Hl), Hserved, Hnow.
    destruct (Z.ltb_spec (now w - t) LOCKOUT_DURATION); [reflexivity|lia].
Qed.

(** * The services on backends that serve every call *)

Lemma reliable_world (w : World) :
  reliable w -> w = mkWorld (keychain w) (async w) (session w) (now w) [].
Proof. destruct w as [k a s n f]. unfold reliable. cbn. intros ->. reflexivity. Qed.

Lemma register_reliable (data : RegistrationFormData.t) (w : World) :
  reliable w ->
  let email := RegistrationFormData.email data in
  let password := RegistrationFormData.password data in
  register data w =
  if same_email (credentials_of (keychain w)) email
  then (Ok (RegisterResult.mk false None
              (Some "An account with this email already exists")), w)
  else (Ok (RegisterResult.mk false None
              (Some "An unexpected error occurred during registration")),
        mkWorld (Some (email, password))
          (<[USER_DATA := JsonUser (new_user data)]> (async w))
          (session w) (now w) []).
Proof.
  intros Hrel email password. subst email password. rewrite (reliable_world w Hrel).
  generalize (keychain w) (async w) (session w) (now w). intros k a s n.
  cbn [keychain async session now]. unfold register. run_service.
  rewrite getCredentials_run. settle.
  destruct (same_email (credentials_of k) (RegistrationFormData.email data));
    [reflexivity|].
  rewrite storeCredentials_run. settle. cbn [negb].
  rewrite storeUserData_run. settle. reflexivity.
Qed.

Lemma login_match_reliable (data : LoginFormData.t) (w : World) :
  reliable w ->
  async w !! LOCKOUT_TIMESTAMP = None ->
  keychain w = Some (LoginFormData.email data, LoginFormData.password data) ->
  login data w =
  (Ok (LoginResult.mk false None
         (Some "An unexpected error occurred during login") None None),
   mkWorld (keychain w)
     (delete LOCKOUT_TIMESTAMP (delete FAILED_LOGIN_ATTEMPTS (async w)))
     (session w) (now w) []).
Proof.
  intros Hrel Hts Hk. rewrite (reliable_world w Hrel). rewrite Hk.
  revert Hts. generalize (async w) (session w) (now w). intros a s n Hts.
  unfold login. run_service. rewrite isLockedOut_run. settle. rewrite Hts.
  cbn [present negb]. rewrite getCredentials_run. settle. cbn [credentials_of].
  cbn [Credentials.email Credentials.password]. rewrite !String.eqb_refl.
  cbn [negb orb]. rewrite resetFailedAttempts_run. settle. reflexivity.
Qed.

(** A login that finds an expired lockout goes on as a login on the store
    without the counter and the timestamp. *)
Lemma login_expired (data : LoginFormData.t) (w : World) (t : Z) :
  reliable w ->
  async w !! LOCKOUT_TIMESTAMP = Some (Text (toString (Num t))) ->
  LOCKOUT_DURATION <= now w - t ->
  login data w
  = login data
      (set_async (delete LOCKOUT_TIMESTAMP (delete FAILED_LOGIN_ATTEMPTS (async w))) w).
Proof.
  intros Hrel Hts Hexp. rewrite (reliable_world w Hrel).
  pose proof (timeSinceLockout_stored w t Hts) as Hsince.
  rewrite (reliable_world w Hrel) in Hsince. revert Hts Hexp Hsince.
  generalize (keychain w) (async w) (session w) (now w). intros k a s n.
  cbn [async now]. intros Hts Hexp Hsince.
  unfold login. run_service. rewrite !isLockedOut_run. settle.
  rewrite Hts, present_number. cbn [negb]. rewrite Hsince. unfold num_ge.
  destruct (Z.leb_spec LOCKOUT_DURATION (n - t)); [|lia].
  rewrite resetFailedAttempts_run. settle.
  rewrite lookup_delete_eq. cbn [present negb]. reflexivity.
Qed.

Lemma login_locked_reliable (data : LoginFormData.t) (w : World) (t : Z) :
  reliable w ->
  async w !! LOCKOUT_TIMESTAMP = Some (Text (toString (Num t))) ->
  now w - t < LOCKOUT_DURATION ->
  login data w
  = (Ok (LoginResult.mk false None
           (Some (locked_message
                    (Num (ceil_div (LOCKOUT_DURATION - (now w - t)) 1000))))
           (Some true)
           (Some (Num (ceil_div (LOCKOUT_DURATION - (now w - t)) 1000)))), w).
Proof.
  intros Hrel Hts Hrecent.
  pose proof (timeSinceLockout_stored w t Hts) as Hsince.
  unfold login. run_service. rewrite isLockedOut_run.
  rewrite (rejected_reliable w Hrel), (pop_reliable w Hrel), Hts, present_number, Hsince.
  cbn [negb]. unfold num_ge. destruct (Z.leb_spec LOCKOUT_DURATION (now w - t)); [lia|].
  rewrite getRemainingLockoutTime_run.
  rewrite (rejected_reliable w Hrel), (pop_reliable w Hrel), Hts, present_number, Hsince.
  cbn [negb]. cbv zeta. unfold num_sub, num_gt.
  destruct (Z.ltb_spec 0 (LOCKOUT_DURATION - (now w - t))); [|lia].
  reflexivity.
Qed.

Lemma incrementFailedAttempts_reliable (w : World) (count : Z) :
  reliable w ->
  stored_attempts w = Num count ->
  incrementFailedAttempts w
  = (Ok (Num (count + 1)),
     mkWorld (keychain w)
       (if MAX_FAILED_ATTEMPTS <=? count + 1
        then <[LOCKOUT_TIMESTAMP := Text (toString (Num (now w)))]>
               (<[FAILED_LOGIN_ATTEMPTS := Text (toString (Num (count + 1)))]> (async w))
        else <[FAILED_LOGIN_ATTEMPTS := Text (toString (Num (count + 1)))]> (async w))
       (session w) (now w) []).
Proof.
  intros Hrel Hcount.
  assert (Hnew : newAttempts w = Num (count + 1)).
  { unfold newAttempts. rewrite (rejected_reliable w Hrel).
    unfold stored_attempts in Hcount. rewrite Hcount. reflexivity. }
  rewrite incrementFailedAttempts_run. cbv zeta. rewrite Hnew.
  rewrite (reliable_world w Hrel). settle. unfold num_ge.
  destruct (MAX_FAILED_ATTEMPTS <=? count + 1); reflexivity.
Qed.

(** The answer of [login] to a wrong email or password, and the store it
    leaves. *)
Lemma login_mismatch_reliable (data : LoginFormData.t) (w : World) (count : Z) :
  reliable w -> mismatch data w ->
  async w !! LOCKOUT_TIMESTAMP = None ->
  stored_attempts w = Num count ->
  login data w
  = (Ok (if (MAX_FAILED_ATTEMPTS <=? count + 1) && bool_decide (keychain w <> None)
         then LoginResult.mk false None
                (Some (now_locked_message (Num (LOCKOUT_DURATION / 1000))))
                (Some true) (Some (Num (LOCKOUT_DURATION / 1000)))
         else invalid_credentials),
     (incrementFailedAttempts w).2).
Proof.
  intros Hrel Hmis Hts Hcount.
  rewrite (incrementFailedAttempts_reliable w count Hrel Hcount). cbn [snd].
  unfold login. run_service. rewrite isLockedOut_run.
  rewrite (rejected_reliable w Hrel), (pop_reliable w Hrel), Hts. cbn [present negb].
  rewrite getCredentials_run.
  rewrite (rejected_reliable w Hrel), (pop_reliable w Hrel).
  destruct (keychain w) as [[username password]|] eqn:Hk; cbn [credentials_of].
  - cbn [Credentials.email Credentials.password].
    rewrite (mismatch_eqb data username password (Hmis _ _ Hk)).
    rewrite (incrementFailedAttempts_reliable w count Hrel Hcount), Hk.
    rewrite isLockedOut_run. settle. unfold timeSinceLockout. cbn [async now].
    rewrite bool_decide_true by discriminate. rewrite andb_true_r.
    destruct (MAX_FAILED_ATTEMPTS <=? count + 1).
    + rewrite lookup_insert_eq, present_number, parseInt_number.
      cbn [negb num_sub num_ge]. replace (now w - now w) with 0 by lia.
      change (LOCKOUT_DURATION <=? 0) with false. cbv beta iota.
      rewrite getRemainingLockoutTime_run. settle. unfold timeSinceLockout.
      cbn [async now]. rewrite lookup_insert_eq, present_number, parseInt_number.
      cbn [negb num_sub]. replace (now w - now w) with 0 by lia. reflexivity.
    + rewrite lookup_insert_ne by discriminate. rewrite Hts. reflexivity.
  - rewrite (incrementFailedAttempts_reliable w count Hrel Hcount), Hk.
    rewrite andb_false_r. reflexivity.
Qed.

(** * The service, case by case *)

(** X14. When no stored credential has the submitted email and
    [storeCredentials] reports failure, [register] answers "Failed to store
    credentials" and stops there: the credential, the profile, the draft
    and the session flag are as they were. *)
Theorem register_credentials_not_stored (data : RegistrationFormData.t) (w : World) :
  let email := RegistrationFormData.email data in
  let password := RegistrationFormData.password data in
  (forall username pw, keychain w = Some (username, pw) -> username <> email) ->
  (storeCredentials email password (getCredentials w).2).1 = Ok false ->
  (register data w).1
  = Ok (RegisterResult.mk false None (Some "Failed to store credentials"))
  /\ keychain (register data w).2 = keychain w
  /\ async (register data w).2 = async w
  /\ session (register data w).2 = session w.
Proof.
  intros email password Hne Hfail. subst email password.
  revert Hfail. unfold register. run_service.
  rewrite getCredentials_run, (same_email_other _ _ _ Hne). cbn [snd].
  rewrite storeCredentials_run.
  destruct (rejected (pop w)); cbn [fst snd negb]; [|discriminate].
  intros _. destruct (pop_frame (pop w)) as (-> & -> & -> & _).
  destruct (pop_frame w) as (-> & -> & -> & _). repeat split.
Qed.

(** X15. [register] takes a rejected read of the credential for an empty
    slot: when that read fails and the following calls are served, a second
    registration with an email that is already registered is not refused
    as a duplicate; it replaces the stored password and profile before it
    ends in the [catch] of [register]. *)
Theorem register_duplicate_after_failed_read
    (data : RegistrationFormData.t) (w : World) (old : string) :
  let email := RegistrationFormData.email data in
  let password := RegistrationFormData.password data in
  keychain w = Some (email, old) ->
  faults w = [true] ->
  (register data w).1
  = Ok (RegisterResult.mk false None
          (Some "An unexpected error occurred during registration"))
  /\ keychain (register data w).2 = Some (email, password)
  /\ async (register data w).2 !! USER_DATA = Some (JsonUser (new_user data)).
Proof.
  intros email password Hk Hf. subst email password.
  destruct w as [k a s n f]. cbn in Hk, Hf. subst k f.
  unfold register. run_service. rewrite getCredentials_run. settle.
  cbn [same_email]. rewrite storeCredentials_run. settle. cbn [negb].
  rewrite storeUserData_run. settle.
  repeat split. apply lookup_insert_eq.
Qed.

(** X16. A login with a wrong email or password, on an account that is not
    locked and backends that serve every call. Below the maximum the answer
    is "Invalid email or password" whether or not a credential is stored.
    The attempt that reaches the maximum locks the account in both cases,
    but only an existing credential makes [login] say so: with an empty
    credential slot the answer is still "Invalid email or password". The
    next login, right or wrong, is refused with 15 minutes to wait. *)
Theorem failed_login_answer (data : LoginFormData.t) (w : World) (count : Z) :
  reliable w -> mismatch data w ->
  async w !! LOCKOUT_TIMESTAMP = None ->
  stored_attempts w = Num count ->
  let locked_now :=
    LoginResult.mk false None
      (Some "Too many failed attempts. Account locked for 15 minutes.")
      (Some true) (Some (Num 900)) in
  let refused :=
    LoginResult.mk false None
      (Some "Account locked. Please try again in 15 minutes.")
      (Some true) (Some (Num 900)) in
  (count + 1 < MAX_FAILED_ATTEMPTS ->
   (login data w).1 = Ok invalid_credentials
   /\ (isLockedOut (login data w).2).1 = Ok false)
  /\ (MAX_FAILED_ATTEMPTS <= count + 1 ->
      (login data w).1
      = Ok (match keychain w with Some _ => locked_now | None => invalid_credentials end)
      /\ (isLockedOut (login data w).2).1 = Ok true
      /\ forall next, (login next (login data w).2).1 = Ok refused).
Proof.
  intros Hrel Hmis Hts Hcount locked_now refused. subst locked_now refused.
  rewrite (login_mismatch_reliable data w count Hrel Hmis Hts Hcount).
  rewrite (incrementFailedAttempts_reliable w count Hrel Hcount). cbn [fst snd].
  split; intros Hmax.
  - destruct (Z.leb_spec MAX_FAILED_ATTEMPTS (count + 1)); [lia|]. cbn [andb].
    split; [reflexivity|]. rewrite isLockedOut_run. settle.
    rewrite lookup_insert_ne by discriminate. rewrite Hts. reflexivity.
  - destruct (Z.leb_spec MAX_FAILED_ATTEMPTS (count + 1)); [|lia]. cbn [andb].
    set (w' := mkWorld _ _ _ _ _).
    assert (Hrel' : reliable w') by reflexivity.
    assert (Hts' : async w' !! LOCKOUT_TIMESTAMP = Some (Text (toString (Num (now w)))))
      by apply lookup_insert_eq.
    assert (Hrecent : now w' - now w < LOCKOUT_DURATION)
      by (subst w'; cbn [now]; unfold LOCKOUT_DURATION; lia).
    split; [|split].
    + destruct (keychain w); [rewrite bool_decide_true by discriminate
                             |rewrite bool_decide_false by (intros H0; apply H0; reflexivity)];
        reflexivity.
    + rewrite (isLockedOut_stored w' _ Hts'), (rejected_reliable w' Hrel').
      destruct (Z.ltb_spec (now w' - now w) LOCKOUT_DURATION); [reflexivity|lia].
    + intros next. rewrite (login_locked_reliable next w' _ Hrel' Hts' Hrecent).
      subst w'. cbn [now fst]. replace (now w - now w) with 0 by lia. reflexivity.
Qed.

Lemma checkAuth_run (w : World) :
  let stored :=
    bool_decide ((if rejected w then None else credentials_of (keychain w)) <> None)
    && bool_decide ((if rejected (pop w) then None
                     else profile_of (async w !! USER_DATA)) <> None) in
  checkAuth w =
  if stored
  then (Ok (CheckAuthResult.mk true
              (if rejected (pop (pop w)) then None
               else profile_of (async w !! USER_DATA))),
        pop (pop (pop w)))
  else (Ok (CheckAuthResult.mk false None), pop (pop w)).
Proof.
  cbv zeta. unfold checkAuth. run_service. rewrite hasSession_run.
  destruct (bool_decide _ && bool_decide _); cbn [negb]; [|reflexivity].
  rewrite getUserData_run.
  destruct (pop_frame (pop w)) as (_ & -> & _). destruct (pop_frame w) as (_ & -> & _).
  reflexivity.
Qed.

Lemma register_new_reliable (data : RegistrationFormData.t) (w : World) :
  reliable w ->
  (forall username pw,
      keychain w = Some (username, pw) -> username <> RegistrationFormData.email data) ->
  register data w
  = (Ok (RegisterResult.mk false None
           (Some "An unexpected error occurred during registration")),
     mkWorld (Some (RegistrationFormData.email data, RegistrationFormData.password data))
       (<[USER_DATA := JsonUser (new_user data)]> (async w))
       (session w) (now w) []).
Proof.
  intros Hrel Hne. rewrite (register_reliable data w Hrel). cbv zeta.
  rewrite (same_email_other false w _ Hne). reflexivity.
Qed.

(** X17. Register, log out, log in. On backends that serve every call and
    an account that is not locked, a registration with a new email reports
    the unexpected error and leaves the credential and the profile stored;
    [logout] answers false and changes nothing; a login, any time later,
    with the registered email and password reports the unexpected error as
    well. All the while [checkAuth] answers that the registered user is
    authenticated. *)
Theorem register_logout_login (data : RegistrationFormData.t) (w : World) (later : Z) :
  let email := RegistrationFormData.email data in
  let password := RegistrationFormData.password data in
  reliable w ->
  async w !! LOCKOUT_TIMESTAMP = None ->
  (forall username pw, keychain w = Some (username, pw) -> username <> email) ->
  let w1 := (register data w).2 in
  let w2 := advance later (logout w1).2 in
  let again := login (LoginFormData.mk email password) w2 in
  (register data w).1
  = Ok (RegisterResult.mk false None
          (Some "An unexpected error occurred during registration"))
  /\ logout w1 = (Ok false, w1)
  /\ again.1
     = Ok (LoginResult.mk false None
             (Some "An unexpected error occurred during login") None None)
  /\ keychain again.2 = Some (email, password)
  /\ async again.2 !! USER_DATA = Some (JsonUser (new_user data))
  /\ (checkAuth w1).1 = Ok (CheckAuthResult.mk true (Some (new_user data)))
  /\ (checkAuth again.2).1 = Ok (CheckAuthResult.mk true (Some (new_user data))).
Proof.
  intros email password Hrel Hts Hne w1 w2 again. subst email password w1 w2 again.
  rewrite (register_new_reliable data w Hrel Hne). cbn [fst snd].
  rewrite logout_run. settle.
  set (w1 := mkWorld _ _ _ (now w) _).
  set (w2 := mkWorld _ _ _ (now w + later) _).
  assert (Hts2 : async w2 !! LOCKOUT_TIMESTAMP = None).
  { subst w2. cbn [async]. rewrite lookup_insert_ne by discriminate. exact Hts. }
  assert (Hu : async w2 !! USER_DATA = Some (JsonUser (new_user data)))
    by apply lookup_insert_eq.
  split; [reflexivity|]. split; [reflexivity|].
  rewrite (login_match_reliable
             (LoginFormData.mk (RegistrationFormData.email data)
                               (RegistrationFormData.password data))
             w2 eq_refl Hts2 eq_refl).
  cbn [fst snd]. split; [reflexivity|]. split; [reflexivity|].
  assert (Hu3 : delete LOCKOUT_TIMESTAMP (delete FAILED_LOGIN_ATTEMPTS (async w2))
                !! USER_DATA = Some (JsonUser (new_user data))).
  { rewrite !lookup_delete_ne by discriminate. exact Hu. }
  split; [exact Hu3|].
  split; rewrite checkAuth_run; cbv zeta; settle; cbn [credentials_of];
    rewrite ?Hu3; try (change (async w2) with (async w1) in Hu; rewrite Hu);
    cbn [profile_of]; rewrite !bool_decide_true by discriminate; reflexivity.
Qed.

(** X18. [register] does not touch the counter or the timestamp. A
    registration made while a lockout is running stores its credential
    (and ends in the [catch] of [register], as every registration does),
    and the login that follows with the registered email and password is
    refused as locked until the lockout has run out. *)
Theorem register_keeps_lockout (data : RegistrationFormData.t) (w : World) (t : Z) :
  let email := RegistrationFormData.email data in
  let password := RegistrationFormData.password data in
  reliable w ->
  async w !! LOCKOUT_TIMESTAMP = Some (Text (toString (Num t))) ->
  now w - t < LOCKOUT_DURATION ->
  (forall username pw, keychain w = Some (username, pw) -> username <> email) ->
  let w1 := (register data w).2 in
  let remaining := Num (ceil_div (LOCKOUT_DURATION - (now w - t)) 1000) in
  keychain w1 = Some (email, password)
  /\ async w1 !! LOCKOUT_TIMESTAMP = async w !! LOCKOUT_TIMESTAMP
  /\ async w1 !! FAILED_LOGIN_ATTEMPTS = async w !! FAILED_LOGIN_ATTEMPTS
  /\ (login (LoginFormData.mk email password) w1).1
     = Ok (LoginResult.mk false None (Some (locked_message remaining))
             (Some true) (Some remaining)).
Proof.
  intros email password Hrel Hts Hrecent Hne w1 remaining.
  subst email password w1 remaining.
  rewrite (register_new_reliable data w Hrel Hne). cbn [fst snd].
  set (w1 := mkWorld _ _ _ _ _).
  assert (Hts1 : async w1 !! LOCKOUT_TIMESTAMP = async w !! LOCKOUT_TIMESTAMP).
  { subst w1. cbn [async]. apply lookup_insert_ne. discriminate. }
  split; [reflexivity|]. split; [exact Hts1|]. split.
  - subst w1. cbn [async]. apply lookup_insert_ne. discriminate.
  - rewrite Hts in Hts1.
    rewrite (login_locked_reliable _ w1 t eq_refl Hts1 Hrecent). reflexivity.
Qed.

(** X19. [checkAuth] only reads: the credential, the profile, the draft,
    the counter, the timestamp and the session flag are as before. It
    always returns a result. It answers "authenticated" only when a
    credential and a profile are stored, whatever the session flag says;
    with every call served it answers "authenticated" exactly then, along
    with the stored profile. When the second read of the profile is
    rejected it answers "authenticated" with no user. *)
Theorem checkAuth_reads_only (w : World) :
  (keychain (checkAuth w).2 = keychain w /\ async (checkAuth w).2 = async w
   /\ session (checkAuth w).2 = session w /\ now (checkAuth w).2 = now w)
  /\ (exists result, (checkAuth w).1 = Ok result)
  /\ (forall result,
        (checkAuth w).1 = Ok result ->
        CheckAuthResult.isAuthenticated result = true ->
        keychain w <> None /\ profile_of (async w !! USER_DATA) <> None)
  /\ (forall active, (checkAuth (set_session active w)).1 = (checkAuth w).1)
  /\ (reliable w ->
      (checkAuth w).1
      = Ok (match keychain w, profile_of (async w !! USER_DATA) with
            | Some _, Some u => CheckAuthResult.mk true (Some u)
            | _, _ => CheckAuthResult.mk false None
            end))
  /\ (faults w = [false; false; true] ->
      keychain w <> None -> profile_of (async w !! USER_DATA) <> None ->
      (checkAuth w).1 = Ok (CheckAuthResult.mk true None)).
Proof.
  split; [|split; [|split; [|split; [|split]]]].
  - rewrite checkAuth_run. cbv zeta. destruct (bool_decide _ && bool_decide _);
      cbn [snd]; destruct w as [k a s n [|b0 [|b1 [|b2 f]]]]; repeat split.
  - rewrite checkAuth_run. cbv zeta. destruct (bool_decide _ && bool_decide _);
      eexists; reflexivity.
  - intros result. rewrite checkAuth_run. cbv zeta.
    destruct (bool_decide _ && bool_decide _) eqn:Hboth; cbn [fst]; intros [= <-];
      [|discriminate].
    intros _. apply andb_prop in Hboth. destruct Hboth as [Hc Hu].
    apply bool_decide_eq_true in Hc, Hu. split.
    + intros Hk. apply Hc. rewrite Hk. destruct (rejected w); reflexivity.
    + intros Hk. apply Hu. rewrite Hk. destruct (rejected (pop w)); reflexivity.
  - intros active. rewrite !checkAuth_run. cbv zeta.
    destruct w as [k a s n [|b0 [|b1 [|b2 f]]]]; settle;
      destruct (bool_decide _ && bool_decide _); reflexivity.
  - intros Hrel. rewrite checkAuth_run. cbv zeta.
    rewrite !(pop_reliable w Hrel), (rejected_reliable w Hrel).
    destruct (keychain w) as [[u p]|]; cbn [credentials_of];
      destruct (profile_of (async w !! USER_DATA));
      repeat (rewrite bool_decide_true by discriminate);
      repeat (rewrite bool_decide_false by (intros H0; apply H0; reflexivity));
      reflexivity.
  - intros Hf Hk Hp. rewrite checkAuth_run. cbv zeta.
    destruct w as [k a s n f]. cbn in Hf, Hk, Hp. subst f. settle.
    destruct k as [[u p]|]; [|contradiction]. cbn [credentials_of].
    rewrite !bool_decide_true by (discriminate || assumption). reflexivity.
Qed.

(** * Sessions of use *)

Lemma lockout_consistent_frame (w w' : World) :
  async w' !! LOCKOUT_TIMESTAMP = async w !! LOCKOUT_TIMESTAMP ->
  async w' !! FAILED_LOGIN_ATTEMPTS = async w !! FAILED_LOGIN_ATTEMPTS ->
  now w <= now w' ->
  lockout_consistent w -> lockout_consistent w'.
Proof.
  intros Hl Hf Hnow (count & Hcount & Hrange & Hts).
  exists count. unfold stored_attempts in *. rewrite Hl, Hf.
  split; [exact Hcount|]. split; [exact Hrange|].
  destruct (count <? MAX_FAILED_ATTEMPTS); [exact Hts|].
  destruct Hts as (t & Ht & Hle). exists t. split; [exact Ht|lia].
Qed.

Lemma lockout_consistent_cleared (w : World) :
  async w !! LOCKOUT_TIMESTAMP = None ->
  async w !! FAILED_LOGIN_ATTEMPTS = None ->
  lockout_consistent w.
Proof.
  intros Hl Hf. exists 0. unfold stored_attempts. rewrite Hf.
  split; [reflexivity|]. split; [unfold MAX_FAILED_ATTEMPTS; lia|exact Hl].
Qed.

Lemma not_mismatch (data : LoginFormData.t) (w : World) :
  keychain w = Some (LoginFormData.email data, LoginFormData.password data)
  \/ mismatch data w.
Proof.
  unfold mismatch. destruct (keychain w) as [[u p]|]; [|right; discriminate].
  destruct (String.eqb_spec u (LoginFormData.email data)) as [->|Hu];
    [|right; intros ? ? [= <- <-]; left; exact Hu].
  destruct (String.eqb_spec p (LoginFormData.password data)) as [->|Hp];
    [left; reflexivity|right; intros ? ? [= <- <-]; right; exact Hp].
Qed.

Lemma login_preserves_unlocked (data : LoginFormData.t) (w : World) (count : Z) :
  reliable w ->
  async w !! LOCKOUT_TIMESTAMP = None ->
  stored_attempts w = Num count ->
  0 <= count < MAX_FAILED_ATTEMPTS ->
  reliable (login data w).2 /\ lockout_consistent (login data w).2.
Proof.
  intros Hrel Hts Hcount Hrange.
  destruct (not_mismatch data w) as [Hk|Hmis].
  - rewrite (login_match_reliable data w Hrel Hts Hk). cbn [snd].
    split; [reflexivity|]. apply lockout_consistent_cleared; cbn [async].
    + apply lookup_delete_eq.
    + rewrite lookup_delete_ne by discriminate. apply lookup_delete_eq.
  - destruct (failed_login_step data w count Hrel Hmis Hts Hcount)
      as (Hrel' & _ & _ & Hnow & Hcount' & Hts').
    split; [exact Hrel'|]. exists (count + 1).
    split; [exact Hcount'|]. split; [lia|].
    rewrite Hts'.
    destruct (Z.leb_spec MAX_FAILED_ATTEMPTS (count + 1));
      destruct (Z.ltb_spec (count + 1) MAX_FAILED_ATTEMPTS); try lia.
    + exists (now w). split; [reflexivity|]. rewrite Hnow. lia.
    + reflexivity.
Qed.

Lemma clearAll_reliable (w : World) :
  reliable w ->
  clearAll w
  = (Ok true,
     mkWorld None
       (delete LOCKOUT_TIMESTAMP
          (delete FAILED_LOGIN_ATTEMPTS
             (delete PARTIAL_REGISTRATION (delete USER_DATA (async w)))))
       (session w) (now w) []).
Proof.
  intros Hrel. rewrite clearAll_run. rewrite (reliable_world w Hrel).
  rewrite clearCredentials_run; settle.
  rewrite clearUserData_run; settle.
  rewrite clearPartialRegistration_run; settle.
  rewrite resetFailedAttempts_run; settle. reflexivity.
Qed.

Lemma isLockedOut_reliable (w : World) :
  reliable w ->
  (async w !! LOCKOUT_TIMESTAMP = None -> isLockedOut w = (Ok false, w))
  /\ forall t : Z,
      async w !! LOCKOUT_TIMESTAMP = Some (Text (toString (Num t))) ->
      isLockedOut w
      = if now w - t <? LOCKOUT_DURATION then (Ok true, w)
        else (Ok false,
              set_async (delete LOCKOUT_TIMESTAMP
                           (delete FAILED_LOGIN_ATTEMPTS (async w))) w).
Proof.
  intros Hrel. split.
  - intros Hts. rewrite isLockedOut_run, (rejected_reliable w Hrel), Hts,
      (pop_reliable w Hrel). reflexivity.
  - intros t Hts. rewrite isLockedOut_run, (rejected_reliable w Hrel), Hts,
      present_number, (timeSinceLockout_stored w t Hts), (pop_reliable w Hrel).
    cbn [negb]. unfold num_ge.
    destruct (Z.leb_spec LOCKOUT_DURATION (now w - t));
      destruct (Z.ltb_spec (now w - t) LOCKOUT_DURATION); try lia; [|reflexivity].
    rewrite resetFailedAttempts_run, (rejected_reliable w Hrel), (pop_reliable w Hrel),
      (rejected_reliable w Hrel), (pop_reliable w Hrel). reflexivity.
Qed.

Lemma perform_preserves (a : action) (w : World) :
  reliable w -> lockout_consistent w ->
  reliable (perform a w) /\ lockout_consistent (perform a w).
Proof.
  intros Hrel Hinv. destruct a as [data|data| | |data| | |ms]; cbn [perform].
  - rewrite (register_reliable data w Hrel). cbv zeta.
    destruct (same_email _ _); cbn [snd]; [split; assumption|].
    split; [reflexivity|]. apply (lockout_consistent_frame w); cbn [async now];
      try lia; try assumption; (apply lookup_insert_ne; discriminate).
  - destruct Hinv as (count & Hcount & Hrange & Hts).
    destruct (Z.ltb_spec count MAX_FAILED_ATTEMPTS).
    + apply (login_preserves_unlocked data w count Hrel Hts Hcount). lia.
    + destruct Hts as (t & Hts & Hle).
      destruct (Z.lt_ge_cases (now w - t) LOCKOUT_DURATION) as [Hrecent|Hexpired].
      * rewrite (login_locked_reliable data w t Hrel Hts Hrecent). cbn [snd].
        split; [exact Hrel|]. exists count. split; [exact Hcount|]. split; [exact Hrange|].
        destruct (Z.ltb_spec count MAX_FAILED_ATTEMPTS); [lia|]. exists t. split; assumption.
      * rewrite (login_expired data w t Hrel Hts Hexpired).
        set (w0 := set_async _ w).
        assert (Hl0 : async w0 !! LOCKOUT_TIMESTAMP = None) by apply lookup_delete_eq.
        assert (Hf0 : async w0 !! FAILED_LOGIN_ATTEMPTS = None).
        { subst w0. unfold set_async. cbn [async].
          rewrite lookup_delete_ne by discriminate. apply lookup_delete_eq. }
        apply (login_preserves_unlocked data w0 0).
        -- exact Hrel.
        -- exact Hl0.
        -- unfold stored_attempts. rewrite Hf0. reflexivity.
        -- unfold MAX_FAILED_ATTEMPTS. lia.
  - rewrite logout_run. cbn [snd]. split; [exact Hrel|].
    apply (lockout_consistent_frame w); try reflexivity; assumption.
  - rewrite checkAuth_run. cbv zeta. rewrite !(pop_reliable w Hrel).
    destruct (bool_decide _ && bool_decide _); cbn [snd]; split; assumption.
  - unfold watch_subscription. rewrite storePartialRegistration_run,
      (rejected_reliable w Hrel), (pop_reliable w Hrel). cbn [snd].
    split; [exact Hrel|].
    apply (lockout_consistent_frame w); unfold set_async; cbn [async now];
      try lia; try assumption; apply lookup_insert_ne; discriminate.
  - unfold checkLockout. run_service.
    destruct (isLockedOut_reliable w Hrel) as [Hnone Hsome].
    destruct Hinv as (count & Hcount & Hrange & Hts).
    destruct (Z.ltb_spec count MAX_FAILED_ATTEMPTS).
    + rewrite (Hnone Hts). cbn [snd]. split; [exact Hrel|].
      exists count. split; [exact Hcount|]. split; [exact Hrange|].
      destruct (Z.ltb_spec count MAX_FAILED_ATTEMPTS); [exact Hts|lia].
    + destruct Hts as (t & Hts & Hle). rewrite (Hsome t Hts).
      destruct (now w - t <? LOCKOUT_DURATION).
      * rewrite getRemainingLockoutTime_run, (pop_reliable w Hrel). cbn [snd].
        split; [exact Hrel|].
        exists count. split; [exact Hcount|]. split; [exact Hrange|].
        destruct (Z.ltb_spec count MAX_FAILED_ATTEMPTS); [lia|]. exists t. split; assumption.
      * cbn [snd]. split; [exact Hrel|]. apply lockout_consistent_cleared.
        -- apply lookup_delete_eq.
        -- unfold set_async. cbn [async].
           rewrite lookup_delete_ne by discriminate. apply lookup_delete_eq.
  - rewrite (clearAll_reliable w Hrel). cbn [snd]. split; [reflexivity|].
    apply lockout_consistent_cleared; cbn [async].
    + apply lookup_delete_eq.
    + rewrite lookup_delete_ne by discriminate. apply lookup_delete_eq.
  - split; [exact Hrel|].
    apply (lockout_consistent_frame w); unfold advance, set_now; cbn [async now];
      try reflexivity; try assumption. lia.
Qed.

(** X20. The counter and the timestamp stay in step. On backends that
    serve every call, whatever is done on the device and in whatever order
    (registrations, logins right or wrong, logouts, checks of the session,
    saved drafts, polls of the lockout, a wipe of the store, time passing),
    the counter reads a number from 0 to 5, no timestamp is stored while it
    is below 5, and at 5 a timestamp is stored that is not in the future. *)
Theorem lockout_stays_consistent (actions : list action) (w : World) :
  reliable w -> lockout_consistent w ->
  reliable (perform_all actions w) /\ lockout_consistent (perform_all actions w).
Proof.
  unfold perform_all. revert w.
  induction actions as [|a actions IH]; intros w Hrel Hinv; cbn [fold_left].
  - split; assumption.
  - destruct (perform_preserves a w Hrel Hinv) as [Hrel' Hinv']. apply IH; assumption.
Qed.

(** * The screens *)

(** X21. The submit buttons. Both screens build [formErrors] as an object
    with all its keys, so [hasFormErrors] sees a key whether or not a field
    has a message: [isFormValid] is false on the registration screen and on
    the login screen, whatever the messages of the fields are, and the
    submit button of either screen is disabled. *)
Theorem isFormValid_always_false :
  (forall email password confirmPassword firstName lastName phoneNumber,
      RegistrationScreen_isFormValid email password confirmPassword firstName lastName
        phoneNumber = false)
  /\ (forall email password, LoginScreen_isFormValid email password = false)
  /\ (forall email password confirmPassword firstName lastName phoneNumber isSubmitting,
         RegistrationScreen_submit_isDisabled email password confirmPassword firstName
           lastName phoneNumber isSubmitting = true)
  /\ (forall email password isSubmitting isLockedOut,
         LoginScreen_submit_isDisabled email password isSubmitting isLockedOut = true).
Proof.
  assert (Hregistration :
            forall email password confirmPassword firstName lastName phoneNumber,
              RegistrationScreen_isFormValid email password confirmPassword firstName
                lastName phoneNumber = false).
  { intros. unfold RegistrationScreen_isFormValid, RegistrationScreen_formErrors,
      hasFormErrors.
    rewrite !map_size_insert_None by (vm_compute; reflexivity). reflexivity. }
  assert (Hlogin : forall email password, LoginScreen_isFormValid email password = false).
  { intros. unfold LoginScreen_isFormValid, LoginScreen_formErrors, hasFormErrors.
    rewrite !map_size_insert_None by (vm_compute; reflexivity). reflexivity. }
  split; [exact Hregistration|]. split; [exact Hlogin|]. split; intros.
  - unfold RegistrationScreen_submit_isDisabled. cbv zeta. rewrite Hregistration.
    reflexivity.
  - unfold LoginScreen_submit_isDisabled. cbv zeta. rewrite Hlogin. reflexivity.
Qed.

Lemma setValue_if_empty (s : string) : setValue_if (Some s) EmptyString = s.
Proof. destruct s; reflexivity. Qed.

(** X22. The draft of the registration form, from one visit of the screen
    to the next. What the [watch] subscription saves of a form, the next
    served [loadPartialData] puts back into an empty form: the email, the
    first name, the last name and the phone number come back as typed, and
    the two password fields come back empty. *)
Theorem draft_restored_without_passwords (form : RegistrationFormData.t) (w : World) :
  let saved := watch_subscription (watched form) w in
  saved.1 = Ok true ->
  rejected saved.2 = false ->
  (loadPartialData defaultValues saved.2).1
  = Ok (RegistrationFormData.mk (RegistrationFormData.email form)
          EmptyString EmptyString
          (RegistrationFormData.firstName form) (RegistrationFormData.lastName form)
          (RegistrationFormData.phoneNumber form)).
Proof.
  intros saved. subst saved. unfold watch_subscription.
  rewrite storePartialRegistration_run.
  destruct (rejected w); cbn [fst snd]; [discriminate|]. intros _ Hserved.
  unfold loadPartialData. run_service. rewrite getPartialRegistration_run, Hserved.
  unfold set_async. cbn [async]. rewrite lookup_insert_eq. cbn [draft_of].
  unfold watched, defaultValues.
  cbn [PartialRegistration.email PartialRegistration.firstName
       PartialRegistration.lastName PartialRegistration.phoneNumber
       RegistrationFormData.email RegistrationFormData.password
       RegistrationFormData.confirmPassword RegistrationFormData.firstName
       RegistrationFormData.lastName RegistrationFormData.phoneNumber fst].
  rewrite !setValue_if_empty. reflexivity.
Qed.

(** X23. The submit handler of the registration screen. With a form that
    fails validation it does nothing: no alert, no backend call, the store
    and the provider as they were. With a valid form, on backends that
    serve every call: a new email ends with the alert "Registration
    Failed" and the unexpected-error message, the provider not
    authenticated, the credential and the profile stored all the same and
    the draft kept; an email that is already registered ends with the
    alert "Registration Failed" and the already-exists message, the store
    unchanged. Either way the provider is left not loading. *)
Theorem RegistrationScreen_onSubmit_spec
    (data : RegistrationFormData.t) (authState : AuthState.t) (w : World) :
  (hasFormErrors (validateRegistrationForm data) = true ->
   RegistrationScreen_onSubmit data authState w = (Ok (None, authState), w))
  /\ (hasFormErrors (validateRegistrationForm data) = false ->
      reliable w ->
      (same_email (credentials_of (keychain w)) (RegistrationFormData.email data)
       = false ->
       let done := RegistrationScreen_onSubmit data authState w in
       done.1 = Ok (Some ("Registration Failed",
                          "An unexpected error occurred during registration"),
                    with_isLoading false authState)
       /\ keychain done.2
          = Some (RegistrationFormData.email data, RegistrationFormData.password data)
       /\ async done.2 !! USER_DATA = Some (JsonUser (new_user data))
       /\ async done.2 !! PARTIAL_REGISTRATION = async w !! PARTIAL_REGISTRATION)
      /\ (same_email (credentials_of (keychain w)) (RegistrationFormData.email data)
          = true ->
          RegistrationScreen_onSubmit data authState w
          = (Ok (Some ("Registration Failed",
                       "An account with this email already exists"),
                 with_isLoading false authState), w))).
Proof.
  unfold RegistrationScreen_onSubmit. cbv zeta. split.
  - intros ->. reflexivity.
  - intros -> Hrel. unfold AuthProvider_register, AuthProvider_register_with.
    run_service. rewrite (register_reliable data w Hrel). cbv zeta. split.
    + intros ->. cbn [fst snd RegisterResult.success RegisterResult.user
                       RegisterResult.error or_else truthy].
      destruct authState as [auth user loading].
      split; [reflexivity|]. split; [reflexivity|]. cbn [async].
      split; [apply lookup_insert_eq|apply lookup_insert_ne; discriminate].
    + intros ->. cbn [fst snd RegisterResult.success RegisterResult.user
                       RegisterResult.error or_else].
      destruct authState as [auth user loading]. reflexivity.
Qed.

(** X24. The submit handler of the login screen. With a form that fails
    validation it does nothing. With a valid form, on backends that serve
    every call: while a lockout is running it raises "Account Locked" with
    the minutes left, shows the banner with the seconds left and leaves the
    store as it was, so the attempt is not counted; with the stored email
    and password it raises "Login Failed" with the unexpected-error
    message and the provider stays as it was, not loading; with a wrong
    email or password it raises "Login Failed", or, on the attempt that
    reaches the maximum against a stored credential, "Account Locked" with
    the banner at 900 seconds. *)
Theorem LoginScreen_onSubmit_spec
    (data : LoginFormData.t) (banner : Banner.t) (authState : AuthState.t) (w : World) :
  (hasFormErrors (validateLoginForm data) = true ->
   LoginScreen_onSubmit data banner authState w = (Ok (None, banner, authState), w))
  /\ (hasFormErrors (validateLoginForm data) = false ->
      reliable w ->
      (forall t : Z,
          async w !! LOCKOUT_TIMESTAMP = Some (Text (toString (Num t))) ->
          now w - t < LOCKOUT_DURATION ->
          let remaining := Num (ceil_div (LOCKOUT_DURATION - (now w - t)) 1000) in
          LoginScreen_onSubmit data banner authState w
          = (Ok (Some ("Account Locked",
                       "Too many failed attempts. Please try again in "
                         ++ toString (Math_ceil_div remaining 60) ++ " minutes."),
                 Banner.mk true remaining, authState), w))
      /\ (async w !! LOCKOUT_TIMESTAMP = None ->
          keychain w = Some (LoginFormData.email data, LoginFormData.password data) ->
          (LoginScreen_onSubmit data banner authState w).1
          = Ok (Some ("Login Failed", "An unexpected error occurred during login"),
                banner, with_isLoading false authState))
      /\ (async w !! LOCKOUT_TIMESTAMP = None ->
          mismatch data w ->
          forall count : Z,
            stored_attempts w = Num count ->
            (LoginScreen_onSubmit data banner authState w).1
            = Ok (if (MAX_FAILED_ATTEMPTS <=? count + 1)
                     && bool_decide (keychain w <> None)
                  then (Some ("Account Locked",
                              "Too many failed attempts. Account locked for 15 minutes."),
                        Banner.mk true (Num 900), with_isLoading false authState)
                  else (Some ("Login Failed", "Invalid email or password"),
                        banner, with_isLoading false authState)))).
Proof.
  unfold LoginScreen_onSubmit. cbv zeta. split.
  - intros ->. reflexivity.
  - intros -> Hrel. destruct (isLockedOut_reliable w Hrel) as [Hnone Hsome].
    run_service. split; [|split].
    + intros t Hts Hrecent. rewrite (Hsome t Hts).
      destruct (Z.ltb_spec (now w - t) LOCKOUT_DURATION); [|lia].
      rewrite getRemainingLockoutTime_run.
      rewrite (rejected_reliable w Hrel), (pop_reliable w Hrel), Hts, present_number,
        (timeSinceLockout_stored w t Hts).
      cbn [negb]. cbv zeta. unfold num_sub, num_gt.
      destruct (Z.ltb_spec 0 (LOCKOUT_DURATION - (now w - t))); [|lia].
      reflexivity.
    + intros Hts Hk. rewrite (Hnone Hts).
      unfold AuthProvider_login, AuthProvider_login_with. run_service.
      rewrite (login_match_reliable data w Hrel Hts Hk).
      destruct authState as [auth user loading]. reflexivity.
    + intros Hts Hmis count Hcount. rewrite (Hnone Hts).
      unfold AuthProvider_login, AuthProvider_login_with. run_service.
      rewrite (login_mismatch_reliable data w count Hrel Hmis Hts Hcount).
      destruct authState as [auth user loading].
      destruct ((MAX_FAILED_ATTEMPTS <=? count + 1) && bool_decide (keychain w <> None));
        reflexivity.
Qed.

(** X25. The lockout banner of the login screen, on backends that serve
    every call. With no timestamp stored [checkLockout] leaves the banner
    off. While the lockout of a timestamp that is not in the future is
    running, the banner is on and shows between 1 and 900 seconds. Once it
    has run out the banner is off, the seconds shown last are kept, and the
    poll itself has removed the counter and the timestamp. *)
Theorem checkLockout_banner (banner : Banner.t) (w : World) :
  reliable w ->
  (async w !! LOCKOUT_TIMESTAMP = None ->
   checkLockout banner w = (Ok (Banner.mk false (Banner.remainingTime banner)), w))
  /\ forall t : Z,
      async w !! LOCKOUT_TIMESTAMP = Some (Text (toString (Num t))) ->
      t <= now w ->
      (now w - t < LOCKOUT_DURATION ->
       exists seconds : Z,
         checkLockout banner w = (Ok (Banner.mk true (Num seconds)), w)
         /\ 1 <= seconds <= 900
         /\ 1000 * (seconds - 1) < LOCKOUT_DURATION - (now w - t) <= 1000 * seconds)
      /\ (LOCKOUT_DURATION <= now w - t ->
          (checkLockout banner w).1
          = Ok (Banner.mk false (Banner.remainingTime banner))
          /\ async (checkLockout banner w).2 !! LOCKOUT_TIMESTAMP = None
          /\ async (checkLockout banner w).2 !! FAILED_LOGIN_ATTEMPTS = None).
Proof.
  intros Hrel. destruct (isLockedOut_reliable w Hrel) as [Hnone Hsome].
  unfold checkLockout. run_service. split.
  - intros Hts. rewrite (Hnone Hts). reflexivity.
  - intros t Hts Hpast. rewrite (Hsome t Hts). split.
    + intros Hrecent. destruct (Z.ltb_spec (now w - t) LOCKOUT_DURATION); [|lia].
      exists (ceil_div (LOCKOUT_DURATION - (now w - t)) 1000).
      rewrite getRemainingLockoutTime_run.
      rewrite (rejected_reliable w Hrel), (pop_reliable w Hrel), Hts, present_number,
        (timeSinceLockout_stored w t Hts).
      cbn [negb]. cbv zeta. unfold num_sub, num_gt.
      destruct (Z.ltb_spec 0 (LOCKOUT_DURATION - (now w - t))); [|lia].
      split; [reflexivity|].
      pose proof (ceil_div_spec (LOCKOUT_DURATION - (now w - t)) 1000 ltac:(lia)).
      pose proof (ceil_div_pos (LOCKOUT_DURATION - (now w - t)) 1000 ltac:(lia) ltac:(lia)).
      pose proof (ceil_div_mono (LOCKOUT_DURATION - (now w - t)) LOCKOUT_DURATION 1000
                    ltac:(lia) ltac:(lia)) as Hmono.
      change (ceil_div LOCKOUT_DURATION 1000) with 900 in Hmono.
      split; [lia|assumption].
    + intros Hexpired. destruct (Z.ltb_spec (now w - t) LOCKOUT_DURATION); [lia|].
      cbn [fst snd]. split; [reflexivity|]. unfold set_async. cbn [async]. split.
      * apply lookup_delete_eq.
      * rewrite lookup_delete_ne by discriminate. apply lookup_delete_eq.
Qed.

Lemma padded_seconds (r : Z) :
  0 <= r < 60 ->
  String.length (padStart 2 "0" (toString (Num r))) = 2%nat
  /\ parseInt10 (padStart 2 "0" (toString (Num r))) = Num r.
Proof.
  intros Hr. rewrite <- (Z2Nat.id r) by lia.
  assert (Hn : (Z.to_nat r < 60)%nat) by lia. revert Hn.
  generalize (Z.to_nat r). intros n Hn.
  do 60 (destruct n as [|n]; [vm_compute; split; reflexivity|]). lia.
Qed.

(** X26. The clock of the lockout banner. For a number of seconds that is
    not negative, [formatTime] gives the whole minutes in decimal, a colon,
    and the seconds left over on exactly two characters, which read back as
    the remainder of the division by 60. *)
Theorem formatTime_spec (seconds : Z) :
  0 <= seconds ->
  exists secs : string,
    formatTime (Num seconds) = (toString (Num (seconds / 60)) ++ ":" ++ secs)%string
    /\ String.length secs = 2%nat
    /\ parseInt10 secs = Num (seconds mod 60).
Proof.
  intros Hpos. unfold formatTime. cbv zeta. cbn [Math_floor_div num_rem].
  rewrite Z.rem_mod_nonneg by lia.
  exists (padStart 2 "0" (toString (Num (seconds mod 60)))).
  split; [reflexivity|]. apply padded_seconds.
  apply Z.mod_pos_bound. lia.
Qed.

(** * The provider and the navigator *)

(** X27. The functions of the provider have no [catch] of their own and
    need none, since the service never throws. [checkAuth] of the provider
    takes over the answer of the service. [register] and [login] of the
    provider would authenticate with the user of a successful answer, but
    the service as it is never answers success: they hand on its error and
    leave the provider as it was, not loading. [logout] of the provider
    ends not authenticated and changes nothing that is stored. *)
Theorem AuthProvider_settles (authState : AuthState.t) (w : World) :
  (exists result,
      (checkAuth w).1 = Ok result
      /\ (AuthProvider_checkAuth authState w).1
         = Ok (AuthState.mk (CheckAuthResult.isAuthenticated result)
                 (CheckAuthResult.user result) false))
  /\ (forall data, exists result,
         (register data w).1 = Ok result
         /\ AuthProvider_register data authState w
            = (Ok ((false, RegisterResult.error result), with_isLoading false authState),
               (register data w).2))
  /\ (forall data, exists result,
         (login data w).1 = Ok result
         /\ AuthProvider_login data authState w
            = (Ok (result, with_isLoading false authState), (login data w).2))
  /\ AuthProvider_logout authState w = (Ok (AuthState.mk false None false), w)
  /\ (forall service data user error w',
         service data w = (Ok (RegisterResult.mk true (Some user) error), w') ->
         AuthProvider_register_with service data authState w
         = (Ok ((true, error), AuthState.mk true (Some user) false), w'))
  /\ (forall service data user error locked time w',
         service data w = (Ok (LoginResult.mk true (Some user) error locked time), w') ->
         AuthProvider_login_with service data authState w
         = (Ok (LoginResult.mk true (Some user) error locked time,
                AuthState.mk true (Some user) false), w')).
Proof.
  split; [|split; [|split; [|split; [|split]]]].
  - unfold AuthProvider_checkAuth. run_service. rewrite checkAuth_run. cbv zeta.
    destruct (bool_decide _ && bool_decide _); eexists; split; reflexivity.
  - intros data. unfold AuthProvider_register, AuthProvider_register_with. run_service.
    pose proof (register_never_succeeds data w) as Hnever.
    destruct (register data w) as [[[success user error]|] w'] eqn:Hreg.
    + specialize (Hnever _ eq_refl). cbn in Hnever. subst success.
      eexists. split; [reflexivity|].
      destruct authState as [auth current loading]. reflexivity.
    + exfalso. revert Hreg. unfold register, try_catch.
      match goal with |- context [let (o, w') := ?x in _] => destruct x as [[r|] v] end;
        discriminate.
  - intros data. unfold AuthProvider_login, AuthProvider_login_with. run_service.
    pose proof (login_never_succeeds data w) as Hnever.
    destruct (login data w) as [[[success user error locked time]|] w'] eqn:Hlog.
    + destruct (Hnever _ eq_refl) as [Hfalse _]. cbn in Hfalse. subst success.
      eexists. split; [reflexivity|].
      destruct authState as [auth current loading]. reflexivity.
    + exfalso. revert Hlog. unfold login, try_catch.
      match goal with |- context [let (o, w') := ?x in _] => destruct x as [[r|] v] end;
        discriminate.
  - unfold AuthProvider_logout. run_service. rewrite logout_run. reflexivity.
  - intros service data user error w' Hservice.
    unfold AuthProvider_register_with. run_service. rewrite Hservice. reflexivity.
  - intros service data user error locked time w' Hservice.
    unfold AuthProvider_login_with. run_service. rewrite Hservice. reflexivity.
Qed.

(** X28. Logging out and opening the application again. With a credential
    and a profile stored and every call served, [logout] of the provider
    leaves the navigator on the registration and login screens and changes
    nothing that is stored; when the application starts again, the
    provider's [checkAuth] finds the credential and the profile, the
    navigator shows the home screen, and the home screen shows the stored
    profile. *)
Theorem restart_after_logout
    (authState : AuthState.t) (w : World) (credential : string * string)
    (user : User.t) :
  reliable w ->
  keychain w = Some credential ->
  async w !! USER_DATA = Some (JsonUser user) ->
  let out := AuthProvider_logout authState w in
  let restarted := AuthProvider_checkAuth initialAuthState out.2 in
  (exists state',
      out.1 = Ok state' /\ AppNavigator state' = RegistrationAndLoginStack)
  /\ out.2 = w
  /\ AppNavigator initialAuthState = LoadingContainer
  /\ exists state'',
      restarted.1 = Ok state''
      /\ AppNavigator state'' = HomeStack
      /\ HomeScreen state'' = Profile user.
Proof.
  intros Hrel Hk Hu out restarted. subst out restarted.
  unfold AuthProvider_logout. run_service. rewrite logout_run. cbn [fst snd].
  split; [eexists; split; reflexivity|]. split; [reflexivity|]. split; [reflexivity|].
  unfold AuthProvider_checkAuth. run_service. rewrite checkAuth_run. cbv zeta.
  rewrite (reliable_world w Hrel). settle. rewrite Hk, Hu.
  destruct credential as [username password]. cbn [credentials_of profile_of].
  rewrite !bool_decide_true by discriminate. cbn [andb fst].
  eexists. split; [reflexivity|]. split; reflexivity.
Qed.

(** * The theorems at work on the sample sessions *)

Lemma validateEmail_accepted_witness :
  validateEmail "a@b.com" = true
  /\ count (N.eqb at_sign) (code_units "a@b.com") = 1%nat
  /\ some is_whitespace (code_units "a@b.com") = false
  /\ (5 <= length (code_units "a@b.com"))%nat.
Proof.
  assert (H : validateEmail "a@b.com" = true) by (vm_compute; reflexivity).
  split; [exact H|].
  destruct (validateEmail_accepted "a@b.com" H) as (Hc & Hs & _ & Hl).
  split; [exact Hc|]. split; [exact Hs|exact Hl].
Defined.

Lemma clearAll_wipes_witness :
  reliable locked
  /\ (getCredentials (clearAll locked).2).1 = Ok None
  /\ (getFailedAttempts (clearAll locked).2).1 = Ok (Num 0)
  /\ (isLockedOut (clearAll locked).2).1 = Ok false.
Proof.
  assert (H : reliable locked) by reflexivity. split; [exact H|].
  pose proof (clearAll_wipes locked H) as W. cbv zeta in W.
  destruct W as (_ & Hc & _ & _ & Hf & Hl & _).
  split; [exact Hc|]. split; [exact Hf|exact Hl].
Defined.

Lemma resetFailedAttempts_half_done_witness :
  (isLockedOut locked).1 = Ok true
  /\ (resetFailedAttempts (rejecting_second locked)).1 = Ok false
  /\ async (resetFailedAttempts (rejecting_second locked)).2 !! FAILED_LOGIN_ATTEMPTS
     = None
  /\ (isLockedOut (resetFailedAttempts (rejecting_second locked)).2).1 = Ok true.
Proof.
  split; [vm_compute; reflexivity|].
  pose proof (resetFailedAttempts_half_done (rejecting_second locked) 1000) as H.
  cbv zeta in H. destruct H as (Hr & Hf & _ & Hlocked).
  - reflexivity.
  - reflexivity.
  - vm_compute. reflexivity.
  - vm_compute. reflexivity.
  - split; [exact Hr|]. split; [exact Hf|]. apply Hlocked. vm_compute. reflexivity.
Defined.

Lemma register_credentials_not_stored_witness :
  (register john (rejecting_second signing_up)).1
  = Ok (RegisterResult.mk false None (Some "Failed to store credentials"))
  /\ keychain (register john (rejecting_second signing_up)).2 = None
  /\ async (register john (rejecting_second signing_up)).2 = async signing_up.
Proof.
  pose proof (register_credentials_not_stored john (rejecting_second signing_up)) as H.
  cbv zeta in H. destruct H as (Hreg & Hk & Ha & _).
  - intros username pw Hkey. vm_compute in Hkey. discriminate Hkey.
  - vm_compute. reflexivity.
  - split; [exact Hreg|]. split; [exact Hk|exact Ha].
Defined.

Lemma register_duplicate_after_failed_read_witness :
  keychain (rejecting registered) = Some ("a@b.com", "Passw0rd")
  /\ (register john_again (rejecting registered)).1
     = Ok (RegisterResult.mk false None
             (Some "An unexpected error occurred during registration"))
  /\ keychain (register john_again (rejecting registered)).2
     = Some ("a@b.com", "Different1").
Proof.
  split; [reflexivity|].
  pose proof (register_duplicate_after_failed_read john_again (rejecting registered)
                "Passw0rd") as H.
  cbv zeta in H. destruct H as (Hreg & Hk & _).
  - reflexivity.
  - reflexivity.
  - split; [exact Hreg|exact Hk].
Defined.

Lemma failed_login_answer_witness :
  (getFailedAttempts after_four_failures).1 = Ok (Num 4)
  /\ (login wrong_password after_four_failures).1
     = Ok (LoginResult.mk false None
             (Some "Too many failed attempts. Account locked for 15 minutes.")
             (Some true) (Some (Num 900)))
  /\ (login john_login (login wrong_password after_four_failures).2).1
     = Ok (LoginResult.mk false None
             (Some "Account locked. Please try again in 15 minutes.")
             (Some true) (Some (Num 900))).
Proof.
  split; [vm_compute; reflexivity|].
  pose proof (failed_login_answer wrong_password after_four_failures 4) as H.
  cbv zeta in H. destruct H as (_ & Hmax).
  - reflexivity.
  - intros username password Hk. cbn in Hk. injection Hk as <- <-.
    right. discriminate.
  - vm_compute. reflexivity.
  - vm_compute. reflexivity.
  - destruct Hmax as (Hlogin & _ & Hnext); [vm_compute; discriminate|].
    split; [exact Hlogin|apply Hnext].
Defined.

Lemma register_logout_login_witness :
  (register john signing_up).1
  = Ok (RegisterResult.mk false None
          (Some "An unexpected error occurred during registration"))
  /\ (login john_login (advance 5000 (logout (register john signing_up).2).2)).1
     = Ok (LoginResult.mk false None
             (Some "An unexpected error occurred during login") None None)
  /\ (checkAuth (register john signing_up).2).1
     = Ok (CheckAuthResult.mk true (Some john_profile)).
Proof.
  pose proof (register_logout_login john signing_up 5000) as H.
  cbv zeta in H. destruct H as (Hreg & _ & Hlogin & _ & _ & Hauth & _).
  - reflexivity.
  - vm_compute. reflexivity.
  - intros username pw Hk. vm_compute in Hk. discriminate Hk.
  - split; [exact Hreg|]. split; [exact Hlogin|exact Hauth].
Defined.

Lemma register_keeps_lockout_witness :
  keychain (register mary locked).2 = Some ("c@d.com", "Secret123")
  /\ (login (LoginFormData.mk "c@d.com" "Secret123") (register mary locked).2).1
     = Ok (LoginResult.mk false None
             (Some "Account locked. Please try again in 14 minutes.")
             (Some true) (Some (Num 840))).
Proof.
  pose proof (register_keeps_lockout mary locked 1000) as H.
  cbv zeta in H. destruct H as (Hk & _ & _ & Hlogin).
  - reflexivity.
  - vm_compute. reflexivity.
  - vm_compute. reflexivity.
  - intros username pw Hkey. cbn in Hkey. injection Hkey as <- <-. discriminate.
  - split; [exact Hk|exact Hlogin].
Defined.

Lemma lockout_stays_consistent_witness :
  reliable fresh
  /\ lockout_consistent fresh
  /\ reliable (perform_all a_day_of_use fresh)
  /\ lockout_consistent (perform_all a_day_of_use fresh).
Proof.
  assert (Hrel : reliable fresh) by reflexivity.
  assert (Hinv : lockout_consistent fresh).
  { exists 0. split; [reflexivity|]. split; [vm_compute; split; discriminate|].
    reflexivity. }
  split; [exact Hrel|]. split; [exact Hinv|].
  exact (lockout_stays_consistent a_day_of_use fresh Hrel Hinv).
Defined.

Lemma draft_restored_without_passwords_witness :
  (watch_subscription (watched john) signing_up).1 = Ok true
  /\ (loadPartialData defaultValues (watch_subscription (watched john) signing_up).2).1
     = Ok (RegistrationFormData.mk "a@b.com" EmptyString EmptyString "John" "Doe"
             "1234567890").
Proof.
  assert (H : (watch_subscription (watched john) signing_up).1 = Ok true)
    by (vm_compute; reflexivity).
  split; [exact H|].
  exact (draft_restored_without_passwords john signing_up H eq_refl).
Defined.

Lemma checkLockout_banner_witness :
  reliable locked
  /\ (checkLockout (Banner.mk false (Num 0)) locked).1
     = Ok (Banner.mk true (Num 840)).
Proof.
  assert (Hrel : reliable locked) by reflexivity. split; [exact Hrel|].
  destruct (checkLockout_banner (Banner.mk false (Num 0)) locked Hrel) as [_ Hsome].
  destruct (Hsome 1000) as [Hrunning _].
  - vm_compute. reflexivity.
  - vm_compute. discriminate.
  - destruct Hrunning as (seconds & Hpoll & _ & Hbounds); [vm_compute; reflexivity|].
    rewrite Hpoll. cbn [fst]. unfold LOCKOUT_DURATION in Hbounds. cbn in Hbounds.
    replace seconds with 840 by lia. reflexivity.
Defined.

Lemma formatTime_spec_witness :
  formatTime (Num 125) = "2:05"
  /\ exists secs : string,
      formatTime (Num 125) = ("2:" ++ secs)%string
      /\ String.length secs = 2%nat
      /\ parseInt10 secs = Num 5.
Proof.
  split; [vm_compute; reflexivity|].
  destruct (formatTime_spec 125) as (secs & Hformat & Hlength & Hread); [lia|].
  exists secs. split; [exact Hformat|]. split; [exact Hlength|exact Hread].
Defined.

Lemma restart_after_logout_witness :
  exists state,
    (AuthProvider_checkAuth initialAuthState
       (AuthProvider_logout (AuthState.mk true (Some john_profile) false) registered).2).1
    = Ok state
    /\ AppNavigator state = HomeStack
    /\ HomeScreen state = Profile john_profile.
Proof.
  pose proof (restart_after_logout (AuthState.mk true (Some john_profile) false)
                registered ("a@b.com", "Passw0rd") john_profile) as H.
  cbv zeta in H. destruct H as (_ & _ & _ & Hrestart).
  - reflexivity.
  - reflexivity.
  - vm_compute. reflexivity.
  - exact Hrestart.
Defined.

Lemma AuthProvider_settles_witness :
  (AuthProvider_checkAuth initialAuthState registered).1
  = Ok (AuthState.mk true (Some john_profile) false)
  /\ AuthProvider_logout (AuthState.mk true (Some john_profile) false) registered
     = (Ok (AuthState.mk false None false), registered)
  /\ (AuthProvider_login john_login initialAuthState registered).1
     = Ok (LoginResult.mk false None
             (Some "An unexpected error occurred during login") None None,
           AuthState.mk false None false).
Proof.
  destruct (AuthProvider_settles initialAuthState registered)
    as ((checked & Hchecked & Hcheck) & _ & Hlogin & _).
  destruct (AuthProvider_settles (AuthState.mk true (Some john_profile) false) registered)
    as (_ & _ & _ & Hlogout & _).
  vm_compute in Hchecked. injection Hchecked as <-.
  split; [exact Hcheck|]. split; [exact Hlogout|].
  destruct (Hlogin john_login) as (result & Hresult & Hprovider).
  vm_compute in Hresult. injection Hresult as <-.
  rewrite Hprovider. reflexivity.
Defined.

(** The validators on the values of the repository's own tests
    ([src/utils/__tests__/validation.test.ts]) and on white space beyond
    ASCII. *)
Example validation_samples :
  map validateEmail
    ["test@example.com"; "user.name@domain.co.uk"; "user+tag@example.com";
     "invalid"; "invalid@"; "@example.com"; "test@"; EmptyString]
  = [true; true; true; false; false; false; false; false]
  /\ map validatePasswordStrength
       ["Password123"; "MyP@ssw0rd"; "Test1234";
        "short"; "nouppercase123"; "NOLOWERCASE123"; "NoNumbers"; EmptyString]
     = [true; true; true; false; false; false; false; false]
  /\ map validatePhoneNumber
       ["1234567890"; "123-456-7890"; "(123) 456-7890"; "123 456 7890";
        "123"; "12345678901"; "abc1234567"; EmptyString]
     = [true; true; true; true; false; false; false; false]
  /\ map validateRequired ["test"; "  test  "; EmptyString; "   "]
     = [true; true; false; false]
  /\ code_units no_break_space = [160%N]
  /\ code_units em_space = [8195%N]
  /\ validateRequired (no_break_space ++ em_space) = false
  /\ validateEmail ("a" ++ no_break_space ++ "b@c.d") = false
  /\ validatePhoneNumber ("12345" ++ no_break_space ++ "67890") = true
  /\ parseInt10 (em_space ++ "42") = Num 42.
Proof. vm_compute. repeat split. Qed.
